(** * dhan_rest: the klines proxy of [main.py]

    A shallow embedding of [get_klines] (main.py, lines 34-135) and of the
    parts of the Python runtime it calls: [str], [int], [zip], [str.isdigit],
    float formatting, [datetime.fromtimestamp], [strftime], and the way FastAPI
    turns the function's outcome into an HTTP response.

    Everything outside the source file is gathered in a [World]: the
    instrument table read from the CSV file, the clock and the time zone, the
    vendor's answer to the POST, and the interpreter's Unicode tables beyond
    Latin-1.

    The requests considered are those FastAPI hands to [get_klines]: two
    strings and two optional integers. Time is POSIX time. The interpreter
    runs with its default limit of 4300 digits on an integer turned to or
    from text.

    A text that was decoded from bytes (the query string, the CSV file, a
    status line, an error message) holds no lone surrogate; only the escapes
    of the vendor's JSON can put one into a string. [print] is left out: it
    writes to a UTF-8 stream the text of an exception or the [repr] of a
    dict, which holds no lone surrogate, but for line 133, where a vendor
    body that is a bare JSON string is written as it is. *)

From Stdlib Require Import ZArith List Bool Lia String Ascii Decimal.
From Stdlib Require Import SpecFloat.
From Stdlib Require DecimalPos.
Import ListNotations.
Local Open Scope Z_scope.
Set Warnings "-register-all".

(** ** Python strings

    A Python [str] is a sequence of Unicode code points. *)

Definition codepoint := Z.
Definition pystr := list codepoint.

(** An ASCII literal of the source as a Python string. *)
Definition lit (s : string) : pystr :=
  map (fun a => Z.of_N (N_of_ascii a)) (list_ascii_of_string s).

Definition pystr_eqb (a b : pystr) : bool :=
  if list_eq_dec Z.eq_dec a b then true else false.

Fixpoint join (sep : pystr) (parts : list pystr) : pystr :=
  match parts with
  | [] => []
  | [p] => p
  | p :: rest => p ++ sep ++ join sep rest
  end.

Fixpoint uint_chars (d : Decimal.uint) : pystr :=
  match d with
  | Nil => []
  | D0 r => 48 :: uint_chars r
  | D1 r => 49 :: uint_chars r
  | D2 r => 50 :: uint_chars r
  | D3 r => 51 :: uint_chars r
  | D4 r => 52 :: uint_chars r
  | D5 r => 53 :: uint_chars r
  | D6 r => 54 :: uint_chars r
  | D7 r => 55 :: uint_chars r
  | D8 r => 56 :: uint_chars r
  | D9 r => 57 :: uint_chars r
  end.

(** [str(n)] for an integer: decimal digits, a minus sign when negative. *)
Definition int_str (z : Z) : pystr :=
  match Z.to_int z with
  | Decimal.Pos d => uint_chars d
  | Decimal.Neg d => 45 :: uint_chars d
  end.

(** ** The interpreter's Unicode tables

    The tables are fixed here for Latin-1 and taken from the world beyond it
    (they grow with every Unicode version). *)

Record Unicode := {
  (** Numeric_Type is Digit or Decimal: [str.isdigit] *)
  ucd_isdigit : codepoint -> bool;
  (** the value of a Numeric_Type=Decimal character, read by [int] *)
  ucd_todecimal : codepoint -> option Z;
  ucd_isspace : codepoint -> bool;
  ucd_isprintable : codepoint -> bool
}.

Definition is_ascii_digit (c : codepoint) : bool := (48 <=? c) && (c <=? 57).

(** [str.isdigit] on one character: besides 0-9, Latin-1 has the superscripts
    U+00B2, U+00B3 and U+00B9. *)
Definition isdigit (u : Unicode) (c : codepoint) : bool :=
  if c <? 256
  then is_ascii_digit c || (c =? 178) || (c =? 179) || (c =? 185)
  else ucd_isdigit u c.

(** The decimal value of a character, as [int] reads it; -1 in CPython is
    [None] here. *)
Definition todecimal (u : Unicode) (c : codepoint) : option Z :=
  if c <? 256
  then if is_ascii_digit c then Some (c - 48) else None
  else ucd_todecimal u c.

(** Whitespace: TAB..CR, FS..US, space, NEL and NBSP in Latin-1. *)
Definition isspace (u : Unicode) (c : codepoint) : bool :=
  if c <? 256
  then ((9 <=? c) && (c <=? 13)) || ((28 <=? c) && (c <=? 31))
       || (c =? 32) || (c =? 133) || (c =? 160)
  else ucd_isspace u c.

(** The surrogates U+D800..U+DFFF: code points that are no characters, and
    that UTF-8 does not encode. *)
Definition is_surrogate (c : codepoint) : bool := (55296 <=? c) && (c <=? 57343).

(** A surrogate (category Cs) is never printable. *)
Definition isprintable (u : Unicode) (c : codepoint) : bool :=
  if c <? 256
  then ((32 <=? c) && (c <=? 126)) || ((161 <=? c) && negb (c =? 173))
  else negb (is_surrogate c) && ucd_isprintable u c.

(** A text that can be written as UTF-8. *)
Definition encodable (s : pystr) : bool :=
  forallb (fun c => negb (is_surrogate c)) s.

(** ** Floats

    A Python float is an IEEE-754 binary64 number. *)

Definition float := spec_float.
Definition prec : Z := 53.
Definition emax : Z := 1024.

(** The double nearest to [mant * 10^exp10]: what the JSON decoder makes of a
    number literal with a fraction or an exponent. *)
Definition float_lit (mant exp10 : Z) : float :=
  if 0 <=? exp10
  then binary_normalize prec emax (mant * 10 ^ exp10) 0 false
  else match mant with
       | Z0 => S754_zero false
       | Zpos m => SFdiv prec emax (S754_finite false m 0)
                     (S754_finite false (Z.to_pos (10 ^ (- exp10))) 0)
       | Zneg m => SFdiv prec emax (S754_finite true m 0)
                     (S754_finite false (Z.to_pos (10 ^ (- exp10))) 0)
       end.

(** *** Shortest round-trip digits (float_repr_style 'short')

    The magnitude [m * 2^e] is first written with the mantissa of a binary64
    number: 53 bits, or exponent -1074 for a subnormal. *)
Definition canon (m : positive) (e : Z) : Z * Z :=
  let d := Z.log2 (Zpos m) + 1 in
  let sh := Z.max 0 (Z.min (53 - d) (e + 1074)) in
  (Zpos m * 2 ^ sh, e - sh).

(** The reals that round to [m * 2^e], as numerators over the denominator
    [den]: the value is [mid / den], the interval is [lo / den .. hi / den],
    and its ends belong to it when [m] is even. *)
Record rounding_interval := {
  lo : Z; mid : Z; hi : Z; den : Z; closed : bool
}.

Definition interval_of (m e : Z) : rounding_interval :=
  let unit := 2 ^ Z.max e 0 in
  let below := if (m =? 2 ^ 52) && (-1074 <? e) then unit else 2 * unit in
  {| lo := 4 * m * unit - below;
     mid := 4 * m * unit;
     hi := 4 * m * unit + 2 * unit;
     den := 4 * 2 ^ Z.max (- e) 0;
     closed := Z.even m |}.

(** [c * 10^q] compared with [num / d]. *)
Definition cmp_dec (c q num d : Z) : comparison :=
  (c * 10 ^ Z.max q 0 * d ?= num * 10 ^ Z.max (- q) 0).

Definition inside (iv : rounding_interval) (c q : Z) : bool :=
  match cmp_dec c q (lo iv) (den iv), cmp_dec c q (hi iv) (den iv) with
  | Gt, Lt => true
  | Eq, Lt | Gt, Eq => closed iv
  | _, _ => false
  end.

(** The decimal point position: the [k] with [10^(k-1) <= value < 10^k],
    searched upwards from an underestimate. *)
Fixpoint decpt_from (iv : rounding_interval) (k : Z) (fuel : nat) : Z :=
  match fuel with
  | O => k
  | S fuel' =>
      match cmp_dec 1 k (mid iv) (den iv) with
      | Gt => k
      | _ => decpt_from iv (k + 1) fuel'
      end
  end.

Definition decpt_of (iv : rounding_interval) : Z :=
  let lg := Z.log2 (mid iv) - Z.log2 (den iv) - 1 in
  decpt_from iv (lg * 30103 / 100000 - 1) 8.

(** The [n]-digit decimal just below the value. *)
Definition digits_below (iv : rounding_interval) (q : Z) : Z :=
  (mid iv * 10 ^ Z.max (- q) 0) / (den iv * 10 ^ Z.max q 0).

(** The shortest digit string that reads back as the same double and, among
    those, the nearest to it; [n] counts the digits tried so far. *)
Fixpoint shortest (iv : rounding_interval) (k n : Z) (fuel : nat) : Z * Z :=
  let q := k - n in
  let d := digits_below iv q in
  match fuel with
  | O => (d, q)
  | S fuel' =>
      let below_ok := inside iv d q in
      let above_ok := inside iv (d + 1) q in
      let above_nearer :=
        match cmp_dec (2 * d + 1) q (2 * mid iv) (den iv) with
        | Lt => true
        | Eq => Z.odd d
        | Gt => false
        end in
      if below_ok && above_ok then (if above_nearer then (d + 1, q) else (d, q))
      else if below_ok then (d, q)
      else if above_ok then (d + 1, q)
      else shortest iv k (n + 1) fuel'
  end.

(** The digits and the decimal point position of a positive double. *)
Definition float_digits (m : positive) (e : Z) : pystr * Z :=
  let '(cm, ce) := canon m e in
  let iv := interval_of cm ce in
  let k := decpt_of iv in
  let '(d, q) := shortest iv k 1 17 in
  let n := k - q in
  if d =? 10 ^ n then ([49], k + 1) else (int_str d, k).

Definition zeros (n : Z) : pystr := repeat 48 (Z.to_nat n).

(** [repr] of a float: exponent notation when the decimal point lies more
    than 16 places right or 4 places left of the first digit. *)
Definition format_digits (ds : pystr) (decpt : Z) : pystr :=
  let nd := Z.of_nat (List.length ds) in
  if (decpt <=? -4) || (16 <? decpt) then
    let ex := decpt - 1 in
    let mant := match ds with
                | [] => []
                | [d] => [d]
                | d :: rest => d :: 46 :: rest
                end in
    let ex_digits := int_str (Z.abs ex) in
    mant ++ [101; if ex <? 0 then 45 else 43]
         ++ (if Z.abs ex <? 10 then 48 :: ex_digits else ex_digits)
  else if decpt <=? 0 then [48; 46] ++ zeros (- decpt) ++ ds
  else if nd <=? decpt then ds ++ zeros (decpt - nd) ++ [46; 48]
  else firstn (Z.to_nat decpt) ds ++ 46 :: skipn (Z.to_nat decpt) ds.

Definition float_repr (f : float) : pystr :=
  match f with
  | S754_nan => lit "nan"
  | S754_infinity false => lit "inf"
  | S754_infinity true => lit "-inf"
  | S754_zero false => lit "0.0"
  | S754_zero true => lit "-0.0"
  | S754_finite s m e =>
      let '(ds, decpt) := float_digits m e in
      (if s then [45] else []) ++ format_digits ds decpt
  end.

(** [int(f)]: the integer part, towards zero, read off the binary expansion
    (the mantissa shifted left or right by the exponent). *)
Definition float_trunc (f : float) : option Z :=
  match f with
  | S754_zero _ => Some 0
  | S754_finite s m e =>
      let mag := if 0 <=? e then Zpos m * 2 ^ e else Z.shiftr (Zpos m) (- e) in
      Some (if s then - mag else mag)
  | S754_infinity _ | S754_nan => None
  end.

(** ** Values and exceptions *)

(** What [response.json()] returns: the JSON decoder's Python values. A dict
    keeps its keys in insertion order and holds each key once. *)
Inductive value :=
  | VNone
  | VBool (b : bool)
  | VInt (n : Z)
  | VFloat (f : float)
  | VStr (s : pystr)
  | VList (items : list value)
  | VDict (items : list (pystr * value)).

Inductive exn_class :=
  | KeyError | TypeError | ValueError | OverflowError | NameError
  | RequestException.

Scheme Equality for exn_class.

(** The errors the interpreter and the libraries raise on the paths of
    [get_klines]. *)
Inductive fault :=
  | MissingKey (d : value) (key : pystr)   (* d[key], key absent *)
  | NotSubscriptable (v : value)           (* v[key], v not a dict *)
  | NotIterable (v : value)                (* zip(.., v, ..) *)
  | IntArgument (v : value)                (* int(None), int([..]) *)
  | IntLiteral (s : pystr)                 (* int('abc') *)
  | IntTooLong (digits : Z)                (* int('9' * 5000) *)
  | IntOfNaN                               (* int(float('nan')) *)
  | IntOfInfinity                          (* int(float('inf')) *)
  | UndefinedName (name : pystr)           (* a global that was never bound *)
  | DivisionTooLarge                       (* n / 1000 beyond the doubles *)
  | TimestampOutOfRange                    (* beyond the platform's time_t *)
  | YearOutOfRange                         (* outside years 1..9999 *)
  | DateOverflow                           (* date arithmetic leaves 1..9999 *)
  | Transport (msg : pystr)                (* requests: no usable answer *)
  | HTTPError (status : Z) (reason : pystr) (url : pystr) (* raise_for_status *)
  | Explicit (cls : exn_class) (msg : pystr). (* a raise statement of main.py *)

Definition class_of (f : fault) : exn_class :=
  match f with
  | MissingKey _ _ => KeyError
  | NotSubscriptable _ | NotIterable _ | IntArgument _ => TypeError
  | IntLiteral _ | IntTooLong _ | IntOfNaN | YearOutOfRange => ValueError
  | IntOfInfinity | DivisionTooLarge | TimestampOutOfRange | DateOverflow =>
      OverflowError
  | UndefinedName _ => NameError
  | Transport _ | HTTPError _ _ _ => RequestException
  | Explicit cls _ => cls
  end.

Inductive exn :=
  | HTTPException (status_code : Z) (detail : pystr)
  | Error (f : fault).

(** The outcome of running Python code: a value, or a raised exception. *)
Inductive result (A : Type) :=
  | Ok (a : A)
  | Raise (e : exn).
Arguments Ok {A} a.
Arguments Raise {A} e.

Definition bind {A B} (r : result A) (k : A -> result B) : result B :=
  match r with
  | Ok a => k a
  | Raise e => Raise e
  end.

Notation "x <- r ;; k" := (bind r (fun x => k))
  (at level 61, r at next level, right associativity).
Notation "' pat <- r ;; k" := (bind r (fun x => match x with pat => k end))
  (at level 61, pat pattern, r at next level, right associativity).

(** [try: body  except classes: raise handler(e)]; an [HTTPException] is in
    none of the classes listed in this file. *)
Definition try_except {A} (body : result A) (classes : list exn_class)
    (handler : fault -> exn) : result A :=
  match body with
  | Raise (Error f) =>
      if existsb (exn_class_beq (class_of f)) classes
      then Raise (handler f) else Raise (Error f)
  | r => r
  end.

(** ** Builtins *)

Definition hex_digit (n : Z) : codepoint := if n <? 10 then 48 + n else 87 + n.

(** [n] lower-case hexadecimal digits of [c], most significant first. *)
Fixpoint hex (n : nat) (c : Z) : pystr :=
  match n with
  | O => []
  | S n' => hex n' (c / 16) ++ [hex_digit (c mod 16)]
  end.

(** One character inside the quotes of [repr(s)]. *)
Definition escape (u : Unicode) (quote c : codepoint) : pystr :=
  if (c =? quote) || (c =? 92) then [92; c]
  else if c =? 9 then [92; 116]
  else if c =? 10 then [92; 110]
  else if c =? 13 then [92; 114]
  else if (c <? 32) || (c =? 127) then [92; 120] ++ hex 2 c
  else if c <? 127 then [c]
  else if isprintable u c then [c]
  else if c <=? 255 then [92; 120] ++ hex 2 c
  else if c <=? 65535 then [92; 117] ++ hex 4 c
  else [92; 85] ++ hex 8 c.

(** [repr(s)] of a string: single quotes, unless the string has a single
    quote and no double quote. *)
Definition str_repr (u : Unicode) (s : pystr) : pystr :=
  let quote :=
    if existsb (Z.eqb 39) s && negb (existsb (Z.eqb 34) s) then 34 else 39 in
  quote :: flat_map (escape u quote) s ++ [quote].

Fixpoint py_repr (u : Unicode) (v : value) : pystr :=
  match v with
  | VNone => lit "None"
  | VBool true => lit "True"
  | VBool false => lit "False"
  | VInt n => int_str n
  | VFloat f => float_repr f
  | VStr s => str_repr u s
  | VList items => [91] ++ join (lit ", ") (map (py_repr u) items) ++ [93]
  | VDict items =>
      [123]
      ++ join (lit ", ")
           (map (fun kv => match kv with
                           | (k, x) => str_repr u k ++ lit ": " ++ py_repr u x
                           end) items)
      ++ [125]
  end.

(** [str(v)]: a string is itself, anything else prints as [repr] does. *)
Definition py_str (u : Unicode) (v : value) : pystr :=
  match v with
  | VStr s => s
  | _ => py_repr u v
  end.

(** *** [int(s)] for a string

    Characters from 127 on are first turned into ASCII: whitespace into a
    space, a decimal digit into 0-9; any other ends the literal as invalid. *)
Fixpoint to_ascii_digits (u : Unicode) (s : pystr) : option pystr :=
  match s with
  | [] => Some []
  | c :: r =>
      let c' := if c <? 127 then Some c
                else if isspace u c then Some 32
                else option_map (Z.add 48) (todecimal u c) in
      match c', to_ascii_digits u r with
      | Some a, Some r' => Some (a :: r')
      | _, _ => None
      end
  end.

Definition is_c_space (c : codepoint) : bool :=
  ((9 <=? c) && (c <=? 13)) || (c =? 32).

Fixpoint skip_spaces (s : pystr) : pystr :=
  match s with
  | c :: r => if is_c_space c then skip_spaces r else s
  | [] => []
  end.

(** Digits with single underscores between them; [prev] is the character
    before, [seen] the number of digits read. Returns the value and the rest. *)
Fixpoint scan_digits (acc : Z) (seen : nat) (prev : codepoint) (s : pystr)
    : option (Z * pystr) :=
  let done := if (prev =? 95) || Nat.eqb seen 0 then None else Some (acc, s) in
  match s with
  | c :: r =>
      if is_ascii_digit c then scan_digits (acc * 10 + (c - 48)) (S seen) c r
      else if c =? 95
           then if prev =? 95 then None else scan_digits acc seen c r
           else done
  | [] => done
  end.

Definition int_of_ascii (s : pystr) : option Z :=
  let s1 := skip_spaces s in
  let '(neg, s2) := match s1 with
                    | 43 :: r => (false, r)
                    | 45 :: r => (true, r)
                    | _ => (false, s1)
                    end in
  match s2 with
  | 95 :: _ => None
  | _ =>
      match scan_digits 0 0 0 s2 with
      | Some (n, rest) =>
          match skip_spaces rest with
          | [] => Some (if neg then - n else n)
          | _ => None
          end
      | None => None
      end
  end.

(** The limit on the digits of an integer turned to or from text: the
    interpreter's default. *)
Definition int_max_str_digits : Z := 4300.

(** An integer that [str] writes and the JSON encoder and decoder accept: of
    no more digits than the limit. *)
Definition within_limit (n : Z) : bool :=
  Z.of_nat (List.length (int_str (Z.abs n))) <=? int_max_str_digits.

Definition count_digits (s : pystr) : Z :=
  Z.of_nat (List.length (filter is_ascii_digit s)).

(** The digits [int] has counted when it checks the limit: those of the run
    of digits and underscores after the sign, zeros in front included; the
    check is not reached when the run is malformed. *)
Definition digits_read (s : pystr) : Z :=
  let s1 := skip_spaces s in
  let s2 := match s1 with
            | 43 :: r => r
            | 45 :: r => r
            | _ => s1
            end in
  match s2 with
  | 95 :: _ => 0
  | _ =>
      match scan_digits 0 0 0 s2 with
      | Some (_, rest) => count_digits s2 - count_digits rest
      | None => 0
      end
  end.

(** [int(v)] *)
Definition py_int (u : Unicode) (v : value) : result Z :=
  match v with
  | VBool b => Ok (if b then 1 else 0)
  | VInt n => Ok n
  | VFloat f =>
      match f with
      | S754_nan => Raise (Error IntOfNaN)
      | S754_infinity _ => Raise (Error IntOfInfinity)
      | _ => match float_trunc f with
             | Some n => Ok n
             | None => Raise (Error IntOfNaN)
             end
      end
  | VStr s =>
      match to_ascii_digits u s with
      | Some a =>
          if int_max_str_digits <? digits_read a
          then Raise (Error (IntTooLong (digits_read a)))
          else match int_of_ascii a with
               | Some n => Ok n
               | None => Raise (Error (IntLiteral s))
               end
      | None => Raise (Error (IntLiteral s))
      end
  | VNone | VList _ | VDict _ => Raise (Error (IntArgument v))
  end.

(** [d[key]] with a string key. *)
Fixpoint lookup (key : pystr) (items : list (pystr * value)) : option value :=
  match items with
  | [] => None
  | (k, x) :: rest => if pystr_eqb k key then Some x else lookup key rest
  end.

Definition subscript (d : value) (key : pystr) : result value :=
  match d with
  | VDict items =>
      match lookup key items with
      | Some x => Ok x
      | None => Raise (Error (MissingKey d key))
      end
  | _ => Raise (Error (NotSubscriptable d))
  end.

(** [iter(v)], run to the end: a list gives its items, a string its
    characters, a dict its keys. *)
Definition iterate (v : value) : result (list value) :=
  match v with
  | VList items => Ok items
  | VStr s => Ok (map (fun c => VStr [c]) s)
  | VDict items => Ok (map (fun kv => VStr (fst kv)) items)
  | _ => Raise (Error (NotIterable v))
  end.

(** [zip] of six iterables: it stops with the shortest. *)
Fixpoint zip6 {A} (a b c d e f : list A) : list (A * A * A * A * A * A) :=
  match a, b, c, d, e, f with
  | x1 :: a', x2 :: b', x3 :: c', x4 :: d', x5 :: e', x6 :: f' =>
      (x1, x2, x3, x4, x5, x6) :: zip6 a' b' c' d' e' f'
  | _, _, _, _, _, _ => []
  end.

(** A list comprehension whose element expression can raise. *)
Fixpoint comprehension {A B} (f : A -> result B) (xs : list A) : result (list B) :=
  match xs with
  | [] => Ok []
  | x :: rest => y <- f x ;; ys <- comprehension f rest ;; Ok (y :: ys)
  end.

(** ** The world around the service *)

(** Modelled from the spec: the rows of api-scrip-master.csv, which is not
    among the source files. The spec's data model gives an Instrument Record
    the four fields below, the security identifier being text or an integer
    and the other three text. *)
Inductive ident :=
  | IdText (s : pystr)
  | IdInt (n : Z).

Record Instrument := {
  tradingSymbol : pystr;
  securityId : ident;
  exchangeSegment : pystr;
  instrument : pystr
}.

(** What [requests.post] is called with. *)
Record Sent := {
  url : pystr;
  headers : list (pystr * pystr);
  json : list (pystr * pystr)
}.

(** The vendor's answer: status line and body; [decoded] is what
    [response.json()] yields, the decoder's complaint when the body is not
    JSON. *)
Record Response := {
  status_code : Z;
  reason : pystr;
  decoded : pystr + value
}.

Inductive post_result :=
  | NoResponse (msg : pystr)    (* requests raised: no connection, timeout, .. *)
  | Answer (r : Response).

Record World := {
  (** the table [pd.read_csv] loaded at start-up *)
  script_df : list Instrument;
  (** whether the installed pandas compares a text column with a string
      through NumPy, which drops the NUL characters at the end of a string
      scalar (pandas 3 on its own string arrays does, pandas 2 on object
      columns does not) *)
  drops_trailing_nul : bool;
  (** the environment variable DHAN_ACCESS_TOKEN, when set *)
  environ_token : option pystr;
  unicode : Unicode;
  (** the interpreter's wording of the errors it raises itself *)
  wording : fault -> pystr;
  (** the time [datetime.now()] reads: seconds since the epoch, microseconds *)
  clock : Z * Z;
  (** the local time zone: the offset from UTC, in seconds, at an instant *)
  utcoffset : Z -> Z;
  (** whether the C library pads %Y to four digits *)
  pads_year : bool;
  vendor : Sent -> post_result
}.

(** [str(e)] of a raised error. *)
Definition exn_text (w : World) (f : fault) : pystr :=
  match f with
  | MissingKey _ key => str_repr (unicode w) key
  | Transport msg => msg
  | HTTPError status reason url =>
      int_str status
      ++ (if status <? 500 then lit " Client Error: " else lit " Server Error: ")
      ++ reason ++ lit " for url: " ++ url
  | Explicit _ msg => msg
  | _ => wording w f
  end.

(** ** Step 5 of [get_klines]: the vendor's columns to Binance rows *)

Definition kline_row (u : Unicode) (t : value * value * value * value * value * value)
    : result value :=
  let '(ts, o, h, l, c, v) := t in
  n <- py_int u ts ;;
  Ok (VList [VInt (n * 1000); VStr (py_str u o); VStr (py_str u h);
             VStr (py_str u l); VStr (py_str u c); VStr (py_str u v)]).

(** Lines 107-135. *)
Definition transform (w : World) (dhan_data : value) : result value :=
  try_except
    (ts <- subscript dhan_data (lit "timestamp") ;;
     o <- subscript dhan_data (lit "open") ;;
     h <- subscript dhan_data (lit "high") ;;
     l <- subscript dhan_data (lit "low") ;;
     c <- subscript dhan_data (lit "close") ;;
     v <- subscript dhan_data (lit "volume") ;;
     ts <- iterate ts ;;
     o <- iterate o ;;
     h <- iterate h ;;
     l <- iterate l ;;
     c <- iterate c ;;
     v <- iterate v ;;
     rows <- comprehension (kline_row (unicode w)) (zip6 ts o h l c v) ;;
     Ok (VList rows))
    [KeyError; TypeError]
    (fun e => HTTPException 500
                (lit "Failed to parse DhanHQ response: " ++ exn_text w e)).

(** ** Step 1: the instrument (lines 41-49) *)

Definition not_found (symbol : pystr) : exn :=
  HTTPException 404
    (lit "Instrument with trading symbol '" ++ symbol ++ lit "' not found.").

(** A text without the NUL characters at its end. *)
Fixpoint strip_nul (s : pystr) : pystr :=
  match s with
  | [] => []
  | c :: r =>
      match strip_nul r with
      | [] => if c =? 0 then [] else [c]
      | r' => c :: r'
      end
  end.

(** The symbol as [script_df['tradingSymbol'] == symbol] compares it with
    the column. *)
Definition compared (w : World) (symbol : pystr) : pystr :=
  if drops_trailing_nul w then strip_nul symbol else symbol.

Definition find_instrument (w : World) (symbol : pystr) : result Instrument :=
  let instrument_details :=
    filter (fun row => pystr_eqb (tradingSymbol row) (compared w symbol))
           (script_df w) in
  match instrument_details with
  | [] => Raise (not_found symbol)
  | first :: _ => Ok first
  end.

(** ** Step 2: the date range (lines 51-60) *)

(** A naive datetime, held as [datetime] arithmetic sees it: the proleptic
    Gregorian ordinal of the day (1 is 0001-01-01), the second of the day
    and the microsecond. *)
Record datetime := {
  ordinal : Z;
  second_of_day : Z;
  microsecond : Z
}.

Definition max_ordinal : Z := 3652059.   (* 9999-12-31 *)
Definition epoch_ordinal : Z := 719163.  (* 1970-01-01 *)

Definition days_before_month (month : Z) : Z :=
  nth (Z.to_nat month) [-1; 0; 31; 59; 90; 120; 151; 181; 212; 243; 273; 304; 334] 0.

Definition days_in_month (month : Z) : Z :=
  nth (Z.to_nat month) [-1; 31; 28; 31; 30; 31; 30; 31; 31; 30; 31; 30; 31] 0.

Definition b2z (b : bool) : Z := if b then 1 else 0.

(** The month and the day of the [n]-th day of a year, counted from 0. *)
Definition month_and_day (n : Z) (leapyear : bool) : Z * Z :=
  let month := Z.shiftr (n + 50) 5 in
  let preceding := days_before_month month + b2z ((2 <? month) && leapyear) in
  if n <? preceding
  then let month' := month - 1 in
       let preceding' :=
         preceding - (days_in_month month' + b2z ((month' =? 2) && leapyear)) in
       (month', n - preceding' + 1)
  else (month, n - preceding + 1).

(** The calendar date of an ordinal: year, month, day. *)
Definition ord2ymd (ord : Z) : Z * Z * Z :=
  let n := ord - 1 in
  let n400 := n / 146097 in
  let n := n mod 146097 in
  let n100 := n / 36524 in
  let n := n mod 36524 in
  let n4 := n / 1461 in
  let n := n mod 1461 in
  let n1 := n / 365 in
  let n := n mod 365 in
  let year := n400 * 400 + 1 + n100 * 100 + n4 * 4 + n1 in
  if (n1 =? 4) || (n100 =? 4) then (year - 1, 12, 31)
  else
    let leapyear := (n1 =? 3) && (negb (n4 =? 24) || (n100 =? 3)) in
    let '(month, day) := month_and_day n leapyear in
    (year, month, day).

(** Local wall-clock time of an instant, in seconds since the epoch: the day
    and the second of the day. Outside the years 1..9999 the conversion
    raises ValueError (far outside, where the platform's [localtime] gives up
    first, an OSError instead: no handler of [get_klines] lists either). *)
Definition local (w : World) (t : Z) : result (Z * Z) :=
  let l := t + utcoffset w t in
  let ord := l / 86400 + epoch_ordinal in
  if (1 <=? ord) && (ord <=? max_ordinal)
  then Ok (ord, l mod 86400)
  else Raise (Error YearOutOfRange).

(** The datetime of an instant; the instants a day earlier and across a
    clock change are converted too, to find out whether the wall-clock time
    is the second of two equal ones. *)
Definition datetime_from_timet_and_us (w : World) (t us : Z) : result datetime :=
  '(ord, sec) <- local w t ;;
  '(pord, psec) <- local w (t - 86400) ;;
  let transition := (ord * 86400 + sec) - (pord * 86400 + psec) - 86400 in
  let dt := {| ordinal := ord; second_of_day := sec; microsecond := us |} in
  if transition <? 0
  then _ <- local w (t + transition) ;; Ok dt
  else Ok dt.

(** [a / b] on integers, [b] positive: the nearest double. *)
Definition int_truediv (a b : Z) : result float :=
  let q := match a with
           | Z0 => S754_zero false
           | Zpos p => SFdiv prec emax (S754_finite false p 0)
                         (S754_finite false (Z.to_pos b) 0)
           | Zneg p => SFdiv prec emax (S754_finite true p 0)
                         (S754_finite false (Z.to_pos b) 0)
           end in
  match q with
  | S754_infinity _ => Raise (Error DivisionTooLarge)
  | _ => Ok q
  end.

(** The fractional part of a double, itself a double. *)
Definition float_frac (f : float) : float :=
  match f with
  | S754_finite s m e =>
      if 0 <=? e then S754_zero s
      else binary_normalize prec emax
             ((if s then -1 else 1) * (Zpos m mod 2 ^ (- e))) e s
  | _ => f
  end.

(** A double rounded to an integer, halves to the even one. *)
Definition round_half_even (f : float) : Z :=
  match f with
  | S754_finite s m e =>
      let mag :=
        if 0 <=? e then Zpos m * 2 ^ e
        else let q := Z.shiftr (Zpos m) (- e) in
             let r := Zpos m mod 2 ^ (- e) in
             match 2 * r ?= 2 ^ (- e) with
             | Lt => q
             | Eq => if Z.even q then q else q + 1
             | Gt => q + 1
             end in
      if s then - mag else mag
  | _ => 0
  end.

(** A float timestamp as whole seconds and microseconds. *)
Definition timeval_of_float (f : float) : result (Z * Z) :=
  match f with
  | S754_nan => Raise (Error (Explicit ValueError (lit "Invalid value NaN (not a number)")))
  | S754_infinity _ => Raise (Error TimestampOutOfRange)
  | _ =>
      let intpart := match float_trunc f with Some n => n | None => 0 end in
      let us := round_half_even
                  (SFmul prec emax (float_frac f) (float_lit 1000000 0)) in
      let '(intpart, us) :=
        if 1000000 <=? us then (intpart + 1, us - 1000000)
        else if us <? 0 then (intpart - 1, us + 1000000)
        else (intpart, us) in
      if (- 2 ^ 63 <=? intpart) && (intpart <? 2 ^ 63)
      then Ok (intpart, us)
      else Raise (Error TimestampOutOfRange)
  end.

(** [datetime.fromtimestamp(f)] *)
Definition fromtimestamp (w : World) (f : float) : result datetime :=
  '(t, us) <- timeval_of_float f ;;
  datetime_from_timet_and_us w t us.

(** [datetime.now()] *)
Definition now (w : World) : result datetime :=
  datetime_from_timet_and_us w (fst (clock w)) (snd (clock w)).

(** [d - timedelta(days=n)] *)
Definition minus_days (d : datetime) (n : Z) : result datetime :=
  let ord := ordinal d - n in
  if (1 <=? ord) && (ord <=? max_ordinal)
  then Ok {| ordinal := ord; second_of_day := second_of_day d;
             microsecond := microsecond d |}
  else Raise (Error DateOverflow).

(** A number in at least [width] digits, zeros in front. *)
Definition pad (width : nat) (n : Z) : pystr :=
  let ds := int_str n in
  repeat 48 (width - List.length ds) ++ ds.

(** [d.strftime('%Y-%m-%d %H:%M:%S')] *)
Definition strftime (w : World) (d : datetime) : pystr :=
  let '(year, month, day) := ord2ymd (ordinal d) in
  let s := second_of_day d in
  (if pads_year w then pad 4 year else int_str year)
  ++ [45] ++ pad 2 month ++ [45] ++ pad 2 day ++ [32]
  ++ pad 2 (s / 3600) ++ [58] ++ pad 2 (s / 60 mod 60) ++ [58] ++ pad 2 (s mod 60).

(** Python's truth value of an optional integer argument. *)
Definition truthy (n : option Z) : bool :=
  match n with
  | Some n => negb (n =? 0)
  | None => false
  end.

Definition int_of (n : option Z) : Z :=
  match n with Some n => n | None => 0 end.

(** Lines 52-57: the two ends of the range. *)
Definition date_window (w : World) (startTime endTime : option Z)
    : result (datetime * datetime) :=
  if truthy startTime && truthy endTime then
    a <- int_truediv (int_of startTime) 1000 ;;
    from_date <- fromtimestamp w a ;;
    b <- int_truediv (int_of endTime) 1000 ;;
    to_date <- fromtimestamp w b ;;
    Ok (from_date, to_date)
  else
    to_date <- now w ;;
    from_date <- minus_days to_date 30 ;;
    Ok (from_date, to_date).

(** Lines 52-60: the two ends as the vendor reads them. *)
Definition date_range (w : World) (startTime endTime : option Z)
    : result (pystr * pystr) :=
  '(from_date, to_date) <- date_window w startTime endTime ;;
  let from_date_str := strftime w from_date in
  let to_date_str := strftime w to_date in
  Ok (from_date_str, to_date_str).

(** ** Step 3: the interval (lines 62-68) *)

Definition invalid_interval (interval : pystr) : exn :=
  HTTPException 400 (lit "Invalid interval format: '" ++ interval ++ lit "'").

Definition parse_interval (w : World) (interval : pystr) : result pystr :=
  try_except
    (let parsed_interval := filter (isdigit (unicode w)) interval in
     match parsed_interval with
     | [] => Raise (Error (Explicit ValueError (lit "Invalid interval format")))
     | _ => Ok parsed_interval
     end)
    [ValueError; TypeError]
    (fun _ => invalid_interval interval).

(** ** Step 4: the call to the vendor (lines 70-104) *)

Definition DHAN_API_URL : pystr := lit "https://api.dhan.co/v2/charts/intraday".

Definition DHAN_ACCESS_TOKEN (w : World) : pystr :=
  match environ_token w with
  | Some token => token
  | None => lit "YOUR_DHAN_ACCESS_TOKEN_HERE"
  end.

(** [str(security_id)] *)
Definition ident_str (i : ident) : pystr :=
  match i with
  | IdText s => s
  | IdInt n => int_str n
  end.

Definition request_for (w : World) (row : Instrument)
    (parsed_interval from_date_str to_date_str : pystr) : Sent :=
  {| url := DHAN_API_URL;
     headers := [(lit "access-token", DHAN_ACCESS_TOKEN w);
                 (lit "Content-Type", lit "application/json");
                 (lit "Accept", lit "application/json")];
     json := [(lit "securityId", ident_str (securityId row));
              (lit "exchangeSegment", exchangeSegment row);
              (lit "instrument", instrument row);
              (lit "interval", parsed_interval);
              (lit "fromDate", from_date_str);
              (lit "toDate", to_date_str)] |}.

(** Lines 90-96: the POST and [raise_for_status]. *)
Definition post (w : World) (sent : Sent) : result Response :=
  try_except
    (match vendor w sent with
     | NoResponse msg => Raise (Error (Transport msg))
     | Answer response =>
         if (400 <=? status_code response) && (status_code response <? 600)
         then Raise (Error (HTTPError (status_code response) (reason response)
                              (url sent)))
         else Ok response
     end)
    [RequestException]
    (fun e => HTTPException 500 (lit "Error calling DhanHQ API: " ++ exn_text w e)).

(** The names bound at the top level of main.py: its imports, assignments
    and function definitions. *)
Definition module_globals : list pystr :=
  map lit ["os"; "pd"; "requests"; "FastAPI"; "HTTPException"; "CORSMiddleware";
           "datetime"; "timedelta"; "traceback"; "script_df"; "app";
           "DHAN_ACCESS_TOKEN"; "DHAN_API_URL"; "get_klines"; "read_root"]%string.

Definition global_name (name : pystr) : result unit :=
  if existsb (pystr_eqb name) module_globals then Ok tt
  else Raise (Error (UndefinedName name)).

(** What the JSON decoder can yield: it refuses an integer literal of more
    digits than the limit. *)
Fixpoint decodable (v : value) : bool :=
  match v with
  | VInt n => within_limit n
  | VList items => forallb decodable items
  | VDict items => forallb (fun kv => match kv with
                                      | (_, x) => decodable x
                                      end) items
  | _ => true
  end.

(** Lines 98-104: [response.json()]. When the decoder raises, the handler's
    class [json.JSONDecodeError] is looked up first; the ValueError for an
    integer beyond the digit limit is no [JSONDecodeError], and meets the
    same look-up. *)
Definition decode_body (response : Response) : result value :=
  match decoded response with
  | inr dhan_data =>
      if decodable dhan_data then Ok dhan_data
      else _ <- global_name (lit "json") ;;
           Raise (Error (IntTooLong int_max_str_digits))
  | inl complaint =>
      _ <- global_name (lit "json") ;;
      Raise (HTTPException 500
               (lit "Error decoding JSON response from DhanHQ API: " ++ complaint))
  end.

(** ** The endpoint *)

Definition get_klines (w : World) (symbol interval : pystr)
    (startTime endTime : option Z) : result value :=
  row <- find_instrument w symbol ;;
  '(from_date_str, to_date_str) <- date_range w startTime endTime ;;
  parsed_interval <- parse_interval w interval ;;
  response <- post w (request_for w row parsed_interval from_date_str to_date_str) ;;
  dhan_data <- decode_body response ;;
  transform w dhan_data.

(** Whether the returned value can be rendered as the body: FastAPI writes it
    with [json.dumps(.., ensure_ascii=False, allow_nan=False)] and encodes
    the text as UTF-8, which fails on a lone surrogate in a string, on an
    integer beyond the digit limit and on a float that is no number. *)
Fixpoint renders (v : value) : bool :=
  match v with
  | VNone | VBool _ => true
  | VInt n => within_limit n
  | VFloat f =>
      match f with
      | S754_nan | S754_infinity _ => false
      | _ => true
      end
  | VStr s => encodable s
  | VList items => forallb renders items
  | VDict items => forallb (fun kv => match kv with
                                      | (k, x) => encodable k && renders x
                                      end) items
  end.

(** What FastAPI sends for an outcome of the endpoint: the returned value as
    JSON, when it can be rendered; an [HTTPException] as its status with a
    JSON object holding the detail; any other exception, one raised while
    rendering too, as a bare 500. *)
Inductive http_body :=
  | JsonBody (v : value)
  | PlainText (s : pystr).

Record HttpResponse := {
  status : Z;
  body : http_body
}.

Definition respond (r : result value) : HttpResponse :=
  match r with
  | Ok v =>
      if renders v then {| status := 200; body := JsonBody v |}
      else {| status := 500; body := PlainText (lit "Internal Server Error") |}
  | Raise (HTTPException code detail) =>
      {| status := code; body := JsonBody (VDict [(lit "detail", VStr detail)]) |}
  | Raise (Error _) =>
      {| status := 500; body := PlainText (lit "Internal Server Error") |}
  end.

Definition serve (w : World) (symbol interval : pystr)
    (startTime endTime : option Z) : HttpResponse :=
  respond (get_klines w symbol interval startTime endTime).

(** ** Vocabulary of the statements *)

(** The items the transcoder reads under a key: [iter(d[key])]. *)
Definition column (d : value) (key : pystr) : result (list value) :=
  x <- subscript d key ;; iterate x.

(** The six keys of [d] hold iterables with these items. *)
Definition six_columns (d : value) (ts o h l c v : list value) : Prop :=
  column d (lit "timestamp") = Ok ts /\ column d (lit "open") = Ok o /\
  column d (lit "high") = Ok h /\ column d (lit "low") = Ok l /\
  column d (lit "close") = Ok c /\ column d (lit "volume") = Ok v.

Definition shortest6 {A} (a b c d e f : list A) : nat :=
  Nat.min (List.length a) (Nat.min (List.length b) (Nat.min (List.length c)
    (Nat.min (List.length d) (Nat.min (List.length e) (List.length f))))).

(** The row the transcoder makes of position [i], given the integer [n] that
    [int] makes of the timestamp there. *)
Definition row_at (u : Unicode) (o h l c v : list value) (i : nat) (n : Z) : value :=
  VList [VInt (n * 1000);
         VStr (py_str u (nth i o VNone)); VStr (py_str u (nth i h VNone));
         VStr (py_str u (nth i l VNone)); VStr (py_str u (nth i c VNone));
         VStr (py_str u (nth i v VNone))].

(** A response object with exactly the six keys. *)
Definition upstream (ts o h l c v : value) : value :=
  VDict [(lit "timestamp", ts); (lit "open", o); (lit "high", h);
         (lit "low", l); (lit "close", c); (lit "volume", v)].

(** *** A sample world

    Unicode tables that know nothing beyond Latin-1, CPython's wording of
    its errors, a UTC clock standing at 2023-11-14 22:13:20, and a table of
    two instruments; the vendor's behaviour is left to each example. *)
Definition latin1_only : Unicode :=
  {| ucd_isdigit := fun _ => false;
     ucd_todecimal := fun _ => None;
     ucd_isspace := fun _ => false;
     ucd_isprintable := fun _ => false |}.

Definition type_name (v : value) : pystr :=
  match v with
  | VNone => lit "NoneType"
  | VBool _ => lit "bool"
  | VInt _ => lit "int"
  | VFloat _ => lit "float"
  | VStr _ => lit "str"
  | VList _ => lit "list"
  | VDict _ => lit "dict"
  end.

Definition cpython_wording (f : fault) : pystr :=
  match f with
  | NotSubscriptable (VList _) => lit "list indices must be integers or slices, not str"
  | NotSubscriptable (VStr _) => lit "string indices must be integers, not 'str'"
  | NotSubscriptable v => [39] ++ type_name v ++ lit "' object is not subscriptable"
  | NotIterable v => [39] ++ type_name v ++ lit "' object is not iterable"
  | IntArgument v =>
      lit "int() argument must be a string, a bytes-like object or a real number, not '"
      ++ type_name v ++ [39]
  | IntLiteral s => lit "invalid literal for int() with base 10: " ++ str_repr latin1_only s
  | IntTooLong digits =>
      lit "Exceeds the limit (4300 digits) for integer string conversion: value has "
      ++ int_str digits ++ lit " digits; use sys.set_int_max_str_digits() to increase the limit"
  | IntOfNaN => lit "cannot convert float NaN to integer"
  | IntOfInfinity => lit "cannot convert float infinity to integer"
  | UndefinedName name => lit "name '" ++ name ++ lit "' is not defined"
  | DivisionTooLarge => lit "integer division result too large for a float"
  | TimestampOutOfRange => lit "timestamp out of range for platform time_t"
  | YearOutOfRange => lit "year is out of range"
  | DateOverflow => lit "date value out of range"
  | _ => []
  end.

Definition TCS : Instrument :=
  {| tradingSymbol := lit "TCS"; securityId := IdInt 11536;
     exchangeSegment := lit "NSE_EQ"; instrument := lit "EQUITY" |}.

Definition TCS_BSE : Instrument :=
  {| tradingSymbol := lit "TCS"; securityId := IdText (lit "532540");
     exchangeSegment := lit "BSE_EQ"; instrument := lit "EQUITY" |}.

Definition INFY : Instrument :=
  {| tradingSymbol := lit "INFY"; securityId := IdInt 1594;
     exchangeSegment := lit "NSE_EQ"; instrument := lit "EQUITY" |}.

Definition sample_world (answer : Sent -> post_result) : World :=
  {| script_df := [INFY; TCS; TCS_BSE];
     drops_trailing_nul := true;
     environ_token := None;
     unicode := latin1_only;
     wording := cpython_wording;
     clock := (1700000000, 0);
     utcoffset := fun _ => 0;
     pads_year := true;
     vendor := answer |}.

Definition answers (r : Response) : Sent -> post_result := fun _ => Answer r.

Definition ok_json (v : value) : Response :=
  {| status_code := 200; reason := lit "OK"; decoded := inr v |}.

(** The response of the spec's example: [low] is a bare string. *)
Definition spec_example : value :=
  upstream (VList [VInt 1700000000]) (VList [VFloat (float_lit 1005 (-1))])
           (VList [VInt 101]) (VStr (lit "99.8"))
           (VList [VFloat (float_lit 1009 (-1))]) (VList [VInt 2000]).

(** Two candles; the volume column has a third item. *)
Definition two_candles : value :=
  upstream (VList [VInt 1700000000; VFloat (float_lit 170000006075 (-2))])
           (VList [VFloat (float_lit 1005 (-1)); VInt 101])
           (VList [VInt 102; VFloat (float_lit 10125 (-2))])
           (VList [VFloat (float_lit 998 (-1)); VInt 100])
           (VList [VInt 101; VInt 101])
           (VList [VInt 2000; VInt 1500; VInt 7]).

(** The exact value of a double as a fraction: numerator and denominator. *)
Definition float_ratio (f : float) : Z * Z :=
  match f with
  | S754_finite s m e =>
      ((if s then - Zpos m else Zpos m) * 2 ^ Z.max e 0, 2 ^ Z.max (- e) 0)
  | _ => (0, 1)
  end.

(** A timestamp that is text but no integer literal: [int] raises
    ValueError, which the handler of lines 131-135 does not list. *)
Definition bad_timestamp : value :=
  upstream (VList [VStr (lit "abc")]) (VList [VInt 1]) (VList [VInt 1])
           (VList [VInt 1]) (VList [VInt 1]) (VList [VInt 1]).

(** The request made for TCS at the sample clock with the interval 5m. *)
Definition tcs_request : Sent :=
  {| url := lit "https://api.dhan.co/v2/charts/intraday";
     headers := [(lit "access-token", lit "YOUR_DHAN_ACCESS_TOKEN_HERE");
                 (lit "Content-Type", lit "application/json");
                 (lit "Accept", lit "application/json")];
     json := [(lit "securityId", lit "11536");
              (lit "exchangeSegment", lit "NSE_EQ");
              (lit "instrument", lit "EQUITY");
              (lit "interval", lit "5");
              (lit "fromDate", lit "2023-10-15 22:13:20");
              (lit "toDate", lit "2023-11-14 22:13:20")] |}.

(** A vendor that answers the request made from the first TCS row and no
    other. *)
Definition only_tcs_nse (sent : Sent) : post_result :=
  if list_eq_dec (list_eq_dec Z.eq_dec) (map snd (json sent)) (map snd (json tcs_request))
  then Answer (ok_json two_candles)
  else NoResponse (lit "unexpected request").

(** The errors that can come up inside the [try] of lines 107-130. *)
Definition transcode_fault (f : fault) : Prop :=
  match f with
  | MissingKey _ _ | NotSubscriptable _ | NotIterable _ | IntArgument _
  | IntLiteral _ | IntTooLong _ | IntOfNaN | IntOfInfinity => True
  | _ => False
  end.

(** A 200 answer whose body is not JSON, with the decoder's complaint. *)
Definition not_json : Response :=
  {| status_code := 200; reason := lit "OK";
     decoded := inl (lit "Expecting value: line 1 column 1 (char 0)") |}.

(** FastAPI's answer to an exception that is no [HTTPException]. *)
Definition bare_500 : HttpResponse :=
  {| status := 500; body := PlainText (lit "Internal Server Error") |}.

(** A datetime within the years 1..9999 and within its day. *)
Definition valid_datetime (d : datetime) : Prop :=
  1 <= ordinal d <= max_ordinal /\ 0 <= second_of_day d < 86400.

(** The text has the shape YYYY-MM-DD HH:MM:SS: nineteen characters, digits
    but for the two hyphens, the space and the two colons. *)
Definition timestamp_shape (s : pystr) : bool :=
  match s with
  | [y1; y2; y3; y4; a; m1; m2; b; d1; d2; sp; h1; h2; c1; mi1; mi2; c2; s1; s2] =>
      forallb is_ascii_digit
        [y1; y2; y3; y4; m1; m2; d1; d2; h1; h2; mi1; mi2; s1; s2]
      && (a =? 45) && (b =? 45) && (sp =? 32) && (c1 =? 58) && (c2 =? 58)
  | _ => false
  end.

(** The ordinal of 1000-01-01, the first day whose year has four digits. *)
Definition year_1000 : Z := 364878.

(** [d] shows the local wall-clock time of the instant [t] seconds after the
    epoch. *)
Definition wall_clock (w : World) (t : Z) (d : datetime) : Prop :=
  ordinal d = (t + utcoffset w t) / 86400 + epoch_ordinal /\
  second_of_day d = (t + utcoffset w t) mod 86400.

(** Neither bound is supplied as a true value. *)
Definition not_both (startTime endTime : option Z) : Prop :=
  startTime = None \/ startTime = Some 0 \/ endTime = None \/ endTime = Some 0.

Definition two_digits (s : pystr) : bool :=
  match s with
  | [a; b] => is_ascii_digit a && is_ascii_digit b
  | _ => false
  end.

Definition four_digits (s : pystr) : bool :=
  match s with
  | [a; b; c; d] =>
      is_ascii_digit a && is_ascii_digit b && is_ascii_digit c && is_ascii_digit d
  | _ => false
  end.

(** The keys the transcoder reads, in the order it reads them. *)
Definition six_keys : list pystr :=
  map lit ["timestamp"; "open"; "high"; "low"; "close"; "volume"]%string.

(** The vendor cannot be reached. *)
Definition unreachable : Sent -> post_result :=
  fun _ => NoResponse (lit "Connection timed out").

(** The vendor refuses the token. *)
Definition unauthorized : Response :=
  {| status_code := 401; reason := lit "Unauthorized"; decoded := inr (VDict []) |}.

(** The first of the six keys that a response object lacks. *)
Definition first_missing (items : list (pystr * value)) : option pystr :=
  find (fun key => match lookup key items with
                   | None => true
                   | Some _ => false
                   end) six_keys.

(** ** Vocabulary of the further properties *)

(** The same world with another vendor behind it. *)
Definition with_vendor (w : World) (v : Sent -> post_result) : World :=
  {| script_df := script_df w;
     drops_trailing_nul := drops_trailing_nul w;
     environ_token := environ_token w;
     unicode := unicode w;
     wording := wording w;
     clock := clock w;
     utcoffset := utcoffset w;
     pads_year := pads_year w;
     vendor := v |}.

(** [sent] is the request lines 71-91 make for these arguments: the symbol
    is in the table, the date range was resolved, the interval has a digit,
    and the request is built from the first matching row, the digits of the
    interval and the two date texts. *)
Definition proxied_request (w : World) (symbol interval : pystr)
    (startTime endTime : option Z) (sent : Sent) : Prop :=
  exists row from_str to_str,
    find_instrument w symbol = Ok row /\
    date_range w startTime endTime = Ok (from_str, to_str) /\
    filter (isdigit (unicode w)) interval <> [] /\
    sent = request_for w row (filter (isdigit (unicode w)) interval) from_str to_str.

(** A vendor that behaves like [v] at the vendor's URL and cannot be reached
    anywhere else. *)
Definition only_at_url (v : Sent -> post_result) (sent : Sent) : post_result :=
  if pystr_eqb (url sent) DHAN_API_URL then v sent
  else NoResponse (lit "Name or service not known").

(** [raise_for_status] lets the answer through. *)
Definition passes (response : Response) : Prop :=
  status_code response < 400 \/ 600 <= status_code response.

(** What [iter] accepts among the decoder's values. *)
Definition iterable (v : value) : bool :=
  match v with
  | VList _ | VStr _ | VDict _ => true
  | _ => false
  end.

(** The answer with a detail that the handler of lines 131-135 leads to. *)
Definition parse_failure (w : World) (f : fault) : HttpResponse :=
  {| status := 500;
     body := JsonBody (VDict [(lit "detail",
               VStr (lit "Failed to parse DhanHQ response: " ++ exn_text w f))]) |}.

(** The columns cut to [n] items each. *)
Definition cut (n : nat) (ts o h l c v : list value) : value :=
  upstream (VList (firstn n ts)) (VList (firstn n o)) (VList (firstn n h))
           (VList (firstn n l)) (VList (firstn n c)) (VList (firstn n v)).

(** A timestamp column whose third item is not a number, beside five
    columns of two items. *)
Definition ragged : value :=
  upstream (VList [VInt 1700000000; VInt 1700000060; VStr (lit "n/a")])
           (VList [VInt 1; VInt 2]) (VList [VInt 1; VInt 2])
           (VList [VInt 1; VInt 2]) (VList [VInt 1; VInt 2])
           (VList [VInt 1; VInt 2]).

(** The second timestamp is null. *)
Definition null_second : value :=
  upstream (VList [VInt 1700000000; VNone; VStr (lit "abc")])
           (VList [VInt 1; VInt 2; VInt 3]) (VList [VInt 1; VInt 2; VInt 3])
           (VList [VInt 1; VInt 2; VInt 3]) (VList [VInt 1; VInt 2; VInt 3])
           (VList [VInt 1; VInt 2; VInt 3]).

(** The values a response object holds under the six keys, when it has
    them all. *)
Definition six_values (items : list (pystr * value)) : option (list value) :=
  match lookup (lit "timestamp") items, lookup (lit "open") items,
        lookup (lit "high") items, lookup (lit "low") items,
        lookup (lit "close") items, lookup (lit "volume") items with
  | Some ts, Some o, Some h, Some l, Some c, Some v => Some [ts; o; h; l; c; v]
  | _, _, _, _, _, _ => None
  end.

(** Whether a year of the proleptic Gregorian calendar has a 29 February. *)
Definition is_leap (year : Z) : bool :=
  (year mod 4 =? 0) && (negb (year mod 100 =? 0) || (year mod 400 =? 0)).

(** The ordinal of a calendar date: the days before the year, the days
    before the month, and the day (the count [datetime] itself uses to turn
    a date into an ordinal). *)
Definition ymd2ord (year month day : Z) : Z :=
  let y := year - 1 in
  (y * 365 + y / 4 - y / 100 + y / 400)
  + (days_before_month month + b2z ((2 <? month) && is_leap year))
  + day.

(** A Binance kline row as the transcoder writes it: six items, whole
    seconds in milliseconds first, then five texts. *)
Definition kline_shape (row : value) : bool :=
  match row with
  | VList [VInt t; VStr _; VStr _; VStr _; VStr _; VStr _] => t mod 1000 =? 0
  | _ => false
  end.

(** Lines 137-139: the root route. *)
Definition read_root : result value :=
  Ok (VDict [(lit "message",
              VStr (lit "DhanHQ Historical Data API Proxy is running."))]).

(** The bounds of a request whose date range is sure to be resolved: one
    of them absent or zero, or both between 1970 and the year 9892. *)
Definition resolvable (startTime endTime : option Z) : Prop :=
  not_both startTime endTime \/
  exists a b, startTime = Some a /\ endTime = Some b /\
              0 < a <= 250000000000000 /\ 0 < b <= 250000000000000.

(** No item of the column, up to position [n], is a text that holds a lone
    surrogate. *)
Definition texts_encodable (n : nat) (column : list value) : Prop :=
  forall i s, (i < n)%nat -> nth i column VNone = VStr s -> encodable s = true.

(** The sample world with a C library that does not pad the year. *)
Definition unpadded_world : World :=
  {| script_df := [INFY; TCS; TCS_BSE];
     drops_trailing_nul := true;
     environ_token := None;
     unicode := latin1_only;
     wording := cpython_wording;
     clock := (1700000000, 0);
     utcoffset := fun _ => 0;
     pads_year := false;
     vendor := unreachable |}.

(** * Properties *)

(** ** The result monad *)

Lemma bind_ok {A B} (r : result A) (k : A -> result B) (b : B) :
  bind r k = Ok b -> exists a, r = Ok a /\ k a = Ok b.
Proof.
  destruct r as [a | e]; simpl; intro H.
  - exists a. split; [reflexivity | exact H].
  - discriminate H.
Qed.

Lemma try_except_ok {A} (body : result A) classes handler (a : A) :
  try_except body classes handler = Ok a <-> body = Ok a.
Proof.
  unfold try_except. destruct body as [x | [code detail | f]].
  - tauto.
  - split; discriminate.
  - destruct (existsb _ classes); split; discriminate.
Qed.

Lemma try_except_raise {A} (body : result A) classes handler e :
  body = Raise e -> exists e', try_except body classes handler = Raise e'.
Proof.
  intros ->. unfold try_except. destruct e as [code detail | f].
  - eauto.
  - destruct (existsb _ classes); eauto.
Qed.

(** ** List comprehensions and [zip] *)

Lemma comprehension_ok {A B} (f : A -> result B) xs ys :
  comprehension f xs = Ok ys <-> Forall2 (fun x y => f x = Ok y) xs ys.
Proof.
  revert ys. induction xs as [| x xs IH]; intros ys; simpl.
  - split; intro H.
    + injection H as <-. constructor.
    + inversion H. reflexivity.
  - split; intro H.
    + apply bind_ok in H. destruct H as (y & Hy & H).
      apply bind_ok in H. destruct H as (ys' & Hys & H).
      injection H as <-. constructor; [exact Hy | apply IH; exact Hys].
    + inversion H as [| ? y ? ys' Hy Hys]; subst.
      rewrite Hy. simpl. apply IH in Hys. rewrite Hys. reflexivity.
Qed.

Lemma comprehension_total {A B} (f : A -> result B) xs :
  Forall (fun x => exists y, f x = Ok y) xs -> exists ys, comprehension f xs = Ok ys.
Proof.
  induction 1 as [| x xs [y Hy] _ [ys Hys]]; simpl.
  - eauto.
  - rewrite Hy. simpl. rewrite Hys. simpl. eauto.
Qed.

Lemma comprehension_raises {A B} (f : A -> result B) xs :
  Exists (fun x => exists e, f x = Raise e) xs -> exists e, comprehension f xs = Raise e.
Proof.
  induction 1 as [x xs [e He] | x xs _ [e He]]; simpl.
  - rewrite He. simpl. eauto.
  - destruct (f x) as [y | e']; simpl; [rewrite He; simpl |]; eauto.
Qed.

Lemma Forall2_nth_both {A B} (R : A -> B -> Prop) xs ys da db :
  Forall2 R xs ys ->
  List.length ys = List.length xs /\
  forall i, (i < List.length xs)%nat -> R (nth i xs da) (nth i ys db).
Proof.
  induction 1 as [| x y xs ys Hxy _ [Hlen Hnth]]; simpl.
  - split; [reflexivity | intros i Hi; inversion Hi].
  - split; [now rewrite Hlen |].
    intros [| i] Hi; [exact Hxy | apply Hnth; lia].
Qed.

Lemma zip6_length {A} (a b c d e f : list A) :
  List.length (zip6 a b c d e f) = shortest6 a b c d e f.
Proof.
  unfold shortest6. revert b c d e f.
  induction a as [| x a IH]; intros [| ? b] [| ? c] [| ? d] [| ? e] [| ? f];
    simpl; try reflexivity; try lia.
  rewrite IH. reflexivity.
Qed.

Lemma zip6_nth {A} (a b c d e f : list A) (x : A) (i : nat) :
  (i < shortest6 a b c d e f)%nat ->
  nth i (zip6 a b c d e f) (x, x, x, x, x, x)
  = (nth i a x, nth i b x, nth i c x, nth i d x, nth i e x, nth i f x).
Proof.
  unfold shortest6. revert i b c d e f.
  induction a as [| ? a IH]; intros i [| ? b] [| ? c] [| ? d] [| ? e] [| ? f];
    simpl; try lia.
  destruct i as [| i]; intro Hi; [reflexivity | apply IH; lia].
Qed.

(** ** The transcoder *)

Lemma column_inv (d : value) (key : pystr) (items : list value) :
  column d key = Ok items ->
  exists x, subscript d key = Ok x /\ iterate x = Ok items.
Proof. apply bind_ok. Qed.

(** Once the six keys are found and iterable, what is left of [transform] is
    the comprehension over the zipped columns. *)
Lemma transform_columns (w : World) (d : value) (ts o h l c v : list value) :
  six_columns d ts o h l c v ->
  transform w d
  = try_except
      (rows <- comprehension (kline_row (unicode w)) (zip6 ts o h l c v) ;;
       Ok (VList rows))
      [KeyError; TypeError]
      (fun e => HTTPException 500
                  (lit "Failed to parse DhanHQ response: " ++ exn_text w e)).
Proof.
  intros (Hts & Ho & Hh & Hl & Hc & Hv).
  apply column_inv in Hts, Ho, Hh, Hl, Hc, Hv.
  destruct Hts as (xts & Sts & Its), Ho as (xo & So & Io), Hh as (xh & Sh & Ih),
           Hl as (xl & Sl & Il), Hc as (xc & Sc & Ic), Hv as (xv & Sv & Iv).
  unfold transform.
  rewrite Sts, So, Sh, Sl, Sc, Sv. cbn [bind].
  rewrite Its, Io, Ih, Il, Ic, Iv. cbn [bind].
  reflexivity.
Qed.

Lemma kline_row_ok (u : Unicode) ts o h l c v row :
  kline_row u (ts, o, h, l, c, v) = Ok row <->
  exists n, py_int u ts = Ok n /\
            row = VList [VInt (n * 1000); VStr (py_str u o); VStr (py_str u h);
                         VStr (py_str u l); VStr (py_str u c); VStr (py_str u v)].
Proof.
  unfold kline_row. split.
  - intro H. apply bind_ok in H. destruct H as (n & Hn & H).
    injection H as <-. eauto.
  - intros (n & Hn & ->). rewrite Hn. reflexivity.
Qed.

(** Every output of the transcoder, row by row. *)
Lemma transform_returns (w : World) (d : value) (ts o h l c v rows : list value) :
  six_columns d ts o h l c v ->
  transform w d = Ok (VList rows) ->
  List.length rows = shortest6 ts o h l c v /\
  forall i, (i < shortest6 ts o h l c v)%nat ->
    exists n, py_int (unicode w) (nth i ts VNone) = Ok n /\
              nth i rows VNone = row_at (unicode w) o h l c v i n.
Proof.
  intros Hcols H. rewrite (transform_columns w d ts o h l c v Hcols) in H.
  apply try_except_ok in H. apply bind_ok in H. destruct H as (rows' & Hrows & H).
  injection H as <-. apply comprehension_ok in Hrows.
  apply (Forall2_nth_both _ _ _ (VNone, VNone, VNone, VNone, VNone, VNone) VNone)
    in Hrows.
  destruct Hrows as [Hlen Hnth]. rewrite zip6_length in Hlen, Hnth.
  split; [exact Hlen |].
  intros i Hi. specialize (Hnth i Hi). rewrite zip6_nth in Hnth by exact Hi.
  apply kline_row_ok in Hnth. exact Hnth.
Qed.

Lemma Forall_nth_lt {A} (P : A -> Prop) (xs : list A) (x : A) :
  (forall i, (i < List.length xs)%nat -> P (nth i xs x)) -> Forall P xs.
Proof.
  induction xs as [| y xs IH]; intro H; constructor.
  - apply (H 0%nat). simpl. lia.
  - apply IH. intros i Hi. apply (H (S i)). simpl. lia.
Qed.

(** The transcoder returns when [int] accepts every timestamp it reaches. *)
Lemma transform_total (w : World) (d : value) (ts o h l c v : list value) :
  six_columns d ts o h l c v ->
  (forall i, (i < shortest6 ts o h l c v)%nat ->
     exists n, py_int (unicode w) (nth i ts VNone) = Ok n) ->
  exists rows, transform w d = Ok (VList rows).
Proof.
  intros Hcols Hint. rewrite (transform_columns w d ts o h l c v Hcols).
  destruct (comprehension_total (kline_row (unicode w)) (zip6 ts o h l c v))
    as [rows Hrows].
  - apply (Forall_nth_lt _ _ (VNone, VNone, VNone, VNone, VNone, VNone)).
    rewrite zip6_length. intros i Hi. rewrite zip6_nth by exact Hi.
    destruct (Hint i Hi) as [n Hn].
    eexists. apply kline_row_ok. eauto.
  - exists rows. rewrite Hrows. reflexivity.
Qed.

(** It returns nothing when [int] rejects one of them. *)
Lemma transform_rejects (w : World) (d : value) (ts o h l c v : list value) :
  six_columns d ts o h l c v ->
  (exists i e, (i < shortest6 ts o h l c v)%nat /\
               py_int (unicode w) (nth i ts VNone) = Raise e) ->
  exists e, transform w d = Raise e.
Proof.
  intros Hcols (i & e & Hi & He).
  rewrite (transform_columns w d ts o h l c v Hcols).
  destruct (comprehension_raises (kline_row (unicode w)) (zip6 ts o h l c v))
    as [e' He'].
  - apply Exists_exists.
    exists (nth i (zip6 ts o h l c v) (VNone, VNone, VNone, VNone, VNone, VNone)).
    split.
    + apply nth_In. rewrite zip6_length. exact Hi.
    + rewrite zip6_nth by exact Hi. exists e. unfold kline_row.
      rewrite He. reflexivity.
  - apply try_except_raise with (e := e'). rewrite He'. reflexivity.
Qed.

(** C1, amended. When the six keys of the response hold iterables, the
    transcoder walks them position by position up to the end of the shortest.
    If [int] accepts the timestamp at each of these positions, it returns one
    row per position, and the row at position [i] is
    [int(timestamp[i]) * 1000, str(open[i]), str(high[i]), str(low[i]),
    str(close[i]), str(volume[i])]; whatever it returns has this shape. If
    [int] rejects one of these timestamps, no row is returned. *)
Theorem transform_rows (w : World) (d : value) (ts o h l c v : list value) :
  six_columns d ts o h l c v ->
  let n := shortest6 ts o h l c v in
  let u := unicode w in
  ((forall i, (i < n)%nat -> exists z, py_int u (nth i ts VNone) = Ok z) ->
   exists rows, transform w d = Ok (VList rows)) /\
  (forall rows, transform w d = Ok (VList rows) ->
     List.length rows = n /\
     forall i, (i < n)%nat ->
       exists z, py_int u (nth i ts VNone) = Ok z /\
                 nth i rows VNone = row_at u o h l c v i z) /\
  ((exists i e, (i < n)%nat /\ py_int u (nth i ts VNone) = Raise e) ->
   exists e, transform w d = Raise e).
Proof.
  intros Hcols n u. repeat split.
  - apply transform_total; assumption.
  - eapply transform_returns; eassumption.
  - eapply transform_returns; eassumption.
  - apply transform_rejects; assumption.
Qed.

(** The two candles satisfy the hypotheses of [transform_rows]. *)
Lemma transform_rows_witness :
  six_columns two_candles
    [VInt 1700000000; VFloat (float_lit 170000006075 (-2))]
    [VFloat (float_lit 1005 (-1)); VInt 101]
    [VInt 102; VFloat (float_lit 10125 (-2))]
    [VFloat (float_lit 998 (-1)); VInt 100]
    [VInt 101; VInt 101]
    [VInt 2000; VInt 1500; VInt 7] /\
  forall rows,
    transform (sample_world (answers (ok_json two_candles))) two_candles
    = Ok (VList rows) ->
    List.length rows = 2%nat.
Proof.
  assert (H : six_columns two_candles
    [VInt 1700000000; VFloat (float_lit 170000006075 (-2))]
    [VFloat (float_lit 1005 (-1)); VInt 101]
    [VInt 102; VFloat (float_lit 10125 (-2))]
    [VFloat (float_lit 998 (-1)); VInt 100]
    [VInt 101; VInt 101]
    [VInt 2000; VInt 1500; VInt 7]) by (repeat split; reflexivity).
  split; [exact H |].
  intros rows Hrows.
  exact (proj1 (proj1 (proj2
    (transform_rows (sample_world (answers (ok_json two_candles))) _ _ _ _ _ _ _ H))
    rows Hrows)).
Defined.

(** The two candles, transcoded: the second timestamp 1700000060.75 loses
    its fraction, and the third volume has no row. *)
Example two_candles_rows (w : World) :
  transform w two_candles
  = Ok (VList
      [VList [VInt 1700000000000; VStr (lit "100.5"); VStr (lit "102");
              VStr (lit "99.8"); VStr (lit "101"); VStr (lit "2000")];
       VList [VInt 1700000060000; VStr (lit "101"); VStr (lit "101.25");
              VStr (lit "100"); VStr (lit "101"); VStr (lit "1500")]]).
Proof. vm_compute. reflexivity. Qed.

(** C1 as stated fails twice over. With the timestamp 1.5 the row holds
    [int(1.5) * 1000 = 1000], where [timestamp * 1000] is 1500; with the
    timestamp [None] the shortest sequence has one item and yet no row comes
    out, the request failing with status 500. *)
Lemma transform_rows_counterexample :
  transform (sample_world (answers (ok_json VNone)))
    (upstream (VList [VFloat (float_lit 15 (-1))]) (VList [VInt 1])
              (VList [VInt 1]) (VList [VInt 1]) (VList [VInt 1]) (VList [VInt 1]))
  = Ok (VList [VList [VInt 1000; VStr (lit "1"); VStr (lit "1"); VStr (lit "1");
                      VStr (lit "1"); VStr (lit "1")]])
  /\
  transform (sample_world (answers (ok_json VNone)))
    (upstream (VList [VNone]) (VList [VInt 1])
              (VList [VInt 1]) (VList [VInt 1]) (VList [VInt 1]) (VList [VInt 1]))
  = Raise (HTTPException 500
      (lit "Failed to parse DhanHQ response: int() argument must be a string, a bytes-like object or a real number, not 'NoneType'")).
Proof. split; vm_compute; reflexivity. Qed.

(** C2, amended. For the response of the spec's example the transcoder
    returns the single row
    [1700000000000, "100.5", "101", "9", "100.9", "2000"]: the bare string
    under [low] is walked character by character, so the row holds its first
    character. *)
Theorem spec_example_row (w : World) :
  transform w spec_example
  = Ok (VList [VList [VInt 1700000000000; VStr (lit "100.5"); VStr (lit "101");
                      VStr (lit "9"); VStr (lit "100.9"); VStr (lit "2000")]]).
Proof. vm_compute. reflexivity. Qed.

(** C2 as stated fails: the row does not hold "99.8". *)
Lemma spec_example_counterexample :
  transform (sample_world (answers (ok_json spec_example))) spec_example
  = Ok (VList [VList [VInt 1700000000000; VStr (lit "100.5"); VStr (lit "101");
                      VStr (lit "9"); VStr (lit "100.9"); VStr (lit "2000")]])
  /\
  transform (sample_world (answers (ok_json spec_example))) spec_example
  <> Ok (VList [VList [VInt 1700000000000; VStr (lit "100.5"); VStr (lit "101");
                       VStr (lit "99.8"); VStr (lit "100.9"); VStr (lit "2000")]]).
Proof. split; [vm_compute; reflexivity | vm_compute; discriminate]. Qed.

(** C7, at the failing input: the ValueError of [int('abc')] leaves
    [transform] as it is, and FastAPI answers with a bare 500 that carries no
    detail. *)
Theorem value_error_escapes (w : World) :
  transform w bad_timestamp = Raise (Error (IntLiteral (lit "abc"))) /\
  respond (transform w bad_timestamp)
  = {| status := 500; body := PlainText (lit "Internal Server Error") |}.
Proof. split; vm_compute; reflexivity. Qed.

(** A response that returns holds the six columns. *)
Lemma transform_ok_columns (w : World) (d r : value) :
  transform w d = Ok r -> exists ts o h l c v, six_columns d ts o h l c v.
Proof.
  intro H. apply try_except_ok in H.
  apply bind_ok in H. destruct H as (xts & Sts & H).
  apply bind_ok in H. destruct H as (xo & So & H).
  apply bind_ok in H. destruct H as (xh & Sh & H).
  apply bind_ok in H. destruct H as (xl & Sl & H).
  apply bind_ok in H. destruct H as (xc & Sc & H).
  apply bind_ok in H. destruct H as (xv & Sv & H).
  apply bind_ok in H. destruct H as (ts & Its & H).
  apply bind_ok in H. destruct H as (o & Io & H).
  apply bind_ok in H. destruct H as (h & Ih & H).
  apply bind_ok in H. destruct H as (l & Il & H).
  apply bind_ok in H. destruct H as (c & Ic & H).
  apply bind_ok in H. destruct H as (v & Iv & H).
  exists ts, o, h, l, c, v. unfold six_columns, column.
  rewrite Sts, So, Sh, Sl, Sc, Sv. cbn [bind]. tauto.
Qed.

(** [int] of a double is its exact value cut towards zero. *)
Lemma float_int_truncates (u : Unicode) (f : float) (z : Z) :
  py_int u (VFloat f) = Ok z ->
  z = Z.quot (fst (float_ratio f)) (snd (float_ratio f)).
Proof.
  destruct f as [s | s | | s m e]; unfold py_int, float_trunc, float_ratio, fst, snd; intro H; try discriminate H.
  - injection H as <-. reflexivity.
  - assert (Hz : z = if s then - (if 0 <=? e then Z.pos m * 2 ^ e else Z.shiftr (Z.pos m) (- e))
                    else (if 0 <=? e then Z.pos m * 2 ^ e else Z.shiftr (Z.pos m) (- e)))
      by congruence.
    clear H. subst z.
    destruct (Z.leb_spec 0 e) as [He | He].
    + rewrite Z.max_l by lia. rewrite Z.max_r by lia.
      rewrite Z.pow_0_r, Z.quot_1_r.
      destruct s; lia.
    + rewrite Z.max_r by lia. rewrite Z.max_l by lia.
      rewrite Z.pow_0_r, Z.mul_1_r, Z.shiftr_div_pow2 by lia.
      assert (Hpow : 0 < 2 ^ (- e)) by (apply Z.pow_pos_nonneg; lia).
      destruct s.
      * rewrite Z.quot_opp_l by lia.
        rewrite Z.quot_div_nonneg by lia. reflexivity.
      * rewrite Z.quot_div_nonneg by lia. reflexivity.
Qed.

(** C10. Every row the transcoder returns starts with [int(ts) * 1000] for
    the timestamp [ts] at its position, a multiple of 1000; and [int] of a
    float timestamp is its exact value cut towards zero, so a fraction of a
    second is dropped, neither kept nor rounded. *)
Theorem timestamps_whole_seconds (w : World) (d : value) (rows : list value) :
  transform w d = Ok (VList rows) ->
  (exists ts,
     column d (lit "timestamp") = Ok ts /\
     forall i, (i < List.length rows)%nat ->
       exists z rest,
         py_int (unicode w) (nth i ts VNone) = Ok z /\
         nth i rows VNone = VList (VInt (z * 1000) :: rest) /\
         (z * 1000) mod 1000 = 0) /\
  (forall f z,
     py_int (unicode w) (VFloat f) = Ok z ->
     z = Z.quot (fst (float_ratio f)) (snd (float_ratio f))).
Proof.
  intro H. split.
  - destruct (transform_ok_columns w d _ H) as (ts & o & h & l & c & v & Hcols).
    destruct (transform_returns w d ts o h l c v rows Hcols H) as [Hlen Hrows].
    exists ts. split; [apply Hcols |].
    intros i Hi. rewrite Hlen in Hi. destruct (Hrows i Hi) as (z & Hz & Hrow).
    exists z. eexists. split; [exact Hz |]. split; [exact Hrow |].
    apply Z.mod_mul. lia.
  - intros f z. apply float_int_truncates.
Qed.

(** [timestamps_whole_seconds] at the two candles. *)
Lemma timestamps_whole_seconds_witness :
  transform (sample_world (answers (ok_json two_candles))) two_candles
  = Ok (VList
      [VList [VInt 1700000000000; VStr (lit "100.5"); VStr (lit "102");
              VStr (lit "99.8"); VStr (lit "101"); VStr (lit "2000")];
       VList [VInt 1700000060000; VStr (lit "101"); VStr (lit "101.25");
              VStr (lit "100"); VStr (lit "101"); VStr (lit "1500")]]) /\
  forall f z,
    py_int latin1_only (VFloat f) = Ok z ->
    z = Z.quot (fst (float_ratio f)) (snd (float_ratio f)).
Proof.
  assert (H : transform (sample_world (answers (ok_json two_candles))) two_candles
  = Ok (VList
      [VList [VInt 1700000000000; VStr (lit "100.5"); VStr (lit "102");
              VStr (lit "99.8"); VStr (lit "101"); VStr (lit "2000")];
       VList [VInt 1700000060000; VStr (lit "101"); VStr (lit "101.25");
              VStr (lit "100"); VStr (lit "101"); VStr (lit "1500")]]))
    by (vm_compute; reflexivity).
  split; [exact H |].
  exact (proj2 (timestamps_whole_seconds _ _ _ H)).
Defined.

(** 1.9 and -1.9 become 1 and -1: not 2 and -2 as rounding would give, nor
    -2 as the floor of -1.9 would. *)
Example int_cuts_towards_zero (u : Unicode) :
  py_int u (VFloat (float_lit 19 (-1))) = Ok 1 /\
  py_int u (VFloat (float_lit (-19) (-1))) = Ok (-1) /\
  py_int u (VFloat (float_lit 5 (-1))) = Ok 0.
Proof. repeat split. Qed.

(** ** The interval *)

Lemma parse_interval_eq (w : World) (interval : pystr) :
  parse_interval w interval
  = match filter (isdigit (unicode w)) interval with
    | [] => Raise (invalid_interval interval)
    | digits => Ok digits
    end.
Proof.
  unfold parse_interval.
  destruct (filter (isdigit (unicode w)) interval); reflexivity.
Qed.

Lemma isdigit_ascii (u : Unicode) (c : codepoint) :
  c < 128 -> isdigit u c = is_ascii_digit c.
Proof.
  intro Hc. unfold isdigit, is_ascii_digit.
  destruct (Z.ltb_spec c 256); [| lia].
  destruct (Z.eqb_spec c 178); [lia |].
  destruct (Z.eqb_spec c 179); [lia |].
  destruct (Z.eqb_spec c 185); [lia |].
  now rewrite !orb_false_r.
Qed.

Lemma filter_isdigit_ascii (u : Unicode) (s : pystr) :
  Forall (fun c => c < 128) s -> filter (isdigit u) s = filter is_ascii_digit s.
Proof.
  induction 1 as [| c s Hc _ IH]; simpl; [reflexivity |].
  rewrite (isdigit_ascii u c Hc), IH. reflexivity.
Qed.

(** The endpoint once the instrument is found and the dates are resolved. *)
Lemma get_klines_from_interval (w : World) symbol interval st et row from_str to_str :
  find_instrument w symbol = Ok row ->
  date_range w st et = Ok (from_str, to_str) ->
  get_klines w symbol interval st et
  = (parsed_interval <- parse_interval w interval ;;
     response <- post w (request_for w row parsed_interval from_str to_str) ;;
     dhan_data <- decode_body response ;;
     transform w dhan_data).
Proof. intros Hrow Hdates. unfold get_klines. rewrite Hrow, Hdates. reflexivity. Qed.

(** C3, amended. The interval is reduced to the characters that
    [str.isdigit] accepts, in their order; these are the decimal digits 0-9
    when the interval is ASCII text, and beyond ASCII they include other
    digit characters, such as the superscript two. When no character is
    accepted the interval is refused, and a request whose instrument and
    dates were resolved is answered with status 400 and a detail that quotes
    the interval. *)
Theorem parse_interval_isdigit (w : World) (interval : pystr) :
  parse_interval w interval
  = match filter (isdigit (unicode w)) interval with
    | [] => Raise (invalid_interval interval)
    | digits => Ok digits
    end /\
  (Forall (fun c => c < 128) interval ->
   filter (isdigit (unicode w)) interval = filter is_ascii_digit interval) /\
  (forall symbol st et row from_str to_str,
     find_instrument w symbol = Ok row ->
     date_range w st et = Ok (from_str, to_str) ->
     filter (isdigit (unicode w)) interval = [] ->
     serve w symbol interval st et
     = {| status := 400;
          body := JsonBody (VDict [(lit "detail",
                   VStr (lit "Invalid interval format: '" ++ interval ++ lit "'"))]) |}).
Proof.
  split; [apply parse_interval_eq |].
  split; [apply filter_isdigit_ascii |].
  intros symbol st et row from_str to_str Hrow Hdates Hnone.
  unfold serve. rewrite (get_klines_from_interval w _ _ _ _ _ _ _ Hrow Hdates).
  rewrite parse_interval_eq, Hnone. reflexivity.
Qed.

(** [parse_interval_isdigit] at the interval [xyz] of the spec. *)
Lemma parse_interval_isdigit_witness :
  Forall (fun c => c < 128) (lit "xyz") /\
  find_instrument (sample_world (answers (ok_json two_candles))) (lit "TCS") = Ok TCS /\
  date_range (sample_world (answers (ok_json two_candles))) None None
  = Ok (lit "2023-10-15 22:13:20", lit "2023-11-14 22:13:20") /\
  filter (isdigit latin1_only) (lit "xyz") = filter is_ascii_digit (lit "xyz") /\
  serve (sample_world (answers (ok_json two_candles))) (lit "TCS") (lit "xyz") None None
  = {| status := 400;
       body := JsonBody (VDict [(lit "detail",
                VStr (lit "Invalid interval format: 'xyz'"))]) |}.
Proof.
  assert (Hascii : Forall (fun c => c < 128) (lit "xyz"))
    by (repeat constructor).
  assert (Hrow : find_instrument (sample_world (answers (ok_json two_candles)))
                   (lit "TCS") = Ok TCS) by reflexivity.
  assert (Hdates : date_range (sample_world (answers (ok_json two_candles))) None None
                   = Ok (lit "2023-10-15 22:13:20", lit "2023-11-14 22:13:20"))
    by (vm_compute; reflexivity).
  pose proof (parse_interval_isdigit (sample_world (answers (ok_json two_candles)))
                (lit "xyz")) as (_ & Hfilter & Hserve).
  split; [exact Hascii |]. split; [exact Hrow |]. split; [exact Hdates |].
  split.
  - exact (Hfilter Hascii).
  - exact (Hserve (lit "TCS") None None TCS _ _ Hrow Hdates eq_refl).
Defined.

(** The examples of the spec. *)
Example intervals_of_the_spec (w : World) :
  parse_interval w (lit "5m") = Ok (lit "5") /\
  parse_interval w (lit "1d") = Ok (lit "1") /\
  parse_interval w (lit "15min") = Ok (lit "15") /\
  parse_interval w (lit "abc") = Raise (invalid_interval (lit "abc")).
Proof. repeat split. Qed.

(** C3 as stated fails on the interval made of the superscript two
    (U+00B2): it holds no decimal digit, neither one of 0-9 nor a character
    with a decimal value, and yet it is not refused: it is sent to the vendor
    as it is, and the request is answered with status 200. *)
Lemma parse_interval_counterexample :
  existsb is_ascii_digit [178] = false /\
  todecimal latin1_only 178 = None /\
  parse_interval (sample_world (answers (ok_json two_candles))) [178] = Ok [178] /\
  status (serve (sample_world (answers (ok_json two_candles))) (lit "TCS") [178]
            None None) = 200.
Proof. repeat split. Qed.

(** ** The instrument table *)

Lemma pystr_eqb_true (a b : pystr) : pystr_eqb a b = true <-> a = b.
Proof.
  unfold pystr_eqb. destruct (list_eq_dec Z.eq_dec a b); split; congruence.
Qed.

Lemma filter_no_match (symbol : pystr) (rows : list Instrument) :
  Forall (fun row => tradingSymbol row <> symbol) rows ->
  filter (fun row => pystr_eqb (tradingSymbol row) symbol) rows = [].
Proof.
  induction 1 as [| row rows Hrow _ IH]; simpl; [reflexivity |].
  destruct (pystr_eqb (tradingSymbol row) symbol) eqn:E; [| exact IH].
  apply pystr_eqb_true in E. contradiction.
Qed.

Lemma find_instrument_unknown (w : World) (symbol : pystr) :
  Forall (fun row => tradingSymbol row <> compared w symbol) (script_df w) ->
  find_instrument w symbol = Raise (not_found symbol).
Proof.
  intro H. unfold find_instrument. rewrite filter_no_match by exact H. reflexivity.
Qed.

Lemma find_instrument_first (w : World) (symbol : pystr) before row after :
  script_df w = before ++ row :: after ->
  tradingSymbol row = compared w symbol ->
  Forall (fun r => tradingSymbol r <> compared w symbol) before ->
  find_instrument w symbol = Ok row.
Proof.
  intros Hdf Hrow Hbefore. unfold find_instrument.
  rewrite Hdf, filter_app, filter_no_match by exact Hbefore. simpl.
  apply pystr_eqb_true in Hrow. rewrite Hrow. reflexivity.
Qed.

Lemma find_instrument_inv (w : World) (symbol : pystr) :
  (exists row, find_instrument w symbol = Ok row /\
               In row (script_df w) /\ tradingSymbol row = compared w symbol) \/
  (find_instrument w symbol = Raise (not_found symbol) /\
   Forall (fun row => tradingSymbol row <> compared w symbol) (script_df w)).
Proof.
  unfold find_instrument.
  destruct (filter _ (script_df w)) as [| row rest] eqn:E.
  - right. split; [reflexivity |].
    apply Forall_forall. intros row Hin Heq.
    assert (Hf : In row (filter (fun r => pystr_eqb (tradingSymbol r) (compared w symbol))
                           (script_df w))).
    { apply filter_In. split; [exact Hin | now apply pystr_eqb_true]. }
    rewrite E in Hf. exact Hf.
  - left. exists row. split; [reflexivity |].
    assert (Hf : In row (filter (fun r => pystr_eqb (tradingSymbol r) (compared w symbol))
                           (script_df w))) by (rewrite E; now left).
    apply filter_In in Hf. destruct Hf as [Hin Heq].
    split; [exact Hin | now apply pystr_eqb_true].
Qed.

Lemma get_klines_unknown (w : World) symbol interval st et :
  find_instrument w symbol = Raise (not_found symbol) ->
  get_klines w symbol interval st et = Raise (not_found symbol).
Proof. intro H. unfold get_klines. rewrite H. reflexivity. Qed.

Lemma strip_nul_plain (s : pystr) : last s 1 <> 0 -> strip_nul s = s.
Proof.
  induction s as [|c r IH]; [reflexivity|].
  intros Hlast. destruct r as [|c' r'].
  - simpl in Hlast. simpl. destruct (c =? 0) eqn:E; [|reflexivity].
    apply Z.eqb_eq in E. contradiction.
  - change (last (c :: c' :: r') 1) with (last (c' :: r') 1) in Hlast.
    specialize (IH Hlast).
    change (strip_nul (c :: c' :: r'))
      with (match strip_nul (c' :: r') with
            | [] => if c =? 0 then [] else [c]
            | r'' => c :: r''
            end).
    rewrite IH. reflexivity.
Qed.

Lemma compared_plain (w : World) (symbol : pystr) :
  drops_trailing_nul w = false \/ last symbol 1 <> 0 -> compared w symbol = symbol.
Proof.
  unfold compared. intros [-> | H]; [reflexivity|].
  destruct (drops_trailing_nul w); [apply strip_nul_plain; exact H | reflexivity].
Qed.

(** C5, amended. The symbol is compared with the column as pandas compares
    it: code point for code point, but where the comparison goes through
    NumPy the NUL characters at the end of the symbol are dropped first (a
    symbol that does not end in NUL is compared as it is). A symbol that no
    row carries in this sense is answered with status 404 and the detail
    [Instrument with trading symbol '<symbol>' not found.]; otherwise the
    first row carrying it, in the table's order, is the one found, and the
    request posted to the vendor holds that row's security id as text, its
    exchange segment and its instrument type. *)
Theorem symbol_lookup (w : World) (symbol interval : pystr) (st et : option Z) :
  (Forall (fun row => tradingSymbol row <> compared w symbol) (script_df w) ->
   serve w symbol interval st et
   = {| status := 404;
        body := JsonBody (VDict [(lit "detail",
                 VStr (lit "Instrument with trading symbol '" ++ symbol
                       ++ lit "' not found."))]) |}) /\
  (forall before row after,
     script_df w = before ++ row :: after ->
     tradingSymbol row = compared w symbol ->
     Forall (fun r => tradingSymbol r <> compared w symbol) before ->
     find_instrument w symbol = Ok row /\
     get_klines w symbol interval st et
     = ('(from_str, to_str) <- date_range w st et ;;
        parsed_interval <- parse_interval w interval ;;
        response <- post w
          {| url := lit "https://api.dhan.co/v2/charts/intraday";
             headers := [(lit "access-token", DHAN_ACCESS_TOKEN w);
                         (lit "Content-Type", lit "application/json");
                         (lit "Accept", lit "application/json")];
             json := [(lit "securityId",
                       match securityId row with
                       | IdText s => s
                       | IdInt n => int_str n
                       end);
                      (lit "exchangeSegment", exchangeSegment row);
                      (lit "instrument", instrument row);
                      (lit "interval", parsed_interval);
                      (lit "fromDate", from_str);
                      (lit "toDate", to_str)] |} ;;
        dhan_data <- decode_body response ;;
        transform w dhan_data)) /\
  (drops_trailing_nul w = false \/ last symbol 1 <> 0 -> compared w symbol = symbol).
Proof.
  split; [|split].
  - intro H. unfold serve.
    rewrite get_klines_unknown by (apply find_instrument_unknown; exact H).
    reflexivity.
  - intros before row after Hdf Hrow Hbefore.
    pose proof (find_instrument_first w symbol before row after Hdf Hrow Hbefore)
      as Hfound.
    split; [exact Hfound |].
    unfold get_klines. rewrite Hfound. reflexivity.
  - apply compared_plain.
Qed.

(** [symbol_lookup] at the sample table: [tcs] is unknown, and of the two
    rows for [TCS] the first is used. *)
Lemma symbol_lookup_witness :
  Forall (fun row => tradingSymbol row <> lit "tcs")
         (script_df (sample_world only_tcs_nse)) /\
  serve (sample_world only_tcs_nse) (lit "tcs") (lit "5m") None None
  = {| status := 404;
       body := JsonBody (VDict [(lit "detail",
                VStr (lit "Instrument with trading symbol 'tcs' not found."))]) |} /\
  script_df (sample_world only_tcs_nse) = [INFY] ++ TCS :: [TCS_BSE] /\
  find_instrument (sample_world only_tcs_nse) (lit "TCS") = Ok TCS /\
  status (serve (sample_world only_tcs_nse) (lit "TCS") (lit "5m") None None) = 200.
Proof.
  assert (Hnone : Forall (fun row => tradingSymbol row <> lit "tcs")
                         (script_df (sample_world only_tcs_nse))).
  { repeat constructor; intro H; vm_compute in H; discriminate H. }
  assert (Hbefore : Forall (fun r => tradingSymbol r <> lit "TCS") [INFY]).
  { repeat constructor; intro H; vm_compute in H; discriminate H. }
  split; [exact Hnone |].
  split.
  - exact (proj1 (symbol_lookup (sample_world only_tcs_nse) (lit "tcs") (lit "5m")
                    None None) Hnone).
  - split; [reflexivity |].
    destruct (proj1 (proj2 (symbol_lookup (sample_world only_tcs_nse) (lit "TCS")
                              (lit "5m") None None))
                [INFY] TCS [TCS_BSE] eq_refl eq_refl Hbefore)
      as [Hfound Hrest].
    split; [exact Hfound |].
    unfold serve. rewrite Hrest. vm_compute. reflexivity.
Defined.

(** C5 as stated fails where pandas compares through NumPy: no row carries
    the symbol TCS followed by a NUL, code point for code point, and yet the
    row of TCS is found and the request answered with status 200. *)
Lemma symbol_lookup_counterexample :
  Forall (fun row => tradingSymbol row <> lit "TCS" ++ [0])
         (script_df (sample_world only_tcs_nse)) /\
  find_instrument (sample_world only_tcs_nse) (lit "TCS" ++ [0]) = Ok TCS /\
  status (serve (sample_world only_tcs_nse) (lit "TCS" ++ [0]) (lit "5m") None None)
  = 200.
Proof.
  split; [|split; vm_compute; reflexivity].
  repeat constructor; intro H; vm_compute in H; discriminate H.
Qed.

(** ** What each step can raise *)

Lemma parse_interval_raises (w : World) (interval : pystr) (e : exn) :
  parse_interval w interval = Raise e ->
  e = invalid_interval interval /\ filter (isdigit (unicode w)) interval = [].
Proof.
  rewrite parse_interval_eq.
  destruct (filter (isdigit (unicode w)) interval); intro H.
  - injection H as <-. split; reflexivity.
  - discriminate H.
Qed.

Lemma post_raises (w : World) (sent : Sent) (e : exn) :
  post w sent = Raise e ->
  exists f, class_of f = RequestException /\
            e = HTTPException 500 (lit "Error calling DhanHQ API: " ++ exn_text w f).
Proof.
  unfold post. destruct (vendor w sent) as [msg | response].
  - simpl. intro H. injection H as <-. exists (Transport msg). split; reflexivity.
  - destruct ((400 <=? status_code response) && (status_code response <? 600)).
    + simpl. intro H. injection H as <-.
      exists (HTTPError (status_code response) (reason response) (url sent)).
      split; reflexivity.
    + simpl. discriminate.
Qed.

Lemma decode_body_raises (response : Response) (e : exn) :
  decode_body response = Raise e -> e = Error (UndefinedName (lit "json")).
Proof.
  unfold decode_body. destruct (decoded response) as [complaint | v].
  - vm_compute. intro H. injection H as <-. reflexivity.
  - destruct (decodable v); [discriminate |].
    vm_compute. intro H. injection H as <-. reflexivity.
Qed.

Lemma bind_raise {A B} (r : result A) (k : A -> result B) (e : exn) :
  bind r k = Raise e -> r = Raise e \/ exists a, r = Ok a /\ k a = Raise e.
Proof.
  destruct r as [a | e']; simpl; intro H.
  - right. eauto.
  - left. congruence.
Qed.

Lemma py_int_raises (u : Unicode) (v : value) (e : exn) :
  py_int u v = Raise e -> exists f, e = Error f /\ transcode_fault f.
Proof.
  unfold py_int. intro H.
  destruct v as [| b | n | f | s | items | items]; try discriminate H;
    try (injection H as <-; eexists; split; [reflexivity | exact I]).
  - destruct f as [? | ? | | ? ? ?]; simpl in H; try discriminate H;
      injection H as <-; eexists; split; try reflexivity; exact I.
  - destruct (to_ascii_digits u s) as [a |];
      [destruct (int_max_str_digits <? digits_read a); [| destruct (int_of_ascii a)] |];
      try discriminate H; injection H as <-; eexists; split; try reflexivity; exact I.
Qed.

Lemma subscript_raises (d : value) (key : pystr) (e : exn) :
  subscript d key = Raise e -> exists f, e = Error f /\ transcode_fault f.
Proof.
  unfold subscript. intro H.
  destruct d; try (injection H as <-; eexists; split; [reflexivity | exact I]).
  destruct (lookup key items); [discriminate H |].
  injection H as <-. eexists. split; [reflexivity | exact I].
Qed.

Lemma iterate_raises (v : value) (e : exn) :
  iterate v = Raise e -> exists f, e = Error f /\ transcode_fault f.
Proof.
  unfold iterate. intro H.
  destruct v; try discriminate H;
    injection H as <-; eexists; split; try reflexivity; exact I.
Qed.

Lemma comprehension_raise_inv {A B} (f : A -> result B) xs e :
  comprehension f xs = Raise e -> exists x, In x xs /\ f x = Raise e.
Proof.
  induction xs as [| x xs IH]; simpl; [discriminate |].
  intro H. apply bind_raise in H. destruct H as [H | (y & Hy & H)].
  - exists x. split; [now left | exact H].
  - apply bind_raise in H. destruct H as [H | (ys & Hys & H)]; [| discriminate H].
    destruct (IH H) as (x' & Hin & Hx'). exists x'. split; [now right | exact Hx'].
Qed.

Lemma kline_row_raises (u : Unicode) t (e : exn) :
  kline_row u t = Raise e -> exists f, e = Error f /\ transcode_fault f.
Proof.
  destruct t as [[[[[ts o] h] l] c] v]. unfold kline_row. intro H.
  apply bind_raise in H. destruct H as [H | (n & _ & H)]; [| discriminate H].
  exact (py_int_raises u ts e H).
Qed.

Lemma try_except_raise_inv {A} (body : result A) classes handler (e : exn) :
  try_except body classes handler = Raise e ->
  (exists f, body = Raise (Error f) /\
             existsb (exn_class_beq (class_of f)) classes = true /\
             e = handler f) \/
  (body = Raise e /\
   forall f, e = Error f -> existsb (exn_class_beq (class_of f)) classes = false).
Proof.
  unfold try_except. destruct body as [a | [code detail | f]].
  - discriminate.
  - intro H. right. split; [exact H |]. intros f Hf. congruence.
  - destruct (existsb (exn_class_beq (class_of f)) classes) eqn:E; intro H.
    + left. exists f. split; [reflexivity |]. split; [exact E | congruence].
    + right. split; [exact H |]. intros f' Hf'. congruence.
Qed.

(** What the transcoder can raise: the 500 of its handler, made of a
    KeyError or a TypeError, or else the ValueError or OverflowError of an
    [int] that the handler does not list. *)
Lemma transform_raises (w : World) (d : value) (e : exn) :
  transform w d = Raise e ->
  (exists f, (class_of f = KeyError \/ class_of f = TypeError) /\
             e = HTTPException 500
                   (lit "Failed to parse DhanHQ response: " ++ exn_text w f)) \/
  (exists f, (class_of f = ValueError \/ class_of f = OverflowError) /\
             e = Error f).
Proof.
  unfold transform.
  match goal with |- try_except ?b _ _ = _ -> _ => set (body := b) end.
  assert (Hbody : forall e', body = Raise e' ->
                    exists f, e' = Error f /\ transcode_fault f).
  { subst body. intros e' H.
    repeat (apply bind_raise in H;
            destruct H as [H | (? & _ & H)];
            [ first [ exact (subscript_raises _ _ _ H)
                    | exact (iterate_raises _ _ H) ] | ]).
    apply bind_raise in H. destruct H as [H | (? & _ & H)]; [| discriminate H].
    apply comprehension_raise_inv in H. destruct H as (t & _ & H).
    exact (kline_row_raises _ _ _ H). }
  clearbody body. intro H. apply try_except_raise_inv in H.
  destruct H as [(f & _ & Hclass & ->) | (Hraise & Hclass)].
  - left. exists f. split; [| reflexivity].
    destruct (class_of f); simpl in Hclass; try discriminate Hclass; tauto.
  - right. destruct (Hbody e Hraise) as (f & -> & Hf). exists f.
    split; [| reflexivity]. specialize (Hclass f eq_refl).
    destruct f; try contradiction Hf; simpl in Hclass; try discriminate Hclass;
      simpl; tauto.
Qed.

(** ** Division by 1000 in floating point

    [startTime / 1000] is the double nearest to the quotient, and
    [fromtimestamp] splits it into whole seconds and microseconds through a
    second rounding. The lemmas below follow the two roundings bit by bit
    and show that the whole seconds are the floor of the exact quotient. *)

Lemma digits2_pos_size (p : positive) : digits2_pos p = Pos.size p.
Proof. induction p; simpl; congruence. Qed.

Lemma Zdigits2_bounds (p : positive) :
  2 ^ (Zdigits2 (Zpos p) - 1) <= Zpos p < 2 ^ Zdigits2 (Zpos p).
Proof.
  unfold Zdigits2. rewrite digits2_pos_size.
  pose proof (Pos.size_gt p) as Hgt. pose proof (Pos.size_le p) as Hle.
  assert (Hpow : forall n : positive, Zpos (2 ^ n) = 2 ^ Zpos n).
  { intro n. rewrite Pos2Z.inj_pow. reflexivity. }
  apply Pos2Z.pos_lt_pos in Hgt. apply Pos2Z.pos_le_pos in Hle.
  rewrite Hpow in Hgt, Hle. change (Z.pos p~0) with (2 * Z.pos p) in Hle.
  split; [| exact Hgt].
  replace (2 ^ Zpos (Pos.size p)) with (2 * 2 ^ (Zpos (Pos.size p) - 1)) in Hle.
  - lia.
  - rewrite <- Z.pow_succ_r by lia. f_equal. lia.
Qed.

Lemma Zdigits2_unique (p : positive) (d : Z) :
  2 ^ (d - 1) <= Zpos p < 2 ^ d -> Zdigits2 (Zpos p) = d.
Proof.
  intro H. pose proof (Zdigits2_bounds p) as B.
  set (k := Zdigits2 (Zpos p)) in *.
  assert (Hk : 0 < k) by (subst k; simpl; lia).
  assert (Hd : 0 < d).
  { destruct (Z.ltb_spec 0 d); [assumption |].
    exfalso. destruct (Z.eq_dec d 0) as [-> | Hn].
    - simpl in H. lia.
    - rewrite (Z.pow_neg_r 2 d) in H by lia. lia. }
  destruct (Z.lt_trichotomy k d) as [Hlt | [Heq | Hgt]]; [| exact Heq |]; exfalso.
  - assert (2 ^ k <= 2 ^ (d - 1)) by (apply Z.pow_le_mono_r; lia). lia.
  - assert (2 ^ d <= 2 ^ (k - 1)) by (apply Z.pow_le_mono_r; lia). lia.
Qed.

Lemma shr_1_m (mrs : shr_record) :
  0 <= shr_m mrs -> shr_m (shr_1 mrs) = shr_m mrs / 2.
Proof.
  destruct mrs as [m r s]. cbn [shr_m]. intro Hm.
  destruct m as [| [p | p |] | p]; cbn [shr_1 shr_m]; try lia.
  - reflexivity.
  - apply Z.div_unique with (r := 1); lia.
  - apply Z.div_unique with (r := 0); lia.
  - reflexivity.
Qed.

Lemma pow2_xI (n : positive) : 2 ^ Z.pos n~1 = 2 * 2 ^ Z.pos n * 2 ^ Z.pos n.
Proof.
  change (Z.pos n~1) with (2 * Z.pos n + 1).
  replace (2 * Z.pos n + 1) with (1 + Z.pos n + Z.pos n) by lia.
  rewrite !Z.pow_add_r by lia. reflexivity.
Qed.

Lemma pow2_xO (n : positive) : 2 ^ Z.pos n~0 = 2 ^ Z.pos n * 2 ^ Z.pos n.
Proof.
  change (Z.pos n~0) with (2 * Z.pos n).
  replace (2 * Z.pos n) with (Z.pos n + Z.pos n) by lia.
  rewrite Z.pow_add_r by lia. reflexivity.
Qed.

Lemma iter_shr_1_m (n : positive) (mrs : shr_record) :
  0 <= shr_m mrs ->
  shr_m (iter_pos shr_1 n mrs) = shr_m mrs / 2 ^ Zpos n.
Proof.
  revert mrs. induction n as [n IH | n IH |]; intros mrs Hm.
  - cbn [iter_pos].
    assert (Hp : 0 < 2 ^ Z.pos n) by (apply Z.pow_pos_nonneg; lia).
    assert (H1 : 0 <= shr_m (shr_1 mrs)).
    { rewrite shr_1_m by exact Hm. apply Z.div_pos; lia. }
    assert (H2 : 0 <= shr_m (iter_pos shr_1 n (shr_1 mrs))).
    { rewrite IH by exact H1. apply Z.div_pos; lia. }
    rewrite IH by exact H2. rewrite IH by exact H1. rewrite shr_1_m by exact Hm.
    rewrite !Z.div_div by lia. rewrite pow2_xI. f_equal. ring.
  - cbn [iter_pos].
    assert (Hp : 0 < 2 ^ Z.pos n) by (apply Z.pow_pos_nonneg; lia).
    assert (H2 : 0 <= shr_m (iter_pos shr_1 n mrs)).
    { rewrite IH by exact Hm. apply Z.div_pos; lia. }
    rewrite IH by exact H2. rewrite IH by exact Hm.
    rewrite !Z.div_div by lia. rewrite pow2_xO. reflexivity.
  - cbn [iter_pos]. rewrite shr_1_m by exact Hm. reflexivity.
Qed.

Lemma round_nearest_even_cases (m : Z) (l : location) :
  round_nearest_even m l = m \/ round_nearest_even m l = m + 1.
Proof.
  unfold round_nearest_even.
  destruct l as [| [| |]]; try (left; reflexivity); try (right; reflexivity).
  destruct (Z.even m); [left | right]; reflexivity.
Qed.

Lemma shr_spec (mrs : shr_record) (e n : Z) :
  0 <= shr_m mrs -> 0 <= n ->
  shr_m (fst (shr mrs e n)) = shr_m mrs / 2 ^ n /\ snd (shr mrs e n) = e + n.
Proof.
  intros Hm Hn. unfold shr. destruct n as [| p | p]; cbn [fst snd].
  - rewrite Z.pow_0_r, Z.div_1_r. split; [reflexivity | lia].
  - split; [apply iter_shr_1_m; exact Hm | reflexivity].
  - lia.
Qed.

Lemma shr_record_of_loc_m (m : Z) (l : location) :
  shr_m (shr_record_of_loc m l) = m.
Proof. destruct l as [| [| |]]; reflexivity. Qed.

Lemma fexp_normal (e : Z) : -1021 <= e -> fexp prec emax e = e - 53.
Proof. intro H. unfold fexp, emin, prec, emax. lia. Qed.

Lemma shr_fexp_spec (p : positive) (e : Z) (l : location) :
  53 <= Zdigits2 (Zpos p) -> -1074 <= e ->
  exists mrs,
    shr_fexp prec emax (Zpos p) e l = (mrs, e + (Zdigits2 (Zpos p) - 53)) /\
    shr_m mrs = Zpos p / 2 ^ (Zdigits2 (Zpos p) - 53) /\
    (Zdigits2 (Zpos p) = 53 -> mrs = shr_record_of_loc (Zpos p) l) /\
    (Zdigits2 (Zpos p) = 54 -> mrs = shr_1 (shr_record_of_loc (Zpos p) l)).
Proof.
  intros Hd He. unfold shr_fexp. rewrite fexp_normal by lia.
  set (d := Zdigits2 (Zpos p)) in *.
  replace (d + e - 53 - e) with (d - 53) by lia.
  destruct (shr_spec (shr_record_of_loc (Zpos p) l) e (d - 53)) as [Hm1 He1];
    [rewrite shr_record_of_loc_m; lia | lia |].
  rewrite shr_record_of_loc_m in Hm1.
  destruct (shr (shr_record_of_loc (Zpos p) l) e (d - 53)) as [mrs e'] eqn:E.
  cbn [fst snd] in Hm1, He1. subst e'.
  exists mrs. split; [reflexivity |]. split; [exact Hm1 |]. split.
  - intro H53. subst d. rewrite H53 in E.
    change (53 - 53) with 0 in E. cbn [shr] in E. congruence.
  - intro H54. subst d. rewrite H54 in E.
    change (54 - 53) with 1 in E. cbn [shr iter_pos] in E. congruence.
Qed.

(** The mantissa in units of [2^ex] after rounding a number of at least 53
    bits: the 53 leading bits, or one more in the last place. *)
Lemma binary_round_aux_spec (sx : bool) (mx : positive) (ex : Z) (lx : location) :
  53 <= Zdigits2 (Zpos mx) -> -1074 <= ex -> Zdigits2 (Zpos mx) + ex <= 1000 ->
  exists M E,
    binary_round_aux prec emax sx (Zpos mx) ex lx = S754_finite sx M E /\
    ex + (Zdigits2 (Zpos mx) - 53) <= E <= ex + (Zdigits2 (Zpos mx) - 53) + 1 /\
    2 ^ 52 <= Zpos M < 2 ^ 53 /\
    (Zpos M * 2 ^ (E - ex)
     = Zpos mx / 2 ^ (Zdigits2 (Zpos mx) - 53) * 2 ^ (Zdigits2 (Zpos mx) - 53) \/
     Zpos M * 2 ^ (E - ex)
     = (Zpos mx / 2 ^ (Zdigits2 (Zpos mx) - 53) + 1) * 2 ^ (Zdigits2 (Zpos mx) - 53)) /\
    (lx = loc_Exact -> Zdigits2 (Zpos mx) = 53 -> M = mx /\ E = ex) /\
    (lx = loc_Exact -> Zdigits2 (Zpos mx) = 54 -> Z.even (Zpos mx) = true ->
     Zpos M * 2 ^ (E - ex) = Zpos mx).
Proof.
  intros Hd Hex Hmax.
  pose proof (Zdigits2_bounds mx) as Hb.
  destruct (shr_fexp_spec mx ex lx Hd Hex) as (mrs' & E1 & Hm1 & Hexact & Hexact54).
  set (d := Zdigits2 (Zpos mx)) in *. set (n := d - 53) in *.
  assert (Hn : 0 <= n) by (subst n; lia).
  assert (Hpn : 0 < 2 ^ n) by (apply Z.pow_pos_nonneg; lia).
  set (m := Zpos mx / 2 ^ n) in *.
  assert (Hm : 2 ^ 52 <= m < 2 ^ 53).
  { subst m. split.
    - apply Z.div_le_lower_bound; [exact Hpn |].
      rewrite Z.mul_comm, <- Z.pow_add_r by lia.
      replace (52 + n) with (d - 1) by (subst n; lia). apply Hb.
    - apply Z.div_lt_upper_bound; [exact Hpn |].
      rewrite <- Z.pow_add_r by lia.
      replace (n + 53) with d by (subst n; lia). apply Hb. }
  unfold binary_round_aux. rewrite E1, Hm1.
  set (mr := round_nearest_even m (loc_of_shr_record mrs')).
  assert (Hmr : mr = m \/ mr = m + 1) by apply round_nearest_even_cases.
  assert (Hexact' : lx = loc_Exact -> d = 53 -> mr = Zpos mx).
  { intros -> H53. subst mr. rewrite (Hexact H53). cbn.
    subst m n. rewrite H53. simpl (2 ^ (53 - 53)). rewrite Z.div_1_r. reflexivity. }
  assert (Heven : lx = loc_Exact -> d = 54 -> Z.even (Zpos mx) = true -> mr = m).
  { intros -> H54 Hev. subst mr. rewrite (Hexact54 H54).
    destruct mx as [q | q |]; try discriminate Hev. reflexivity. }
  assert (Hmr_pos : 0 < mr) by lia.
  clearbody mr.
  destruct mr as [| pr | pr]; try lia.
  destruct (Z.eq_dec (Zpos pr) (2 ^ 53)) as [Htop | Hnot].
  - assert (Hdig : Zdigits2 (Zpos pr) = 54).
    { apply Zdigits2_unique. rewrite Htop. simpl. lia. }
    destruct (shr_fexp_spec pr (ex + n) loc_Exact) as (mrs'' & E2 & Hm2 & _ & _); [lia | lia |].
    rewrite E2, Hm2, Hdig. rewrite Htop.
    change (2 ^ 53 / 2 ^ (54 - 53)) with 4503599627370496.
    assert (Hle : (ex + n + (54 - 53) <=? emax - prec) = true).
    { apply Z.leb_le. unfold emax, prec. subst n. lia. }
    rewrite Hle. eexists _, _. split; [reflexivity |].
    split; [subst n; lia |]. split; [lia |]. split.
    + right. replace (ex + n + (54 - 53) - ex) with (n + 1) by lia.
      rewrite Z.pow_add_r by lia.
      assert (Hm53 : m + 1 = 2 ^ 53) by lia. rewrite Hm53. lia.
    + split.
      * intros Hl H53. specialize (Hexact' Hl H53). exfalso.
        destruct Hb as [_ Hb]. rewrite H53 in Hb. lia.
      * intros Hl H54 Hev. specialize (Heven Hl H54 Hev). lia.
  - assert (Hdig : Zdigits2 (Zpos pr) = 53).
    { apply Zdigits2_unique. simpl (53 - 1). lia. }
    destruct (shr_fexp_spec pr (ex + n) loc_Exact) as (mrs'' & E2 & Hm2 & _ & _); [lia | lia |].
    rewrite E2, Hm2, Hdig. simpl (2 ^ (53 - 53)). rewrite Z.div_1_r.
    assert (Hle : (ex + n + (53 - 53) <=? emax - prec) = true).
    { apply Z.leb_le. unfold emax, prec. subst n. lia. }
    rewrite Hle. exists pr, (ex + n + (53 - 53)). split; [reflexivity |].
    split; [subst n; lia |]. split; [lia |]. split.
    + replace (ex + n + (53 - 53) - ex) with n by lia.
      destruct Hmr as [-> | ->]; [left | right]; reflexivity.
    + split.
      * intros Hl H53. specialize (Hexact' Hl H53).
        split; [congruence | subst n; lia].
      * intros Hl H54 Hev. specialize (Heven Hl H54 Hev).
        replace (ex + n + (53 - 53) - ex) with n by lia.
        rewrite Heven. subst m n. rewrite H54. change (2 ^ (54 - 53)) with 2.
        destruct mx as [q | q |]; try discriminate Hev.
        change (Z.pos q~0) with (2 * Z.pos q).
        rewrite (Z.mul_comm 2), Z.div_mul by lia. reflexivity.
Qed.

(** [p / 1000] as a double, for [p] below [2^48]: mantissa [M] and exponent
    [E] with [M / 2^(-E)] within [2 / 2^(-E)] of the quotient, and equal to
    it when 1000 divides [p]. *)
Lemma truediv_1000_spec (sgn : bool) (p : positive) :
  Zpos p < 2 ^ 48 ->
  exists M E,
    SFdiv prec emax (S754_finite sgn p 0) (S754_finite false 1000 0)
    = S754_finite sgn M E /\
    -62 <= E <= -13 /\ 2 ^ 52 <= Zpos M < 2 ^ 53 /\
    -2000 <= 1000 * Zpos M - Zpos p * 2 ^ (- E) <= 2000 /\
    (Zpos p mod 1000 = 0 -> 1000 * Zpos M = Zpos p * 2 ^ (- E)).
Proof.
  intro Hp. pose proof (Zdigits2_bounds p) as Hb.
  set (d1 := Zdigits2 (Zpos p)) in *.
  assert (Hd1 : 1 <= d1 <= 48).
  { split; [subst d1; simpl; lia |].
    destruct (Z.ltb_spec 48 d1) as [Hgt | ]; [| lia]. exfalso.
    assert (2 ^ 48 <= 2 ^ (d1 - 1)) by (apply Z.pow_le_mono_r; lia). lia. }
  set (s := 63 - d1).
  assert (HS : 2 ^ 15 <= 2 ^ s) by (apply Z.pow_le_mono_r; subst s; lia).
  assert (HpS : 2 ^ 62 <= Zpos p * 2 ^ s < 2 ^ 63).
  { replace 62 with ((d1 - 1) + s) by (subst s; lia).
    replace 63 with (d1 + s) by (subst s; lia).
    rewrite !Z.pow_add_r by (subst s; lia).
    split; [apply Z.mul_le_mono_nonneg_r | apply Z.mul_lt_mono_pos_r]; lia. }
  unfold SFdiv, SFdiv_core_binary. fold d1.
  change (Zdigits2 (Zpos 1000)) with 10.
  replace (d1 + 0 - (10 + 0)) with (d1 - 10) by lia.
  rewrite fexp_normal by lia. change (0 - 0) with 0.
  replace (Z.min (d1 - 10 - 53) 0) with (- s) by (subst s; lia).
  replace (0 - - s) with s by lia.
  assert (Hs : 0 < s) by (subst s; lia).
  destruct s as [| ps | ps] eqn:Es; try lia. rewrite <- Es in *.
  rewrite Z.shiftl_mul_pow2 by lia.
  pose proof (Z_div_mod (Zpos p * 2 ^ s) 1000 ltac:(lia)) as Hdm.
  destruct (Z.div_eucl (Zpos p * 2 ^ s) 1000) as [q r]. destruct Hdm as [Hq Hr].
  assert (Hqb : 2 ^ 52 <= q < 2 ^ 54) by lia.
  destruct q as [| pq | pq]; try lia.
  assert (Hdq : Zdigits2 (Zpos pq) = 53 \/ Zdigits2 (Zpos pq) = 54).
  { destruct (Z.ltb_spec (Zpos pq) (2 ^ 53)); [left | right];
      apply Zdigits2_unique; simpl (_ - 1); lia. }
  rewrite xorb_false_r.
  destruct (binary_round_aux_spec sgn pq (- s) (new_location 1000 r))
    as (M & E & HR & HE & HM & HX & Hex53 & Hex54); [lia | lia | lia |].
  exists M, E. split; [exact HR |].
  split; [lia |]. split; [exact HM |].
  set (N := 2 ^ (- E)).
  assert (HN : 2 ^ (E - - s) * N = 2 ^ s).
  { subst N. rewrite <- Z.pow_add_r by lia. f_equal. lia. }
  assert (HT : 1 <= 2 ^ (E - - s)) by (apply Z.pow_pos_nonneg || (assert (0 < 2 ^ (E - - s)) by (apply Z.pow_pos_nonneg; lia); lia)).
  assert (HNpos : 0 < N) by (subst N; apply Z.pow_pos_nonneg; lia).
  set (T := 2 ^ (E - - s)) in *.
  set (X := Zpos M * T) in *.
  assert (HXq : -1 <= X - Zpos pq <= 2).
  { destruct Hdq as [H53 | H54]; rewrite ?H53, ?H54 in HX.
    - change (2 ^ (53 - 53)) with 1 in HX. rewrite Z.div_1_r in HX. lia.
    - change (2 ^ (54 - 53)) with 2 in HX.
      pose proof (Z_div_mod_eq_full (Zpos pq) 2) as Hdiv.
      pose proof (Z.mod_pos_bound (Zpos pq) 2 ltac:(lia)) as Hmod. lia. }
  assert (Hrel : T * (1000 * Zpos M - Zpos p * N) = 1000 * (X - Zpos pq) - r).
  { subst X. rewrite Z.mul_sub_distr_l.
    replace (T * (Zpos p * N)) with (Zpos p * (T * N)) by ring.
    rewrite HN. lia. }
  split.
  - nia.
  - intro Hdiv.
    assert (Hr0 : r = 0).
    { assert (H1 : (Zpos p * 2 ^ s) mod 1000 = 0).
      { rewrite <- Z.mul_mod_idemp_l by lia. rewrite Hdiv. reflexivity. }
      rewrite Hq in H1. rewrite Z.add_comm, Z.mul_comm, Z.mod_add in H1 by lia.
      rewrite Z.mod_small in H1 by lia. exact H1. }
    subst r. change (new_location 1000 0) with loc_Exact in Hex53, Hex54.
    assert (HXeq : X = Zpos pq).
    { destruct Hdq as [H53 | H54].
      - destruct (Hex53 eq_refl H53) as [-> ->]. subst X T.
        replace (- s - - s) with 0 by lia. simpl. lia.
      - apply (Hex54 eq_refl H54).
        (* q is even: 1000 q = p 2^s with s >= 15 *)
        apply Z.even_spec.
        assert (Hs2 : 2 ^ s = 8 * 2 ^ (s - 3)).
        { change 8 with (2 ^ 3). rewrite <- Z.pow_add_r by lia. f_equal. lia. }
        assert (0 < 2 ^ (s - 3)) by (apply Z.pow_pos_nonneg; lia).
        exists (Zpos p / 1000 * (4 * 2 ^ (s - 3))).
        pose proof (Z_div_mod_eq_full (Zpos p) 1000) as Hp1000.
        rewrite Hdiv in Hp1000. nia. }
    nia.
Qed.

Lemma million : float_lit 1000000 0 = S754_finite false 8589934592000000 (-33).
Proof. vm_compute. reflexivity. Qed.

Lemma iter_xO (mx d : positive) :
  Zpos (Pos.iter xO mx d) = Zpos mx * 2 ^ Zpos d.
Proof.
  induction d as [| d IH] using Pos.peano_ind.
  - simpl. lia.
  - rewrite Pos.iter_succ. rewrite Pos2Z.inj_succ.
    rewrite Z.pow_succ_r by lia.
    change (Z.pos (Pos.iter xO mx d)~0) with (2 * Z.pos (Pos.iter xO mx d)).
    rewrite IH. ring.
Qed.

(** A mantissa of at most 53 bits is a double as it is, once shifted to 53
    bits. *)
Lemma binary_round_exact (sx : bool) (mx : positive) (ex : Z) :
  Zdigits2 (Zpos mx) <= 53 -> -1020 <= ex -> ex <= 900 ->
  exists mz t,
    binary_round prec emax sx mx ex = S754_finite sx mz (ex - t) /\
    0 <= t <= 52 /\ Zpos mz = Zpos mx * 2 ^ t /\ 2 ^ 52 <= Zpos mz < 2 ^ 53.
Proof.
  intros Hd Hex Hex'. pose proof (Zdigits2_bounds mx) as Hb.
  unfold binary_round.
  change (Zpos (digits2_pos mx)) with (Zdigits2 (Zpos mx)).
  set (d := Zdigits2 (Zpos mx)) in *.
  assert (Hd1 : 1 <= d) by (subst d; simpl; lia).
  rewrite fexp_normal by lia. unfold shl_align.
  replace (d + ex - 53 - ex) with (d - 53) by lia.
  destruct (d - 53) as [| k | k] eqn:Ek; try lia.
  - (* already 53 bits *)
    assert (H53 : d = 53) by lia.
    destruct (binary_round_aux_spec sx mx ex loc_Exact)
      as (M & E & HR & _ & HM & _ & Hexact & _); [subst d; lia | lia | subst d; lia |].
    destruct (Hexact eq_refl H53) as [-> ->].
    exists mx, 0. rewrite HR. replace (ex - 0) with ex by lia.
    split; [reflexivity |]. split; [lia |]. split; [lia | exact HM].
  - set (mz := Pos.iter xO mx k).
    assert (Hmz : Zpos mz = Zpos mx * 2 ^ Zpos k) by apply iter_xO.
    assert (Hk : Zpos k = 53 - d) by lia.
    assert (Hbz : 2 ^ 52 <= Zpos mz < 2 ^ 53).
    { rewrite Hmz, Hk.
      replace 52 with ((d - 1) + (53 - d)) at 1 by lia.
      replace 53 with (d + (53 - d)) at 4 by lia.
      rewrite !Z.pow_add_r by lia.
      assert (0 < 2 ^ (53 - d)) by (apply Z.pow_pos_nonneg; lia).
      split; [apply Z.mul_le_mono_nonneg_r | apply Z.mul_lt_mono_pos_r]; lia. }
    assert (Hdz : Zdigits2 (Zpos mz) = 53) by (apply Zdigits2_unique; simpl (53 - 1); lia).
    destruct (binary_round_aux_spec sx mz (d + ex - 53) loc_Exact)
      as (M & E & HR & _ & HM & _ & Hexact & _); [lia | lia | lia |].
    destruct (Hexact eq_refl Hdz) as [-> ->].
    exists mz, (Zpos k). rewrite HR.
    split; [f_equal; lia |]. split; [lia |]. split; [exact Hmz | exact Hbz].
Qed.

Lemma rounded_micros (A P D U : Z) :
  0 < D -> 2 * D <= P <= 999990 * D -> U * 2 ^ 52 <= P -> P - U <= A <= P + U ->
  1 <= A / D < 999991.
Proof.
  intros HD HP HU HA. split.
  - apply Z.div_le_lower_bound; lia.
  - apply Z.div_lt_upper_bound; lia.
Qed.

(** [round_half_even] is the floor of the value or one more, with the sign. *)
Lemma round_half_even_finite (sgn : bool) (Mg : positive) (Eg exP : Z) :
  exP <= Eg -> exP <= 0 ->
  exists mag,
    round_half_even (S754_finite sgn Mg Eg) = (if sgn then - mag else mag) /\
    Zpos Mg * 2 ^ (Eg - exP) / 2 ^ (- exP) <= mag
    <= Zpos Mg * 2 ^ (Eg - exP) / 2 ^ (- exP) + 1.
Proof.
  intros H1 H2. unfold round_half_even.
  assert (HD : 0 < 2 ^ (- exP)) by (apply Z.pow_pos_nonneg; lia).
  destruct (Z.leb_spec 0 Eg) as [Hpos | Hneg].
  - exists (Zpos Mg * 2 ^ Eg). split; [reflexivity |].
    replace (Eg - exP) with (Eg + - exP) by lia.
    rewrite Z.pow_add_r, Z.mul_assoc, Z.div_mul by lia. lia.
  - assert (Hq : Zpos Mg * 2 ^ (Eg - exP) / 2 ^ (- exP) = Z.shiftr (Zpos Mg) (- Eg)).
    { rewrite Z.shiftr_div_pow2 by lia.
      replace (- exP) with ((Eg - exP) + - Eg) by lia.
      rewrite (Z.pow_add_r 2 (Eg - exP) (- Eg)) by lia.
      rewrite (Z.mul_comm (Zpos Mg)).
      rewrite Z.div_mul_cancel_l; [reflexivity | |];
        apply Z.neq_sym, Z.lt_neq, Z.pow_pos_nonneg; lia. }
    rewrite Hq. set (q := Z.shiftr (Zpos Mg) (- Eg)).
    eexists. split; [reflexivity |].
    destruct (2 * (Zpos Mg mod 2 ^ (- Eg)) ?= 2 ^ (- Eg)); [destruct (Z.even q) | |]; lia.
Qed.

(** The microseconds of a fraction between 0.000002 and 0.99999: at least
    one and less than a million, with the sign of the float. *)
Lemma micros_of_fraction (sgn : bool) (M : positive) (E : Z) :
  -62 <= E < 0 -> 2 ^ 52 <= Zpos M < 2 ^ 53 ->
  2 * 2 ^ (- E) <= 1000000 * (Zpos M mod 2 ^ (- E)) <= 999990 * 2 ^ (- E) ->
  exists mag,
    round_half_even
      (SFmul prec emax (float_frac (S754_finite sgn M E)) (float_lit 1000000 0))
    = (if sgn then - mag else mag) /\
    1 <= mag < 1000000.
Proof.
  intros HE HM HF.
  set (N := 2 ^ (- E)) in *.
  assert (HN : 0 < N) by (subst N; apply Z.pow_pos_nonneg; lia).
  pose proof (Z.mod_pos_bound (Zpos M) N HN) as HFb.
  pose proof (Z.mod_le (Zpos M) N ltac:(lia) HN) as HFM.
  set (F := Zpos M mod N) in *.
  destruct F as [| pF | pF] eqn:EF; try lia.
  assert (Hfrac : float_frac (S754_finite sgn M E) = binary_round prec emax sgn pF E).
  { unfold float_frac. destruct (Z.leb_spec 0 E); [lia |].
    fold N. fold F. rewrite EF. destruct sgn; reflexivity. }
  assert (HdF : Zdigits2 (Zpos pF) <= 53).
  { pose proof (Zdigits2_bounds pF) as Hb.
    destruct (Z.leb_spec (Zdigits2 (Zpos pF)) 53) as [| Hgt]; [assumption |].
    exfalso.
    assert (2 ^ 53 <= 2 ^ (Zdigits2 (Zpos pF) - 1)) by (apply Z.pow_le_mono_r; lia).
    lia. }
  destruct (binary_round_exact sgn pF E HdF ltac:(lia) ltac:(lia))
    as (mz & t & Hround & Ht & Hmz & Hmzb).
  rewrite Hfrac, Hround, million. unfold SFmul. rewrite xorb_false_r.
  set (exP := E - t + -33).
  set (P := Zpos (mz * 8589934592000000)).
  assert (HP : P = Zpos mz * 8589934592000000) by (subst P; rewrite Pos2Z.inj_mul; reflexivity).
  assert (HPb : 2 ^ 104 <= P < 2 ^ 106) by (rewrite HP; nia).
  assert (HdP : Zdigits2 P = 105 \/ Zdigits2 P = 106).
  { subst P. destruct (Z.ltb_spec (Zpos (mz * 8589934592000000)) (2 ^ 105)); [left | right];
      apply Zdigits2_unique; simpl (_ - 1); lia. }
  destruct (binary_round_aux_spec sgn (mz * 8589934592000000) exP loc_Exact)
    as (Mg & Eg & HR & HEg & HMg & HX & _); fold P; [lia | subst exP; lia | subst exP; lia |].
  fold P in HR, HEg, HX. rewrite HR.
  destruct (round_half_even_finite sgn Mg Eg exP ltac:(lia) ltac:(subst exP; lia))
    as (mag & Hmag & Hbounds).
  exists mag. split; [exact Hmag |].
  set (n := Zdigits2 P - 53) in *.
  assert (Hn : 0 <= n) by (subst n; lia).
  set (U := 2 ^ n) in *.
  assert (HU : 0 < U) by (subst U; apply Z.pow_pos_nonneg; lia).
  set (A := Zpos Mg * 2 ^ (Eg - exP)) in *.
  assert (HA : P - U <= A <= P + U).
  { pose proof (Z_div_mod_eq_full P U) as Hdm.
    pose proof (Z.mod_pos_bound P U HU) as Hmod. lia. }
  assert (HUP : U * 2 ^ 52 <= P).
  { pose proof (Zdigits2_bounds (mz * 8589934592000000)) as Hb. fold P in Hb.
    subst U. rewrite <- Z.pow_add_r by lia.
    replace (n + 52) with (Zdigits2 P - 1) by (subst n; lia). apply Hb. }
  set (D := 2 ^ (- exP)) in *.
  assert (HD : D = (2 ^ 33 * 2 ^ t) * N).
  { subst D N exP. rewrite <- !Z.pow_add_r by lia. f_equal. lia. }
  assert (Hc : 0 < 2 ^ 33 * 2 ^ t).
  { assert (0 < 2 ^ t) by (apply Z.pow_pos_nonneg; lia). lia. }
  assert (HPF : P = (2 ^ 33 * 2 ^ t) * (1000000 * Zpos pF)).
  { rewrite HP, Hmz. change 8589934592000000 with (1000000 * 2 ^ 33). ring. }
  assert (HDpos : 0 < D) by (rewrite HD; nia).
  assert (HPD : 2 * D <= P <= 999990 * D).
  { rewrite HD, HPF. set (c := 2 ^ 33 * 2 ^ t) in *. split.
    - replace (2 * (c * N)) with (c * (2 * N)) by ring.
      apply Z.mul_le_mono_nonneg_l; lia.
    - replace (999990 * (c * N)) with (c * (999990 * N)) by ring.
      apply Z.mul_le_mono_nonneg_l; lia. }
  pose proof (rounded_micros A P D U HDpos HPD HUP HA). lia.
Qed.

(** Whole seconds of [a / 1000] as [fromtimestamp] reads them: the floor of
    the quotient, for a time in milliseconds within 8900 years of the epoch. *)
Lemma timeval_of_quotient (a : Z) :
  a <> 0 -> - 2 ^ 48 < a < 2 ^ 48 ->
  exists fa us,
    int_truediv a 1000 = Ok fa /\
    timeval_of_float fa = Ok (a / 1000, us) /\ 0 <= us < 1000000.
Proof.
  intros Ha Hb.
  assert (Hcases : exists (sgn : bool) p, a = (if sgn then Zneg p else Zpos p)).
  { destruct a as [| p | p]; [lia | exists false, p | exists true, p]; reflexivity. }
  destruct Hcases as (sgn & p & Hap).
  assert (Hp : Zpos p < 2 ^ 48) by (destruct sgn; lia).
  destruct (truediv_1000_spec sgn p Hp) as (M & E & Hq & HE & HM & Hnear & Hexact).
  assert (Hdiv : int_truediv a 1000 = Ok (S754_finite sgn M E)).
  { rewrite Hap. unfold int_truediv. change (Z.to_pos 1000) with 1000%positive.
    destruct sgn; rewrite Hq; reflexivity. }
  exists (S754_finite sgn M E).
  set (N := 2 ^ (- E)) in *.
  assert (HN : 2 ^ 13 <= N) by (subst N; apply Z.pow_le_mono_r; lia).
  set (k := Zpos p / 1000). set (j := Zpos p mod 1000).
  assert (Hpkj : Zpos p = 1000 * k + j) by (apply Z_div_mod_eq_full).
  assert (Hj : 0 <= j < 1000) by (apply Z.mod_pos_bound; lia).
  assert (Hk : 0 <= k) by (apply Z.div_pos; lia).
  set (r := Zpos M - k * N).
  assert (Hr : (j = 0 -> r = 0) /\
               (1 <= j -> 2 * N <= 1000000 * r <= 999990 * N /\ 0 < r < N)).
  { split.
    - intro Hj0. specialize (Hexact Hj0). subst r. nia.
    - intro Hj1. subst r.
      assert (N <= j * N <= 999 * N) by nia. nia. }
  assert (HT : Zpos M / N = k /\ Zpos M mod N = r).
  { assert (Hrb : 0 <= r < N).
    { destruct (Z.eq_dec j 0) as [H0 | H1];
        [rewrite (proj1 Hr H0) | pose proof (proj2 Hr ltac:(lia))]; lia. }
    split; [symmetry; apply Z.div_unique with (r := r) |
            symmetry; apply Z.mod_unique with (q := k)]; subst r; lia. }
  destruct HT as [HT HF].
  assert (Htrunc : float_trunc (S754_finite sgn M E) = Some (if sgn then - k else k)).
  { unfold float_trunc. destruct (Z.leb_spec 0 E); [lia |].
    rewrite Z.shiftr_div_pow2 by lia. fold N. rewrite HT. reflexivity. }
  unfold timeval_of_float. rewrite Htrunc.
  destruct (Z.eq_dec j 0) as [Hj0 | Hj1].
  - (* a multiple of 1000: the quotient is exact *)
    assert (Hr0 : r = 0) by (apply Hr; exact Hj0).
    assert (Hfrac : float_frac (S754_finite sgn M E) = S754_zero sgn).
    { unfold float_frac. destruct (Z.leb_spec 0 E); [lia |].
      fold N. rewrite HF, Hr0. rewrite Z.mul_0_r. reflexivity. }
    rewrite Hfrac, million. cbn [SFmul round_half_even].
    exists 0. split; [exact Hdiv |]. split; [| lia].
    cbn [Z.leb Z.ltb Z.compare].
    assert (Hak : a / 1000 = (if sgn then - k else k)).
    { rewrite Hap. destruct sgn.
      - change (Z.neg p) with (- Z.pos p). rewrite Hpkj, Hj0.
        replace (- (1000 * k + 0)) with (- k * 1000) by ring.
        rewrite Z.div_mul by lia. reflexivity.
      - rewrite Hpkj, Hj0. replace (1000 * k + 0) with (k * 1000) by ring.
        rewrite Z.div_mul by lia. reflexivity. }
    rewrite Hak.
    assert (Hrange : (- 2 ^ 63 <=? (if sgn then - k else k))
                     && ((if sgn then - k else k) <? 2 ^ 63) = true).
    { apply andb_true_iff. rewrite Z.leb_le, Z.ltb_lt. destruct sgn; lia. }
    rewrite Hrange. reflexivity.
  - destruct (proj2 Hr ltac:(lia)) as [Hmicro Hrb].
    destruct (micros_of_fraction sgn M E ltac:(lia) HM) as (mag & Hmag & Hmagb).
    { fold N. rewrite HF. exact Hmicro. }
    rewrite Hmag.
    assert (Hak : a / 1000 = (if sgn then - k - 1 else k)).
    { rewrite Hap. destruct sgn.
      - change (Z.neg p) with (- Z.pos p).
        symmetry. apply Z.div_unique with (r := 1000 - j); lia.
      - symmetry. apply Z.div_unique with (r := j); lia. }
    rewrite Hak. destruct sgn.
    + exists (- mag + 1000000). split; [exact Hdiv |]. split; [| lia].
      destruct (Z.leb_spec 1000000 (- mag)); [lia |].
      destruct (Z.ltb_spec (- mag) 0); [| lia].
      assert (Hrange : (- 2 ^ 63 <=? - k - 1) && (- k - 1 <? 2 ^ 63) = true).
      { apply andb_true_iff. rewrite Z.leb_le, Z.ltb_lt. lia. }
      rewrite Hrange. reflexivity.
    + exists mag. split; [exact Hdiv |]. split; [| lia].
      destruct (Z.leb_spec 1000000 mag); [lia |].
      destruct (Z.ltb_spec mag 0); [lia |].
      assert (Hrange : (- 2 ^ 63 <=? k) && (k <? 2 ^ 63) = true).
      { apply andb_true_iff. rewrite Z.leb_le, Z.ltb_lt. lia. }
      rewrite Hrange. reflexivity.
Qed.

(** ** The date range *)

Ltac step_raise H :=
  apply bind_raise in H;
  let x := fresh "x" in
  let Hx := fresh "Hx" in
  destruct H as [H | (x & Hx & H)].

Lemma local_raises (w : World) (t : Z) (e : exn) :
  local w t = Raise e -> exists f, e = Error f.
Proof.
  unfold local. destruct (_ && _); intro H; [discriminate H |].
  injection H as <-. eauto.
Qed.

Lemma datetime_from_timet_and_us_raises (w : World) (t us : Z) (e : exn) :
  datetime_from_timet_and_us w t us = Raise e -> exists f, e = Error f.
Proof.
  unfold datetime_from_timet_and_us. intro H.
  step_raise H; [exact (local_raises _ _ _ H) |]. destruct x as [ord sec].
  step_raise H; [exact (local_raises _ _ _ H) |]. destruct x as [pord psec].
  destruct (_ <? 0); [| discriminate H].
  step_raise H; [exact (local_raises _ _ _ H) | discriminate H].
Qed.

Lemma int_truediv_raises (a b : Z) (e : exn) :
  int_truediv a b = Raise e -> exists f, e = Error f.
Proof.
  unfold int_truediv.
  match goal with |- match ?q with _ => _ end = _ -> _ => destruct q end;
    intro H; try discriminate H.
  injection H as <-. eauto.
Qed.

Lemma timeval_of_float_raises (f : float) (e : exn) :
  timeval_of_float f = Raise e -> exists f', e = Error f'.
Proof.
  unfold timeval_of_float. intro H.
  destruct f as [s | s | | s m ex];
    try (injection H as <-; eauto; fail);
    match type of H with (let '(_, _) := ?p in _) = _ => destruct p end;
    destruct (_ && _); try discriminate H; injection H as <-; eauto.
Qed.

Lemma fromtimestamp_raises (w : World) (f : float) (e : exn) :
  fromtimestamp w f = Raise e -> exists f', e = Error f'.
Proof.
  unfold fromtimestamp. intro H.
  step_raise H; [exact (timeval_of_float_raises _ _ H) |]. destruct x as [t us].
  exact (datetime_from_timet_and_us_raises _ _ _ _ H).
Qed.

Lemma minus_days_raises (d : datetime) (n : Z) (e : exn) :
  minus_days d n = Raise e -> exists f, e = Error f.
Proof.
  unfold minus_days. destruct (_ && _); intro H; [discriminate H |].
  injection H as <-. eauto.
Qed.

(** No step of the date range raises an [HTTPException]: whatever goes wrong
    there leaves the endpoint as it is. *)
Lemma date_range_raises (w : World) (st et : option Z) (e : exn) :
  date_range w st et = Raise e -> exists f, e = Error f.
Proof.
  unfold date_range. intro H.
  step_raise H.
  - unfold date_window in H. destruct (truthy st && truthy et).
    + step_raise H; [exact (int_truediv_raises _ _ _ H) |].
      step_raise H; [exact (fromtimestamp_raises _ _ _ H) |].
      step_raise H; [exact (int_truediv_raises _ _ _ H) |].
      step_raise H; [exact (fromtimestamp_raises _ _ _ H) | discriminate H].
    + step_raise H; [exact (datetime_from_timet_and_us_raises _ _ _ _ H) |].
      step_raise H; [exact (minus_days_raises _ _ _ H) | discriminate H].
  - destruct x. discriminate H.
Qed.

Lemma ord2ymd_year (ord : Z) :
  1 <= ord <= max_ordinal ->
  let '(year, month, day) := ord2ymd ord in
  1 <= year <= 9999 /\ (year_1000 <= ord -> 1000 <= year).
Proof.
  unfold max_ordinal, year_1000, ord2ymd. intro H.
  set (n := ord - 1).
  set (n400 := n / 146097). set (r1 := n mod 146097).
  set (n100 := r1 / 36524). set (r2 := r1 mod 36524).
  set (n4 := r2 / 1461). set (r3 := r2 mod 1461).
  set (n1 := r3 / 365). set (r4 := r3 mod 365).
  assert (E : n = 146097 * n400 + r1 /\ 0 <= r1 < 146097 /\
              r1 = 36524 * n100 + r2 /\ 0 <= r2 < 36524 /\
              r2 = 1461 * n4 + r3 /\ 0 <= r3 < 1461 /\
              r3 = 365 * n1 + r4 /\ 0 <= r4 < 365).
  { subst n400 r1 n100 r2 n4 r3 n1 r4.
    repeat split; try apply Z.div_mod; try apply Z.mod_pos_bound; lia. }
  assert (Hn : 0 <= n <= 3652058 /\ ord = n + 1) by (subst n; lia).
  clearbody n400 r1 n100 r2 n4 r3 n1 r4 n.
  destruct ((n1 =? 4) || (n100 =? 4)) eqn:S.
  - apply orb_true_iff in S. rewrite !Z.eqb_eq in S. lia.
  - apply orb_false_iff in S. rewrite !Z.eqb_neq in S.
    destruct (month_and_day r4 _). lia.
Qed.

Lemma forall_below (P : Z -> bool) (N : Z) :
  forallb (fun k => P (Z.of_nat k)) (seq 0 (Z.to_nat N)) = true ->
  forall n, 0 <= n < N -> P n = true.
Proof.
  intros H n Hn. rewrite forallb_forall in H.
  specialize (H (Z.to_nat n)). rewrite Z2Nat.id in H by lia.
  apply H. apply in_seq. lia.
Qed.

Lemma month_and_day_bounds (n : Z) (leapyear : bool) :
  0 <= n < 365 ->
  let '(month, day) := month_and_day n leapyear in
  1 <= month <= 12 /\ 1 <= day <= 31.
Proof.
  intro Hn.
  pose (ok := fun n => forallb (fun leap =>
                let '(month, day) := month_and_day n leap in
                (1 <=? month) && (month <=? 12) && (1 <=? day) && (day <=? 31))
                [true; false]).
  assert (H : ok n = true).
  { apply (forall_below ok 365); [vm_compute; reflexivity | exact Hn]. }
  unfold ok in H. rewrite forallb_forall in H.
  specialize (H leapyear). destruct (month_and_day n leapyear) as [month day].
  assert (Hin : In leapyear [true; false]) by (destruct leapyear; simpl; tauto).
  apply H in Hin. rewrite !andb_true_iff, !Z.leb_le in Hin. lia.
Qed.

Lemma pad2_digits (n : Z) : 0 <= n < 100 -> two_digits (pad 2 n) = true.
Proof.
  apply (forall_below (fun n => two_digits (pad 2 n)) 100).
  vm_compute. reflexivity.
Qed.

Lemma pad4_digits (n : Z) : 0 <= n < 10000 -> four_digits (pad 4 n) = true.
Proof.
  apply (forall_below (fun n => four_digits (pad 4 n)) 10000).
  vm_compute. reflexivity.
Qed.

Lemma int_str_four_digits (n : Z) :
  1000 <= n < 10000 -> four_digits (int_str n) = true.
Proof.
  intro Hn.
  assert (H : (n <? 1000) || four_digits (int_str n) = true).
  { apply (forall_below (fun n => (n <? 1000) || four_digits (int_str n)) 10000);
      [vm_compute; reflexivity | lia]. }
  destruct (Z.ltb_spec n 1000); [lia | exact H].
Qed.

Lemma two_digits_inv (s : pystr) :
  two_digits s = true ->
  exists a b, s = [a; b] /\ is_ascii_digit a = true /\ is_ascii_digit b = true.
Proof.
  destruct s as [| a [| b [| c s]]]; try discriminate. simpl.
  intro H. apply andb_true_iff in H. exists a, b. tauto.
Qed.

Lemma four_digits_inv (s : pystr) :
  four_digits s = true ->
  exists a b c d, s = [a; b; c; d] /\
    is_ascii_digit a = true /\ is_ascii_digit b = true /\
    is_ascii_digit c = true /\ is_ascii_digit d = true.
Proof.
  destruct s as [| a [| b [| c [| d [| e s]]]]]; try discriminate. simpl.
  intro H. rewrite !andb_true_iff in H. exists a, b, c, d. tauto.
Qed.

(** A datetime of four-digit year prints in the shape YYYY-MM-DD HH:MM:SS;
    so does any datetime where the C library pads the year. *)
Lemma strftime_shape (w : World) (d : datetime) :
  valid_datetime d ->
  pads_year w = true \/ year_1000 <= ordinal d ->
  timestamp_shape (strftime w d) = true.
Proof.
  intros [Hord Hsec] Hyear. unfold strftime.
  pose proof (ord2ymd_year (ordinal d) Hord) as Hy.
  assert (Hmd : let '(_, month, day) := ord2ymd (ordinal d) in
                1 <= month <= 12 /\ 1 <= day <= 31).
  { unfold ord2ymd.
    destruct (_ || _); [lia |].
    match goal with |- context [month_and_day ?n ?l] =>
      pose proof (month_and_day_bounds n l) as Hb;
      destruct (month_and_day n l) as [month day] end.
    apply Hb. apply Z.mod_pos_bound. lia. }
  destruct (ord2ymd (ordinal d)) as [[year month] day].
  destruct Hy as [Hy Hy1000], Hmd as [Hm Hd]. cbv beta iota zeta.
  match goal with |- context [?t ++ [45] ++ pad 2 month ++ _] =>
    set (Y := t); assert (HY : four_digits Y = true) end.
  { subst Y. destruct (pads_year w).
    - apply pad4_digits. lia.
    - apply int_str_four_digits. destruct Hyear as [Hp | Ho]; [discriminate Hp | lia]. }
  set (s := second_of_day d) in *.
  assert (Hh : 0 <= s / 3600 < 100) by (Z.to_euclidean_division_equations; lia).
  assert (Hmi : 0 <= s / 60 mod 60 < 100) by (Z.to_euclidean_division_equations; lia).
  assert (Hs : 0 <= s mod 60 < 100) by (Z.to_euclidean_division_equations; lia).
  destruct (four_digits_inv _ HY) as (y1 & y2 & y3 & y4 & EY & ? & ? & ? & ?).
  destruct (two_digits_inv _ (pad2_digits month ltac:(lia))) as (m1 & m2 & EM & ? & ?).
  destruct (two_digits_inv _ (pad2_digits day ltac:(lia))) as (d1 & d2 & ED & ? & ?).
  destruct (two_digits_inv _ (pad2_digits _ Hh)) as (h1 & h2 & EH & ? & ?).
  destruct (two_digits_inv _ (pad2_digits _ Hmi)) as (i1 & i2 & EI & ? & ?).
  destruct (two_digits_inv _ (pad2_digits _ Hs)) as (s1 & s2 & ES & ? & ?).
  rewrite EY, EM, ED, EH, EI, ES.
  cbv beta iota delta [Datatypes.app timestamp_shape forallb].
  repeat match goal with H : is_ascii_digit _ = true |- _ => rewrite H; clear H end.
  reflexivity.
Qed.

Lemma local_ok (w : World) (t ord sec : Z) :
  local w t = Ok (ord, sec) ->
  1 <= ord <= max_ordinal /\ 0 <= sec < 86400 /\
  ord = (t + utcoffset w t) / 86400 + epoch_ordinal /\
  sec = (t + utcoffset w t) mod 86400.
Proof.
  unfold local.
  destruct ((1 <=? _) && (_ <=? max_ordinal)) eqn:E; [| discriminate].
  intro H. injection H as <- <-.
  apply andb_true_iff in E. rewrite !Z.leb_le in E.
  repeat split; try tauto; apply Z.mod_pos_bound; lia.
Qed.

Lemma datetime_from_timet_and_us_ok (w : World) (t us : Z) (d : datetime) :
  datetime_from_timet_and_us w t us = Ok d ->
  wall_clock w t d /\ microsecond d = us /\ valid_datetime d.
Proof.
  unfold datetime_from_timet_and_us. intro H.
  apply bind_ok in H. destruct H as ([ord sec] & Hlocal & H).
  apply bind_ok in H. destruct H as ([pord psec] & _ & H).
  apply local_ok in Hlocal.
  assert (Hd : d = {| ordinal := ord; second_of_day := sec; microsecond := us |}).
  { destruct (_ <? 0) in H.
    - apply bind_ok in H. destruct H as (? & _ & H). congruence.
    - congruence. }
  subst d. unfold wall_clock, valid_datetime. simpl. tauto.
Qed.

Lemma minus_days_ok (d d' : datetime) (n : Z) :
  minus_days d n = Ok d' ->
  ordinal d' = ordinal d - n /\ second_of_day d' = second_of_day d /\
  microsecond d' = microsecond d /\ 1 <= ordinal d' <= max_ordinal.
Proof.
  unfold minus_days.
  destruct ((1 <=? _) && (_ <=? max_ordinal)) eqn:E; [| discriminate].
  intro H. injection H as <-. simpl.
  apply andb_true_iff in E. rewrite !Z.leb_le in E. tauto.
Qed.

Lemma fromtimestamp_ok (w : World) (f : float) (d : datetime) :
  fromtimestamp w f = Ok d ->
  exists t us, timeval_of_float f = Ok (t, us) /\
               wall_clock w t d /\ microsecond d = us /\ valid_datetime d.
Proof.
  unfold fromtimestamp. intro H.
  apply bind_ok in H. destruct H as ([t us] & Htv & H).
  exists t, us. split; [exact Htv |].
  exact (datetime_from_timet_and_us_ok w t us d H).
Qed.

Lemma truthy_both (st et : option Z) :
  truthy st && truthy et = true <->
  exists a b, st = Some a /\ et = Some b /\ a <> 0 /\ b <> 0.
Proof.
  split.
  - intro H. apply andb_true_iff in H. destruct H as [Ha Hb].
    destruct st as [a |], et as [b |]; try discriminate.
    simpl in Ha, Hb. apply negb_true_iff in Ha, Hb. rewrite Z.eqb_neq in Ha, Hb.
    exists a, b. tauto.
  - intros (a & b & -> & -> & Ha & Hb). simpl.
    apply Z.eqb_neq in Ha, Hb. rewrite Ha, Hb. reflexivity.
Qed.

Lemma truthy_not_both (st et : option Z) :
  truthy st && truthy et = false <-> not_both st et.
Proof.
  unfold not_both. split.
  - intro H. apply andb_false_iff in H.
    destruct st as [a |], et as [b |]; simpl in H; try tauto;
      rewrite !negb_false_iff, !Z.eqb_eq in H;
      destruct H as [-> | H]; try tauto; try discriminate H;
      subst; tauto.
  - intros [-> | [-> | [-> | ->]]]; simpl; try reflexivity;
      try (destruct (truthy st); reflexivity).
Qed.

(** The window when not both bounds are given: the clock's local time and
    the same time of day thirty days before. *)
Lemma default_window (w : World) (st et : option Z) :
  not_both st et ->
  date_window w st et
  = (to_date <- now w ;; from_date <- minus_days to_date 30 ;;
     Ok (from_date, to_date)).
Proof.
  intro H. apply truthy_not_both in H. unfold date_window. rewrite H. reflexivity.
Qed.

Lemma supplied_window (w : World) (a b : Z) :
  a <> 0 -> b <> 0 ->
  date_window w (Some a) (Some b)
  = (fa <- int_truediv a 1000 ;; from_date <- fromtimestamp w fa ;;
     fb <- int_truediv b 1000 ;; to_date <- fromtimestamp w fb ;;
     Ok (from_date, to_date)).
Proof.
  intros Ha Hb. unfold date_window.
  assert (H : truthy (Some a) && truthy (Some b) = true).
  { apply truthy_both. exists a, b. tauto. }
  rewrite H. reflexivity.
Qed.

Lemma date_window_valid (w : World) (st et : option Z) (from_date to_date : datetime) :
  date_window w st et = Ok (from_date, to_date) ->
  valid_datetime from_date /\ valid_datetime to_date.
Proof.
  unfold date_window. destruct (truthy st && truthy et); intro H.
  - apply bind_ok in H. destruct H as (fa & _ & H).
    apply bind_ok in H. destruct H as (d1 & H1 & H).
    apply bind_ok in H. destruct H as (fb & _ & H).
    apply bind_ok in H. destruct H as (d2 & H2 & H).
    injection H as <- <-.
    apply fromtimestamp_ok in H1, H2.
    destruct H1 as (? & ? & _ & _ & _ & H1), H2 as (? & ? & _ & _ & _ & H2). tauto.
  - apply bind_ok in H. destruct H as (d2 & H2 & H).
    apply bind_ok in H. destruct H as (d1 & H1 & H).
    injection H as <- <-.
    apply datetime_from_timet_and_us_ok in H2. destruct H2 as (_ & _ & Hv).
    apply minus_days_ok in H1. destruct H1 as (_ & Hs & _ & Ho).
    split; [| exact Hv]. unfold valid_datetime in *. rewrite Hs. tauto.
Qed.

Lemma local_total (w : World) (t : Z) :
  (forall t, - 86400 < utcoffset w t < 86400) ->
  -62135000000 <= t <= 253402000000 ->
  exists ord sec, local w t = Ok (ord, sec).
Proof.
  intros Hoff Ht. unfold local, max_ordinal, epoch_ordinal.
  specialize (Hoff t).
  destruct ((1 <=? _) && (_ <=? 3652059)) eqn:E; [eauto |].
  apply andb_false_iff in E. rewrite !Z.leb_gt in E.
  exfalso. Z.to_euclidean_division_equations. lia.
Qed.

(** An instant between 1970 and the year 9892 has a local time, in a time
    zone less than a day off UTC. *)
Lemma datetime_from_timet_and_us_total (w : World) (t us : Z) :
  (forall t, - 86400 < utcoffset w t < 86400) ->
  0 <= t <= 250000000000 ->
  exists d, datetime_from_timet_and_us w t us = Ok d /\ 719162 <= ordinal d.
Proof.
  intros Hoff Ht. unfold datetime_from_timet_and_us.
  destruct (local_total w t Hoff ltac:(lia)) as (ord & sec & H1).
  destruct (local_total w (t - 86400) Hoff ltac:(lia)) as (pord & psec & H2).
  rewrite H1. cbn [bind]. rewrite H2. cbn [bind].
  pose proof (local_ok w _ _ _ H1) as (Ho & Hs & Eo & Es).
  pose proof (local_ok w _ _ _ H2) as (Hpo & Hps & Epo & Eps).
  pose proof (Hoff t) as Ot. pose proof (Hoff (t - 86400)) as Opt.
  set (tr := ord * 86400 + sec - (pord * 86400 + psec) - 86400).
  assert (Htr : - 172800 < tr < 172800).
  { subst tr. unfold epoch_ordinal in *.
    Z.to_euclidean_division_equations. lia. }
  assert (Hord : 719162 <= ord).
  { unfold epoch_ordinal in *. Z.to_euclidean_division_equations. lia. }
  destruct (tr <? 0).
  - destruct (local_total w (t + tr) Hoff ltac:(lia)) as (? & ? & H3).
    rewrite H3. cbn [bind]. eauto.
  - eauto.
Qed.

(** With a clock between 1970 and the year 9892 and a time zone less than a
    day off UTC, the default window is there. *)
Lemma default_window_returns (w : World) :
  (forall t, - 86400 < utcoffset w t < 86400) ->
  0 <= fst (clock w) <= 250000000000 ->
  exists from_date to_date, date_window w None None = Ok (from_date, to_date).
Proof.
  intros Hoff Hclock. unfold date_window. cbn [truthy andb]. unfold now.
  destruct (datetime_from_timet_and_us_total w (fst (clock w)) (snd (clock w))
              Hoff Hclock) as (d & Hd & Hord).
  rewrite Hd. cbn [bind]. unfold minus_days.
  pose proof (datetime_from_timet_and_us_ok w _ _ _ Hd) as (_ & _ & [Hv _]).
  assert (Hin : (1 <=? ordinal d - 30) && (ordinal d - 30 <=? max_ordinal) = true).
  { apply andb_true_iff. rewrite !Z.leb_le. unfold max_ordinal in *. lia. }
  rewrite Hin. cbn [bind]. eauto.
Qed.

(** So are the caller's bounds, when both lie between 1970 and 9892. *)
Lemma supplied_window_returns (w : World) (a b : Z) :
  (forall t, - 86400 < utcoffset w t < 86400) ->
  0 < a <= 250000000000000 -> 0 < b <= 250000000000000 ->
  exists from_date to_date,
    date_window w (Some a) (Some b) = Ok (from_date, to_date).
Proof.
  intros Hoff Ha Hb. rewrite supplied_window by lia.
  destruct (timeval_of_quotient a) as (fa & usa & Hfa & Hta & _); [lia | lia |].
  destruct (timeval_of_quotient b) as (fb & usb & Hfb & Htb & _); [lia | lia |].
  rewrite Hfa. cbn [bind]. unfold fromtimestamp. rewrite Hta. cbn [bind].
  destruct (datetime_from_timet_and_us_total w (a / 1000) usa Hoff) as (d1 & Hd1 & _).
  { split; [apply Z.div_pos; lia | apply Z.div_le_upper_bound; lia]. }
  rewrite Hd1. cbn [bind]. rewrite Hfb. cbn [bind]. rewrite Htb. cbn [bind].
  destruct (datetime_from_timet_and_us_total w (b / 1000) usb Hoff) as (d2 & Hd2 & _).
  { split; [apply Z.div_pos; lia | apply Z.div_le_upper_bound; lia]. }
  rewrite Hd2. cbn [bind]. eauto.
Qed.

(** The local time [fromtimestamp] makes of [a / 1000] is that of the second
    the millisecond [a] falls in. *)
Lemma fromtimestamp_millis (w : World) (a : Z) (fa : float) (d : datetime) :
  a <> 0 -> - 2 ^ 48 < a < 2 ^ 48 ->
  int_truediv a 1000 = Ok fa -> fromtimestamp w fa = Ok d ->
  wall_clock w (a / 1000) d.
Proof.
  intros Ha Hb Hfa Hd.
  destruct (timeval_of_quotient a Ha Hb) as (fa' & us & Hfa' & Htv & _).
  assert (fa' = fa) by congruence. subst fa'.
  apply fromtimestamp_ok in Hd. destruct Hd as (t & us' & Htv' & Hwall & _).
  assert (t = a / 1000) by congruence. subst t. exact Hwall.
Qed.

(** C4, amended. The caller's bounds are used exactly when both are given
    and neither is zero: each is then divided by 1000 and turned into the local
    wall-clock time of that instant, which for a bound within 8900 years of
    1970 is the local time of the second the millisecond falls in. In every
    other case, one bound alone or a bound of zero included, the bounds are
    ignored: [to] is the local wall-clock time of the clock and [from] the
    same time of day thirty days earlier. With times between 1970 and 9892
    and a time zone less than a day off UTC either window is there. Both
    ends are sent as [%Y-%m-%d %H:%M:%S] text, of the shape
    YYYY-MM-DD HH:MM:SS whenever the year has four digits or the C library
    pads it. *)
Theorem date_range_window (w : World) (startTime endTime : option Z) :
  ((exists a b, startTime = Some a /\ endTime = Some b /\ a <> 0 /\ b <> 0) \/
   not_both startTime endTime) /\
  (forall a b,
     startTime = Some a -> endTime = Some b -> a <> 0 -> b <> 0 ->
     date_window w startTime endTime
     = (fa <- int_truediv a 1000 ;; from_date <- fromtimestamp w fa ;;
        fb <- int_truediv b 1000 ;; to_date <- fromtimestamp w fb ;;
        Ok (from_date, to_date)) /\
     forall from_date to_date,
       date_window w startTime endTime = Ok (from_date, to_date) ->
       exists fa ta usa fb tb usb,
         int_truediv a 1000 = Ok fa /\ timeval_of_float fa = Ok (ta, usa) /\
         wall_clock w ta from_date /\
         int_truediv b 1000 = Ok fb /\ timeval_of_float fb = Ok (tb, usb) /\
         wall_clock w tb to_date /\
         (- 2 ^ 48 < a < 2 ^ 48 -> ta = a / 1000) /\
         (- 2 ^ 48 < b < 2 ^ 48 -> tb = b / 1000)) /\
  (forall a b,
     startTime = Some a -> endTime = Some b ->
     (forall t, - 86400 < utcoffset w t < 86400) ->
     0 < a <= 250000000000000 -> 0 < b <= 250000000000000 ->
     exists from_date to_date,
       date_window w startTime endTime = Ok (from_date, to_date) /\
       wall_clock w (a / 1000) from_date /\ wall_clock w (b / 1000) to_date) /\
  (not_both startTime endTime ->
     date_window w startTime endTime = date_window w None None /\
     (forall from_date to_date,
        date_window w startTime endTime = Ok (from_date, to_date) ->
        wall_clock w (fst (clock w)) to_date /\
        ordinal from_date = ordinal to_date - 30 /\
        second_of_day from_date = second_of_day to_date) /\
     ((forall t, - 86400 < utcoffset w t < 86400) ->
      0 <= fst (clock w) <= 250000000000 ->
      exists from_date to_date,
        date_window w startTime endTime = Ok (from_date, to_date))) /\
  (forall from_str to_str,
     date_range w startTime endTime = Ok (from_str, to_str) ->
     exists from_date to_date,
       date_window w startTime endTime = Ok (from_date, to_date) /\
       from_str = strftime w from_date /\ to_str = strftime w to_date /\
       (pads_year w = true \/ year_1000 <= ordinal from_date ->
        timestamp_shape from_str = true) /\
       (pads_year w = true \/ year_1000 <= ordinal to_date ->
        timestamp_shape to_str = true)).
Proof.
  split; [| split; [| split; [| split]]].
  - destruct (truthy startTime && truthy endTime) eqn:E.
    + left. apply truthy_both. exact E.
    + right. apply truthy_not_both. exact E.
  - intros a b -> -> Ha Hb. split; [apply supplied_window; assumption |].
    intros from_date to_date H. rewrite supplied_window in H by assumption.
    apply bind_ok in H. destruct H as (fa & Hfa & H).
    apply bind_ok in H. destruct H as (d1 & H1 & H).
    apply bind_ok in H. destruct H as (fb & Hfb & H).
    apply bind_ok in H. destruct H as (d2 & H2 & H).
    injection H as <- <-.
    apply fromtimestamp_ok in H1, H2.
    destruct H1 as (ta & usa & Hta & Hwa & _), H2 as (tb & usb & Htb & Hwb & _).
    exists fa, ta, usa, fb, tb, usb.
    repeat (split; [assumption |]). split.
    + intro Hrange.
      destruct (timeval_of_quotient a Ha Hrange) as (fa' & us & Hfa' & Htv & _).
      congruence.
    + intro Hrange.
      destruct (timeval_of_quotient b Hb Hrange) as (fb' & us & Hfb' & Htv & _).
      congruence.
  - intros a b -> -> Hoff Ha Hb.
    destruct (supplied_window_returns w a b Hoff Ha Hb) as (d1 & d2 & H).
    exists d1, d2. split; [exact H |].
    rewrite supplied_window in H by lia.
    apply bind_ok in H. destruct H as (fa & Hfa & H).
    apply bind_ok in H. destruct H as (d1' & H1 & H).
    apply bind_ok in H. destruct H as (fb & Hfb & H).
    apply bind_ok in H. destruct H as (d2' & H2 & H).
    injection H as <- <-.
    split; [apply (fromtimestamp_millis w a fa) | apply (fromtimestamp_millis w b fb)];
      try assumption; lia.
  - intro Hnot. rewrite (default_window w _ _ Hnot).
    assert (Hnone : not_both None None) by (left; reflexivity).
    rewrite (default_window w _ _ Hnone).
    split; [reflexivity |]. split.
    + intros from_date to_date H.
      apply bind_ok in H. destruct H as (d2 & H2 & H).
      apply bind_ok in H. destruct H as (d1 & H1 & H).
      injection H as <- <-.
      apply datetime_from_timet_and_us_ok in H2. apply minus_days_ok in H1. tauto.
    + intros Hoff Hclock.
      destruct (default_window_returns w Hoff Hclock) as (d1 & d2 & H).
      rewrite (default_window w _ _ Hnone) in H. eauto.
  - intros from_str to_str H. unfold date_range in H.
    apply bind_ok in H. destruct H as ([from_date to_date] & Hw & H).
    injection H as <- <-. exists from_date, to_date.
    destruct (date_window_valid w _ _ _ _ Hw) as [Hv1 Hv2].
    split; [exact Hw |]. split; [reflexivity |]. split; [reflexivity |].
    split; apply strftime_shape; assumption.
Qed.

(** [date_range_window] at the sample clock, with one bound alone and with
    the two bounds of the spec. *)
Lemma date_range_window_witness :
  not_both (Some 1700000000000) None /\
  date_window (sample_world only_tcs_nse) (Some 1700000000000) None
  = date_window (sample_world only_tcs_nse) None None /\
  date_range (sample_world only_tcs_nse) (Some 1700000000000) None
  = Ok (lit "2023-10-15 22:13:20", lit "2023-11-14 22:13:20") /\
  timestamp_shape (lit "2023-10-15 22:13:20") = true /\
  (forall t, - 86400 < utcoffset (sample_world only_tcs_nse) t < 86400) /\
  exists from_date to_date,
    date_window (sample_world only_tcs_nse) (Some 1700000000000) (Some 1700086400000)
    = Ok (from_date, to_date) /\
    wall_clock (sample_world only_tcs_nse) 1700000000 from_date /\
    wall_clock (sample_world only_tcs_nse) 1700086400 to_date.
Proof.
  assert (Hnot : not_both (Some 1700000000000) None) by (right; right; left; reflexivity).
  assert (Hrange : date_range (sample_world only_tcs_nse) (Some 1700000000000) None
                   = Ok (lit "2023-10-15 22:13:20", lit "2023-11-14 22:13:20"))
    by (vm_compute; reflexivity).
  assert (Hoff : forall t, - 86400 < utcoffset (sample_world only_tcs_nse) t < 86400)
    by (intro t; simpl; lia).
  pose proof (date_range_window (sample_world only_tcs_nse) (Some 1700000000000) None)
    as (_ & _ & _ & Hdefault & Htext).
  pose proof (date_range_window (sample_world only_tcs_nse) (Some 1700000000000)
                (Some 1700086400000)) as (_ & _ & Hsupplied & _).
  split; [exact Hnot |].
  split; [exact (proj1 (Hdefault Hnot)) |].
  split; [exact Hrange |].
  split.
  - destruct (Htext _ _ Hrange) as (from_date & to_date & _ & _ & _ & Hshape & _).
    exact (Hshape (or_introl eq_refl)).
  - split; [exact Hoff |].
    exact (Hsupplied 1700000000000 1700086400000 eq_refl eq_refl Hoff
             ltac:(lia) ltac:(lia)).
Defined.

(** C4 as stated fails on the shape of the texts: where the C library does
    not pad the year, bounds in the years 1 and 999 are written with fewer
    than four digits of year. *)
Lemma date_range_window_counterexample :
  date_range unpadded_world (Some (-62135510400000)) (Some (-30610224001000))
  = Ok (lit "1-01-02 00:00:00", lit "999-12-31 23:59:59") /\
  timestamp_shape (lit "1-01-02 00:00:00") = false /\
  timestamp_shape (lit "999-12-31 23:59:59") = false.
Proof. repeat split; vm_compute; reflexivity. Qed.

(** The example of the spec: the two bounds are a day apart, and so are the
    two texts; with one bound alone, or a bound of zero, the window is the
    default one. *)
Example date_ranges_of_the_spec :
  date_range (sample_world only_tcs_nse) (Some 1700000000000) (Some 1700086400000)
  = Ok (lit "2023-11-14 22:13:20", lit "2023-11-15 22:13:20") /\
  date_range (sample_world only_tcs_nse) (Some 1700000000999) (Some 1700086400001)
  = Ok (lit "2023-11-14 22:13:20", lit "2023-11-15 22:13:20") /\
  date_range (sample_world only_tcs_nse) None None
  = Ok (lit "2023-10-15 22:13:20", lit "2023-11-14 22:13:20") /\
  date_range (sample_world only_tcs_nse) None (Some 1700086400000)
  = Ok (lit "2023-10-15 22:13:20", lit "2023-11-14 22:13:20") /\
  date_range (sample_world only_tcs_nse) (Some 0) (Some 1700086400000)
  = Ok (lit "2023-10-15 22:13:20", lit "2023-11-14 22:13:20").
Proof. repeat split; vm_compute; reflexivity. Qed.

(** ** The endpoint *)

(** Every way the endpoint can fail. *)
Lemma get_klines_raises (w : World) symbol interval st et (e : exn) :
  get_klines w symbol interval st et = Raise e ->
  (e = not_found symbol /\
   Forall (fun row => tradingSymbol row <> compared w symbol) (script_df w)) \/
  (exists row,
     In row (script_df w) /\ tradingSymbol row = compared w symbol /\
     ((e = invalid_interval interval /\
       filter (isdigit (unicode w)) interval = []) \/
      (exists detail, e = HTTPException 500 detail) \/
      (exists f, e = Error f))).
Proof.
  unfold get_klines. intro H.
  destruct (find_instrument_inv w symbol) as [(row & Hrow & Hin & Hsym) | [Hrow Hnone]].
  - right. exists row. split; [exact Hin |]. split; [exact Hsym |].
    rewrite Hrow in H. cbn [bind] in H.
    step_raise H.
    { right. right. exact (date_range_raises _ _ _ _ H). }
    destruct x as [from_str to_str].
    step_raise H.
    { left. exact (parse_interval_raises _ _ _ H). }
    step_raise H.
    { right. left. destruct (post_raises _ _ _ H) as (f & _ & ->). eauto. }
    step_raise H.
    { right. right. rewrite (decode_body_raises _ _ H). eauto. }
    destruct (transform_raises _ _ _ H) as [(f & _ & ->) | (f & _ & ->)].
    + right. left. eauto.
    + right. right. eauto.
  - left. rewrite Hrow in H. cbn [bind] in H. injection H as <-.
    split; [reflexivity | exact Hnone].
Qed.

(** C9, amended. The instrument is looked up before the interval is
    examined, the symbol being compared as pandas compares it (where the
    comparison goes through NumPy, without the NUL characters at its end; a
    symbol that does not end in NUL as it is). A request for a symbol that no
    row carries in this sense is answered with status 404 whatever its
    interval, one without a digit included, and a request answered with
    status 400 is one whose symbol a row carries in this sense (and whose
    interval has no digit). *)
Theorem lookup_precedes_interval (w : World) (symbol interval : pystr)
    (st et : option Z) :
  (Forall (fun row => tradingSymbol row <> compared w symbol) (script_df w) ->
   get_klines w symbol interval st et = Raise (not_found symbol) /\
   status (serve w symbol interval st et) = 404) /\
  (status (serve w symbol interval st et) = 400 ->
   (exists row, In row (script_df w) /\ tradingSymbol row = compared w symbol) /\
   filter (isdigit (unicode w)) interval = []) /\
  (drops_trailing_nul w = false \/ last symbol 1 <> 0 -> compared w symbol = symbol).
Proof.
  split; [|split].
  - intro H. apply find_instrument_unknown in H.
    unfold serve. rewrite (get_klines_unknown w symbol interval st et H).
    split; reflexivity.
  - unfold serve. destruct (get_klines w symbol interval st et) as [v | e] eqn:E.
    + simpl. destruct (renders v); discriminate.
    + apply get_klines_raises in E.
      destruct E as [[-> _] | (row & Hin & Hsym & [[-> Hnone] | [[d ->] | [f ->]]])];
        simpl; intro H; try discriminate H.
      split; [exists row; split; assumption | exact Hnone].
  - apply compared_plain.
Qed.

(** [lookup_precedes_interval] at the sample table. *)
Lemma lookup_precedes_interval_witness :
  Forall (fun row => tradingSymbol row <> lit "NOPE")
         (script_df (sample_world only_tcs_nse)) /\
  filter (isdigit latin1_only) (lit "abc") = [] /\
  status (serve (sample_world only_tcs_nse) (lit "NOPE") (lit "abc") None None) = 404 /\
  status (serve (sample_world only_tcs_nse) (lit "TCS") (lit "abc") None None) = 400 /\
  exists row, In row [INFY; TCS; TCS_BSE] /\ tradingSymbol row = lit "TCS".
Proof.
  assert (Hnone : Forall (fun row => tradingSymbol row <> lit "NOPE")
                         (script_df (sample_world only_tcs_nse))).
  { repeat constructor; intro H; vm_compute in H; discriminate H. }
  assert (H400 : status (serve (sample_world only_tcs_nse) (lit "TCS") (lit "abc")
                           None None) = 400) by (vm_compute; reflexivity).
  split; [exact Hnone |]. split; [reflexivity |].
  split.
  - exact (proj2 (proj1 (lookup_precedes_interval (sample_world only_tcs_nse)
                           (lit "NOPE") (lit "abc") None None) Hnone)).
  - split; [exact H400 |].
    exact (proj1 (proj1 (proj2 (lookup_precedes_interval (sample_world only_tcs_nse)
                                  (lit "TCS") (lit "abc") None None)) H400)).
Defined.

(** C9 as stated fails where pandas compares through NumPy: no row carries
    the symbol TCS followed by a NUL, code point for code point, the interval
    has no digit, and the answer is the 400 of the interval, not a 404. *)
Lemma lookup_precedes_interval_counterexample :
  Forall (fun row => tradingSymbol row <> lit "TCS" ++ [0])
         (script_df (sample_world only_tcs_nse)) /\
  filter (isdigit latin1_only) (lit "abc") = [] /\
  status (serve (sample_world only_tcs_nse) (lit "TCS" ++ [0]) (lit "abc") None None)
  = 400.
Proof.
  split; [|split; vm_compute; reflexivity].
  repeat constructor; intro H; vm_compute in H; discriminate H.
Qed.

(** C6, at the failing input. When the vendor's answer passes
    [raise_for_status] and its body is not JSON, the handler of lines 100-104
    is never entered: naming its class [json.JSONDecodeError] raises
    NameError, [json] being no name of the module; the endpoint fails with
    that NameError and the caller gets a bare 500 without any detail. *)
Theorem bad_json_name_error (w : World) symbol interval st et
    row from_str to_str parsed_interval response complaint :
  find_instrument w symbol = Ok row ->
  date_range w st et = Ok (from_str, to_str) ->
  parse_interval w interval = Ok parsed_interval ->
  post w (request_for w row parsed_interval from_str to_str) = Ok response ->
  decoded response = inl complaint ->
  get_klines w symbol interval st et = Raise (Error (UndefinedName (lit "json"))) /\
  serve w symbol interval st et = bare_500.
Proof.
  intros Hrow Hdates Hiv Hpost Hbody.
  assert (H : get_klines w symbol interval st et
              = Raise (Error (UndefinedName (lit "json")))).
  { unfold get_klines. rewrite Hrow. cbn [bind]. rewrite Hdates. cbn [bind].
    rewrite Hiv. cbn [bind]. rewrite Hpost. cbn [bind].
    unfold decode_body. rewrite Hbody. reflexivity. }
  split; [exact H |]. unfold serve. rewrite H. reflexivity.
Qed.

(** [bad_json_name_error] at a vendor answering 200 with a body that is
    not JSON. *)
Lemma bad_json_name_error_witness :
  decoded not_json = inl (lit "Expecting value: line 1 column 1 (char 0)") /\
  serve (sample_world (answers not_json)) (lit "TCS") (lit "5m") None None
  = {| status := 500; body := PlainText (lit "Internal Server Error") |}.
Proof.
  split; [reflexivity |].
  refine (proj2 (bad_json_name_error (sample_world (answers not_json))
                   (lit "TCS") (lit "5m") None None
                   TCS (lit "2023-10-15 22:13:20") (lit "2023-11-14 22:13:20")
                   (lit "5") not_json
                   (lit "Expecting value: line 1 column 1 (char 0)")
                   _ _ _ _ _)); vm_compute; reflexivity.
Defined.

(** C8, at failing inputs. Three requests that fail without a JSON error
    body: the vendor's body is not JSON (the NameError of C6), a timestamp
    is text that is no integer (the ValueError of C7), and a start time far
    beyond the year 9999, which [datetime.fromtimestamp] refuses outside any
    [try]. *)
Theorem failure_without_detail :
  serve (sample_world (answers not_json)) (lit "TCS") (lit "5m") None None
  = bare_500 /\
  serve (sample_world (answers (ok_json bad_timestamp))) (lit "TCS") (lit "5m")
        None None
  = bare_500 /\
  serve (sample_world (answers (ok_json two_candles))) (lit "TCS") (lit "5m")
        (Some (10 ^ 18)) (Some (10 ^ 18))
  = bare_500.
Proof. repeat split; vm_compute; reflexivity. Qed.

Lemma transform_ok_list (w : World) (d r : value) :
  transform w d = Ok r -> exists rows, r = VList rows.
Proof.
  intro H. destruct (transform_ok_columns w d r H) as (ts & o & h & l & c & v & Hc).
  rewrite (transform_columns w d ts o h l c v Hc) in H.
  apply try_except_ok in H. apply bind_ok in H. destruct H as (rows & _ & H).
  injection H as <-. eauto.
Qed.


(** A response object that lacks one of the six keys is answered with status
    500 and a detail that quotes the first key missing, in the order
    timestamp, open, high, low, close, volume. *)
Theorem missing_key_detail (w : World) (items : list (pystr * value)) (key : pystr) :
  first_missing items = Some key ->
  respond (transform w (VDict items))
  = {| status := 500;
       body := JsonBody (VDict [(lit "detail",
                VStr (lit "Failed to parse DhanHQ response: "
                      ++ str_repr (unicode w) key))]) |}.
Proof.
  unfold first_missing, six_keys, transform, subscript. cbn [map find].
  destruct (lookup (lit "timestamp") items);
    [| intro H; injection H as <-; reflexivity].
  destruct (lookup (lit "open") items);
    [| intro H; injection H as <-; reflexivity].
  destruct (lookup (lit "high") items);
    [| intro H; injection H as <-; reflexivity].
  destruct (lookup (lit "low") items);
    [| intro H; injection H as <-; reflexivity].
  destruct (lookup (lit "close") items);
    [| intro H; injection H as <-; reflexivity].
  destruct (lookup (lit "volume") items);
    [| intro H; injection H as <-; reflexivity].
  discriminate.
Qed.

(** [missing_key_detail] at a response that has two of the six keys. *)
Lemma missing_key_detail_witness :
  first_missing [(lit "timestamp", VList []); (lit "open", VList [])]
  = Some (lit "high") /\
  respond (transform (sample_world unreachable)
             (VDict [(lit "timestamp", VList []); (lit "open", VList [])]))
  = {| status := 500;
       body := JsonBody (VDict [(lit "detail",
                VStr (lit "Failed to parse DhanHQ response: 'high'"))]) |}.
Proof.
  split; [reflexivity |].
  exact (missing_key_detail (sample_world unreachable)
           [(lit "timestamp", VList []); (lit "open", VList [])] (lit "high") eq_refl).
Defined.

(** A failure of the call to the vendor, be it that no answer came or that
    the answer has status 400 to 599, is answered with status 500 and a
    detail that carries the cause. *)
Theorem upstream_failure_detail (w : World) symbol interval st et
    row from_str to_str parsed_interval :
  find_instrument w symbol = Ok row ->
  date_range w st et = Ok (from_str, to_str) ->
  parse_interval w interval = Ok parsed_interval ->
  let sent := request_for w row parsed_interval from_str to_str in
  (forall msg,
     vendor w sent = NoResponse msg ->
     serve w symbol interval st et
     = {| status := 500;
          body := JsonBody (VDict [(lit "detail",
                   VStr (lit "Error calling DhanHQ API: " ++ msg))]) |}) /\
  (forall response,
     vendor w sent = Answer response ->
     400 <= status_code response < 600 ->
     serve w symbol interval st et
     = {| status := 500;
          body := JsonBody (VDict [(lit "detail",
                   VStr (lit "Error calling DhanHQ API: "
                         ++ exn_text w (HTTPError (status_code response)
                                          (reason response) (url sent))))]) |}).
Proof.
  intros Hrow Hdates Hiv sent.
  assert (E : get_klines w symbol interval st et
              = (response <- post w sent ;; dhan_data <- decode_body response ;;
                 transform w dhan_data)).
  { unfold get_klines. rewrite Hrow. cbn [bind]. rewrite Hdates. cbn [bind].
    rewrite Hiv. reflexivity. }
  unfold serve. rewrite E. unfold post. split.
  - intros msg ->. reflexivity.
  - intros response -> Hstatus.
    assert (H : (400 <=? status_code response) && (status_code response <? 600) = true).
    { apply andb_true_iff. split; [apply Z.leb_le | apply Z.ltb_lt]; lia. }
    rewrite H. reflexivity.
Qed.

(** [upstream_failure_detail] at a vendor out of reach and at one that
    answers 401. *)
Lemma upstream_failure_detail_witness :
  serve (sample_world unreachable) (lit "TCS") (lit "5m") None None
  = {| status := 500;
       body := JsonBody (VDict [(lit "detail",
                VStr (lit "Error calling DhanHQ API: Connection timed out"))]) |} /\
  serve (sample_world (answers unauthorized)) (lit "TCS") (lit "5m") None None
  = {| status := 500;
       body := JsonBody (VDict [(lit "detail",
                VStr (lit "Error calling DhanHQ API: 401 Client Error: Unauthorized for url: https://api.dhan.co/v2/charts/intraday"))]) |}.
Proof.
  split.
  - refine (proj1 (upstream_failure_detail (sample_world unreachable)
                     (lit "TCS") (lit "5m") None None TCS
                     (lit "2023-10-15 22:13:20") (lit "2023-11-14 22:13:20") (lit "5")
                     _ _ _) (lit "Connection timed out") eq_refl);
      vm_compute; reflexivity.
  - assert (H : serve (sample_world (answers unauthorized)) (lit "TCS") (lit "5m")
                  None None = _) by
      (refine (proj2 (upstream_failure_detail (sample_world (answers unauthorized))
                        (lit "TCS") (lit "5m") None None TCS
                        (lit "2023-10-15 22:13:20") (lit "2023-11-14 22:13:20") (lit "5")
                        _ _ _) unauthorized eq_refl _);
       [vm_compute; reflexivity .. | vm_compute; split; [discriminate | reflexivity]]).
    rewrite H. vm_compute. reflexivity.
Defined.

(** * Further properties *)
(** ** The vendor is consulted once, and last *)

Lemma parse_interval_digits (w : World) (interval p : pystr) :
  parse_interval w interval = Ok p ->
  p = filter (isdigit (unicode w)) interval /\ p <> [].
Proof.
  rewrite parse_interval_eq.
  destruct (filter (isdigit (unicode w)) interval) eqn:E; [discriminate|].
  intros H. injection H as <-. split; [reflexivity | discriminate].
Qed.

Lemma get_klines_with_vendor (w : World) (v : Sent -> post_result)
    symbol interval st et :
  get_klines (with_vendor w v) symbol interval st et
  = (row <- find_instrument w symbol ;;
     '(from_date_str, to_date_str) <- date_range w st et ;;
     parsed_interval <- parse_interval w interval ;;
     response <- post (with_vendor w v)
                   (request_for w row parsed_interval from_date_str to_date_str) ;;
     dhan_data <- decode_body response ;;
     transform w dhan_data).
Proof. reflexivity. Qed.

(** The answer of the endpoint depends on the vendor only through the
    vendor's reply to one request, the one built once the symbol was found,
    the date range resolved and the interval normalized: two vendors that
    agree on that request give the same outcome, and when one of the three
    steps fails the vendor plays no part at all. *)
Theorem vendor_consulted_once (w : World) (v1 v2 : Sent -> post_result)
    (symbol interval : pystr) (st et : option Z) :
  (forall sent, proxied_request w symbol interval st et sent -> v1 sent = v2 sent) ->
  get_klines (with_vendor w v1) symbol interval st et
  = get_klines (with_vendor w v2) symbol interval st et.
Proof.
  intros Hagree. rewrite !get_klines_with_vendor.
  destruct (find_instrument w symbol) as [row|e] eqn:Hrow; [|reflexivity].
  destruct (date_range w st et) as [[from_str to_str]|e] eqn:Hrange; [|reflexivity].
  destruct (parse_interval w interval) as [p|e] eqn:Hp; [|reflexivity].
  destruct (parse_interval_digits _ _ _ Hp) as [-> Hne].
  cbn [bind].
  assert (Hpost : post (with_vendor w v1)
                    (request_for w row (filter (isdigit (unicode w)) interval)
                       from_str to_str)
                  = post (with_vendor w v2)
                      (request_for w row (filter (isdigit (unicode w)) interval)
                         from_str to_str)).
  { unfold post. cbn [vendor with_vendor].
    rewrite (Hagree (request_for w row (filter (isdigit (unicode w)) interval)
                       from_str to_str)); [reflexivity|].
    exists row, from_str, to_str. repeat split; assumption. }
  rewrite Hpost. reflexivity.
Qed.

Lemma vendor_consulted_once_witness :
  get_klines (with_vendor (sample_world unreachable) only_tcs_nse)
    (lit "TCS") (lit "5m") None None
  = get_klines (with_vendor (sample_world unreachable) (only_at_url only_tcs_nse))
      (lit "TCS") (lit "5m") None None.
Proof.
  apply vendor_consulted_once.
  intros sent (row & from_str & to_str & _ & _ & _ & ->).
  reflexivity.
Defined.

(** ** Which status the endpoint answers with *)

Lemma post_ok (w : World) (sent : Sent) (response : Response) :
  post w sent = Ok response <-> vendor w sent = Answer response /\ passes response.
Proof.
  unfold post, passes. rewrite try_except_ok.
  destruct (vendor w sent) as [msg|r]; [split; [discriminate | intros [H _]; discriminate]|].
  destruct ((400 <=? status_code r) && (status_code r <? 600)) eqn:E.
  - split; [discriminate|]. intros [H P]. injection H as ->.
    apply andb_true_iff in E. lia.
  - split.
    + intros H. injection H as ->. split; [reflexivity|].
      apply andb_false_iff in E. lia.
    + intros [H _]. congruence.
Qed.

Lemma post_cases (w : World) (sent : Sent) :
  (exists response, post w sent = Ok response) \/
  (exists detail, post w sent = Raise (HTTPException 500 detail)).
Proof.
  destruct (post w sent) as [r|e] eqn:E; [left; eauto|right].
  apply post_raises in E. destruct E as (f & _ & ->). eauto.
Qed.

Lemma decode_body_ok (response : Response) (d : value) :
  decode_body response = Ok d <-> decoded response = inr d /\ decodable d = true.
Proof.
  unfold decode_body. destruct (decoded response) as [c|x].
  - split; [discriminate | intros [H _]; discriminate].
  - destruct (decodable x) eqn:E.
    + split; [intros H; injection H as <-; tauto | intros [H _]; congruence].
    + split; [discriminate | intros [H D]; injection H as <-; congruence].
Qed.

Lemma status_respond_raise (w : World) (d : value) (e : exn) :
  transform w d = Raise e -> status (respond (Raise e)) = 500.
Proof.
  intros H. apply transform_raises in H.
  destruct H as [(f & _ & ->) | (f & _ & ->)]; reflexivity.
Qed.

(** The outcome of the endpoint, step by step. *)
Lemma get_klines_cases (w : World) (symbol interval : pystr) (st et : option Z) :
  (find_instrument w symbol = Raise (not_found symbol) /\
   Forall (fun row => tradingSymbol row <> compared w symbol) (script_df w) /\
   get_klines w symbol interval st et = Raise (not_found symbol)) \/
  (exists row,
     find_instrument w symbol = Ok row /\
     In row (script_df w) /\ tradingSymbol row = compared w symbol /\
     ((exists f, date_range w st et = Raise (Error f) /\
                 get_klines w symbol interval st et = Raise (Error f)) \/
      (exists from_str to_str,
         date_range w st et = Ok (from_str, to_str) /\
         ((filter (isdigit (unicode w)) interval = [] /\
           get_klines w symbol interval st et = Raise (invalid_interval interval)) \/
          (filter (isdigit (unicode w)) interval <> [] /\
           get_klines w symbol interval st et
           = (response <- post w (request_for w row
                                    (filter (isdigit (unicode w)) interval)
                                    from_str to_str) ;;
              dhan_data <- decode_body response ;;
              transform w dhan_data)))))).
Proof.
  destruct (find_instrument_inv w symbol) as [(row & Hrow & Hin & Hsym) | (Hraise & Hall)].
  - right. exists row. repeat (split; [assumption|]).
    destruct (date_range w st et) as [[from_str to_str]|e] eqn:Hrange.
    + right. exists from_str, to_str. split; [reflexivity|].
      rewrite (get_klines_from_interval w symbol interval st et row from_str to_str Hrow Hrange).
      rewrite parse_interval_eq.
      destruct (filter (isdigit (unicode w)) interval) eqn:E.
      * left. split; reflexivity.
      * right. split; [discriminate | reflexivity].
    + left. destruct (date_range_raises _ _ _ _ Hrange) as (f & ->).
      exists f. split; [reflexivity|].
      unfold get_klines. rewrite Hrow, Hrange. reflexivity.
  - left. repeat split; try assumption.
    apply get_klines_unknown. assumption.
Qed.

Lemma known_not_unknown (w : World) (symbol : pystr) (row : Instrument) :
  In row (script_df w) -> tradingSymbol row = compared w symbol ->
  ~ Forall (fun r => tradingSymbol r <> compared w symbol) (script_df w).
Proof.
  intros Hin Hsym Hall. rewrite Forall_forall in Hall. exact (Hall row Hin Hsym).
Qed.

(** The endpoint returns exactly when the one request was made, the
    vendor's answer passed, and its body was decoded and transcoded. *)
Lemma get_klines_ok (w : World) (symbol interval : pystr) (st et : option Z)
    (v : value) :
  get_klines w symbol interval st et = Ok v <->
  exists sent response dhan_data,
    proxied_request w symbol interval st et sent /\
    vendor w sent = Answer response /\ passes response /\
    decoded response = inr dhan_data /\ decodable dhan_data = true /\
    transform w dhan_data = Ok v.
Proof.
  split.
  - intros H. unfold get_klines in H.
    apply bind_ok in H. destruct H as (row & Hrow & H).
    apply bind_ok in H. destruct H as ([from_str to_str] & Hrange & H).
    apply bind_ok in H. destruct H as (p & Hp & H).
    apply bind_ok in H. destruct H as (response & Hpost & H).
    apply bind_ok in H. destruct H as (d & Hd & H).
    destruct (parse_interval_digits _ _ _ Hp) as [-> Hne].
    apply post_ok in Hpost. apply decode_body_ok in Hd.
    exists (request_for w row (filter (isdigit (unicode w)) interval) from_str to_str),
           response, d.
    split; [exists row, from_str, to_str; tauto | tauto].
  - intros (sent & response & d & (row & from_str & to_str & Hrow & Hrange & Hne & ->)
            & Hv & Hp & Hd & Hdec & Ht).
    rewrite (get_klines_from_interval w symbol interval st et row from_str to_str
               Hrow Hrange).
    rewrite parse_interval_eq.
    destruct (filter (isdigit (unicode w)) interval) as [|c0 p] eqn:E; [congruence|].
    cbn [bind].
    rewrite (proj2 (post_ok w _ response) (conj Hv Hp)). cbn [bind].
    rewrite (proj2 (decode_body_ok response d) (conj Hd Hdec)). cbn [bind].
    exact Ht.
Qed.

(** The status of the answer tells what happened, for a request that FastAPI
    hands to [get_klines] and the vendor call returns from. It is 404
    exactly when no row of the table bears the symbol, as pandas compares
    it; 400 exactly when the symbol was found, the date range resolved and
    the interval has no digit; 200 exactly when the one request was made,
    the vendor answered it with a status outside 400-599 and a body the
    decoder accepts, the transcoder made rows of it and the rows can be
    rendered, and they are then the body. Every other such request is
    answered with 500. *)
Theorem status_classification (w : World) (symbol interval : pystr)
    (st et : option Z) :
  let answer := serve w symbol interval st et in
  (status answer = 404 <->
   Forall (fun row => tradingSymbol row <> compared w symbol) (script_df w)) /\
  (status answer = 400 <->
   exists row from_str to_str,
     find_instrument w symbol = Ok row /\
     date_range w st et = Ok (from_str, to_str) /\
     filter (isdigit (unicode w)) interval = []) /\
  (status answer = 200 <->
   exists sent response dhan_data rows,
     proxied_request w symbol interval st et sent /\
     vendor w sent = Answer response /\ passes response /\
     decoded response = inr dhan_data /\ decodable dhan_data = true /\
     transform w dhan_data = Ok (VList rows) /\
     renders (VList rows) = true /\
     body answer = JsonBody (VList rows)) /\
  (status answer = 200 \/ status answer = 400 \/ status answer = 404 \/
   status answer = 500).
Proof.
  cbv zeta. unfold serve.
  destruct (get_klines w symbol interval st et) as [v|e] eqn:E.
  - (* the endpoint returned *)
    pose proof (proj1 (get_klines_ok w symbol interval st et v) E)
      as (sent & response & d & Hreq & Hv & Hp & Hd & Hdec & Ht).
    destruct (transform_ok_list _ _ _ Ht) as (rows & ->).
    destruct Hreq as (row & from_str & to_str & Hrow & Hrange & Hne & Hsent).
    assert (Hknown : ~ Forall (fun r => tradingSymbol r <> compared w symbol)
                       (script_df w)).
    { intros Hall. rewrite (find_instrument_unknown w symbol Hall) in Hrow.
      discriminate. }
    assert (Hnot400 : ~ exists row0 from0 to0,
              find_instrument w symbol = Ok row0 /\
              date_range w st et = Ok (from0, to0) /\
              filter (isdigit (unicode w)) interval = []).
    { intros (_ & _ & _ & _ & _ & H). tauto. }
    cbn [respond]. destruct (renders (VList rows)) eqn:R; cbn [status body].
    + split; [split; [discriminate | tauto]|].
      split; [split; [discriminate | tauto]|].
      split; [|tauto]. split; [|reflexivity]. intros _.
      exists sent, response, d, rows.
      split; [exists row, from_str, to_str; tauto | tauto].
    + split; [split; [discriminate | tauto]|].
      split; [split; [discriminate | tauto]|].
      split; [|tauto]. split; [discriminate|].
      intros (_ & _ & _ & rows' & _ & _ & _ & _ & _ & _ & _ & H). discriminate.
  - (* the endpoint raised *)
    assert (Hnot200 : ~ exists sent response dhan_data (rows : list value),
              proxied_request w symbol interval st et sent /\
              vendor w sent = Answer response /\ passes response /\
              decoded response = inr dhan_data /\ decodable dhan_data = true /\
              transform w dhan_data = Ok (VList rows) /\
              renders (VList rows) = true /\
              body (respond (Raise e)) = JsonBody (VList rows)).
    { intros (sent & response & d & rows & H1 & H2 & H3 & H4 & H5 & H6 & _).
      assert (Hok : get_klines w symbol interval st et = Ok (VList rows))
        by (apply get_klines_ok; exists sent, response, d; tauto).
      congruence. }
    destruct (get_klines_cases w symbol interval st et)
      as [(Hfind & Hall & Hg) | (row & Hrow & Hin & Hsym & Hrest)].
    { rewrite Hg in E. injection E as <-. cbn [respond status not_found].
      split; [tauto|]. split; [|split; [|tauto]].
      - split; [discriminate|]. intros (r & _ & _ & H & _). congruence.
      - split; [discriminate | tauto]. }
    pose proof (known_not_unknown w symbol row Hin Hsym) as Hknown.
    destruct Hrest as [(f & Hrange & Hg) | (from_str & to_str & Hrange & Hrest)].
    { rewrite Hg in E. injection E as <-. cbn [respond status].
      split; [split; [discriminate | tauto]|]. split; [|split; [|tauto]].
      - split; [discriminate|]. intros (_ & a & b & _ & H & _). congruence.
      - split; [discriminate | tauto]. }
    destruct Hrest as [(Hnone & Hg) | (Hsome & _)].
    { rewrite Hg in E. injection E as <-. cbn [respond status invalid_interval].
      split; [split; [discriminate | tauto]|]. split; [|split; [|tauto]].
      - split; [|reflexivity]. intros _. exists row, from_str, to_str. tauto.
      - split; [discriminate | tauto]. }
    assert (H500 : status (respond (Raise e)) = 500).
    { apply get_klines_raises in E.
      destruct E as [[_ Hall] | (_ & _ & _ & [[_ Hnone] | [[d ->] | [f ->]]])];
        [tauto | tauto | reflexivity | reflexivity]. }
    rewrite H500.
    split; [split; [discriminate | tauto]|].
    split; [split; [discriminate|]|].
    { intros (_ & _ & _ & _ & _ & H). tauto. }
    split; [split; [discriminate | tauto] | tauto].
Qed.

(** All or nothing, for a request that FastAPI hands to [get_klines] and
    the vendor call returns from. The endpoint answers in one of three
    ways. With status 200: then the one request was made, the vendor's
    answer to it was decoded, and the body holds one row for each position
    of the shortest of the six columns of that very answer, the row made of
    [int(timestamp) * 1000] and the five texts there. Or with status 404,
    400 or 500 and a JSON object holding a detail. Or with a bare 500. A
    part of the rows is never sent. *)
Theorem endpoint_all_or_nothing (w : World) (symbol interval : pystr)
    (st et : option Z) :
  (exists sent response dhan_data rows ts o h l c v,
     proxied_request w symbol interval st et sent /\
     vendor w sent = Answer response /\
     decoded response = inr dhan_data /\
     six_columns dhan_data ts o h l c v /\
     transform w dhan_data = Ok (VList rows) /\
     List.length rows = shortest6 ts o h l c v /\
     (forall i, (i < shortest6 ts o h l c v)%nat ->
        exists n, py_int (unicode w) (nth i ts VNone) = Ok n /\
                  nth i rows VNone = row_at (unicode w) o h l c v i n) /\
     serve w symbol interval st et
     = {| status := 200; body := JsonBody (VList rows) |}) \/
  (exists code detail,
     (code = 404 \/ code = 400 \/ code = 500) /\
     serve w symbol interval st et
     = {| status := code;
          body := JsonBody (VDict [(lit "detail", VStr detail)]) |}) \/
  serve w symbol interval st et = bare_500.
Proof.
  unfold serve. destruct (get_klines w symbol interval st et) as [r | e] eqn:E.
  - pose proof (proj1 (get_klines_ok w symbol interval st et r) E)
      as (sent & response & d & Hreq & Hv & Hp & Hd & Hdec & Ht).
    destruct (transform_ok_list w d r Ht) as [rows ->].
    destruct (transform_ok_columns w d _ Ht) as (ts & o & h & l & c & v & Hc).
    destruct (transform_returns w d ts o h l c v rows Hc Ht) as [Hlen Hrows].
    cbn [respond]. destruct (renders (VList rows)) eqn:R.
    + left. exists sent, response, d, rows, ts, o, h, l, c, v. tauto.
    + right. right. reflexivity.
  - right. apply get_klines_raises in E.
    destruct E as [[-> _] | (row & _ & _ & [[-> _] | [[d ->] | [f ->]]])].
    + left. eexists 404, _. split; [tauto | reflexivity].
    + left. eexists 400, _. split; [tauto | reflexivity].
    + left. eexists 500, _. split; [tauto | reflexivity].
    + right. reflexivity.
Qed.

(** ** The transcoder beyond the shortest column *)

Lemma zip6_firstn {A} (n : nat) (a b c d e f : list A) :
  (shortest6 a b c d e f <= n)%nat ->
  zip6 (firstn n a) (firstn n b) (firstn n c) (firstn n d) (firstn n e) (firstn n f)
  = zip6 a b c d e f.
Proof.
  revert a b c d e f. induction n as [|n IH]; intros a b c d e f Hn.
  - destruct a, b, c, d, e, f; try reflexivity.
    unfold shortest6 in Hn. simpl in Hn. lia.
  - destruct a, b, c, d, e, f; try reflexivity.
    simpl. f_equal. apply IH.
    unfold shortest6 in *. simpl in Hn. lia.
Qed.

Lemma six_columns_upstream (ts o h l c v : list value) :
  six_columns (upstream (VList ts) (VList o) (VList h) (VList l) (VList c) (VList v))
    ts o h l c v.
Proof. repeat split. Qed.

(** Whatever lies in a column beyond the length of the shortest one is
    never looked at, be it a timestamp that [int] would refuse: the outcome
    is that of the columns cut to the shortest length. In particular one
    empty column makes the answer the empty list of rows. *)
Theorem transform_ignores_tail (w : World) (d : value) (ts o h l c v : list value) :
  six_columns d ts o h l c v ->
  transform w d = transform w (cut (shortest6 ts o h l c v) ts o h l c v) /\
  (shortest6 ts o h l c v = 0%nat -> transform w d = Ok (VList [])).
Proof.
  intros Hd. unfold cut.
  rewrite (transform_columns w d ts o h l c v Hd).
  rewrite (transform_columns w _ _ _ _ _ _ _ (six_columns_upstream _ _ _ _ _ _)).
  rewrite zip6_firstn by lia. split; [reflexivity|].
  intros Hzero.
  assert (Hnil : zip6 ts o h l c v = []).
  { apply length_zero_iff_nil. rewrite zip6_length. exact Hzero. }
  rewrite Hnil. reflexivity.
Qed.

Lemma transform_ignores_tail_witness :
  transform (sample_world unreachable) ragged
  = transform (sample_world unreachable)
      (cut 2 [VInt 1700000000; VInt 1700000060; VStr (lit "n/a")]
         [VInt 1; VInt 2] [VInt 1; VInt 2] [VInt 1; VInt 2] [VInt 1; VInt 2]
         [VInt 1; VInt 2]).
Proof.
  apply (transform_ignores_tail (sample_world unreachable) ragged
           [VInt 1700000000; VInt 1700000060; VStr (lit "n/a")]
           [VInt 1; VInt 2] [VInt 1; VInt 2] [VInt 1; VInt 2] [VInt 1; VInt 2]
           [VInt 1; VInt 2]).
  repeat split.
Defined.

(** ** Which failure of the transcoder is reported *)

Lemma comprehension_first_raise {A B} (f : A -> result B) (xs : list A) (x : A)
    (i : nat) (e : exn) :
  (i < List.length xs)%nat ->
  (forall j, (j < i)%nat -> exists y, f (nth j xs x) = Ok y) ->
  f (nth i xs x) = Raise e ->
  comprehension f xs = Raise e.
Proof.
  revert i. induction xs as [|a xs IH]; intros i Hi Hbefore Hbad.
  - simpl in Hi. lia.
  - destruct i as [|i].
    + simpl in Hbad. simpl. rewrite Hbad. reflexivity.
    + destruct (Hbefore 0%nat ltac:(lia)) as (y & Hy). simpl in Hy.
      simpl. rewrite Hy. cbn [bind].
      rewrite (IH i); [reflexivity | simpl in Hi; lia | | exact Hbad].
      intros j Hj. apply (Hbefore (S j)). lia.
Qed.

Lemma kline_row_int (u : Unicode) ts o h l c v :
  kline_row u (ts, o, h, l, c, v)
  = (n <- py_int u ts ;;
     Ok (VList [VInt (n * 1000); VStr (py_str u o); VStr (py_str u h);
                VStr (py_str u l); VStr (py_str u c); VStr (py_str u v)])).
Proof. reflexivity. Qed.

Lemma transform_first_raise (w : World) (d : value) (ts o h l c v : list value)
    (i : nat) (e : exn) :
  six_columns d ts o h l c v ->
  (i < shortest6 ts o h l c v)%nat ->
  (forall j, (j < i)%nat -> exists z, py_int (unicode w) (nth j ts VNone) = Ok z) ->
  py_int (unicode w) (nth i ts VNone) = Raise e ->
  transform w d
  = try_except (Raise e) [KeyError; TypeError]
      (fun f => HTTPException 500
                  (lit "Failed to parse DhanHQ response: " ++ exn_text w f)).
Proof.
  intros Hd Hi Hbefore Hbad.
  rewrite (transform_columns w d ts o h l c v Hd).
  rewrite (comprehension_first_raise (kline_row (unicode w)) (zip6 ts o h l c v)
             (VNone, VNone, VNone, VNone, VNone, VNone) i e).
  - reflexivity.
  - rewrite zip6_length. exact Hi.
  - intros j Hj. rewrite zip6_nth by lia. rewrite kline_row_int.
    destruct (Hbefore j Hj) as (z & ->). cbn [bind]. eauto.
  - rewrite zip6_nth by lia. rewrite kline_row_int. rewrite Hbad. reflexivity.
Qed.

(** When [int] refuses a timestamp within the length of the shortest
    column, the first such timestamp decides the answer, and the rows made
    before it are dropped: null, a list or an object there gives HTTP 500
    with the detail 'Failed to parse DhanHQ response: ' and the
    interpreter's message, while text that is no integer literal (or one of
    too many digits), a NaN or an infinity escapes the handler and gives the
    bare 500. *)
Theorem first_bad_timestamp (w : World) (d : value) (ts o h l c v : list value)
    (i : nat) (e : exn) :
  six_columns d ts o h l c v ->
  (i < shortest6 ts o h l c v)%nat ->
  (forall j, (j < i)%nat -> exists z, py_int (unicode w) (nth j ts VNone) = Ok z) ->
  py_int (unicode w) (nth i ts VNone) = Raise e ->
  respond (transform w d)
  = match nth i ts VNone with
    | VNone | VList _ | VDict _ => parse_failure w (IntArgument (nth i ts VNone))
    | _ => bare_500
    end.
Proof.
  intros Hd Hi Hbefore Hbad.
  rewrite (transform_first_raise w d ts o h l c v i e Hd Hi Hbefore Hbad).
  destruct (nth i ts VNone) as [|b|n|f|s|items|items]; simpl in Hbad.
  - injection Hbad as <-. reflexivity.
  - discriminate.
  - discriminate.
  - destruct f; simpl in Hbad; try discriminate; injection Hbad as <-; reflexivity.
  - destruct (to_ascii_digits (unicode w) s) as [a|].
    + destruct (int_max_str_digits <? digits_read a);
        [injection Hbad as <-; reflexivity|].
      destruct (int_of_ascii a); [discriminate|]. injection Hbad as <-. reflexivity.
    + injection Hbad as <-. reflexivity.
  - injection Hbad as <-. reflexivity.
  - injection Hbad as <-. reflexivity.
Qed.

Lemma first_bad_timestamp_witness :
  respond (transform (sample_world unreachable) null_second)
  = parse_failure (sample_world unreachable) (IntArgument VNone).
Proof.
  apply (first_bad_timestamp (sample_world unreachable) null_second
           [VInt 1700000000; VNone; VStr (lit "abc")]
           [VInt 1; VInt 2; VInt 3] [VInt 1; VInt 2; VInt 3]
           [VInt 1; VInt 2; VInt 3] [VInt 1; VInt 2; VInt 3]
           [VInt 1; VInt 2; VInt 3] 1%nat (Error (IntArgument VNone))).
  - repeat split.
  - unfold shortest6. simpl. lia.
  - intros j Hj. destruct j as [|j]; [|lia]. exists 1700000000. reflexivity.
  - reflexivity.
Defined.

(** ** A response of the wrong shape *)

Lemma iterate_cases (x : value) :
  (iterable x = true /\ exists items, iterate x = Ok items) \/
  (iterable x = false /\ iterate x = Raise (Error (NotIterable x))).
Proof. destruct x; simpl; eauto. Qed.

(** A vendor body that is JSON but no object (a list, a number, null, or a
    text that holds no lone surrogate, which the print of line 133 could not
    write) is answered with HTTP 500 and the detail 'Failed to parse DhanHQ
    response: ' followed by the interpreter's message for subscripting it;
    an object that has the six keys, one of them bound to a number, a
    boolean or null, is answered likewise with the message for the first
    such value in the order timestamp, open, high, low, close, volume, and
    before any timestamp is converted. *)
Theorem wrong_shape_detail (w : World) :
  (forall d, (forall items, d <> VDict items) ->
     (forall s, d = VStr s -> encodable s = true) ->
     respond (transform w d) = parse_failure w (NotSubscriptable d)) /\
  (forall items xs x,
     six_values items = Some xs ->
     find (fun x => negb (iterable x)) xs = Some x ->
     respond (transform w (VDict items)) = parse_failure w (NotIterable x)).
Proof.
  split.
  - intros d Hd _. destruct d; try reflexivity. exfalso. exact (Hd items eq_refl).
  - intros items xs x Hsix Hfind. unfold six_values in Hsix.
    unfold transform, subscript.
    destruct (lookup (lit "timestamp") items) as [ts|]; [|discriminate].
    destruct (lookup (lit "open") items) as [o|]; [|discriminate].
    destruct (lookup (lit "high") items) as [h|]; [|discriminate].
    destruct (lookup (lit "low") items) as [l|]; [|discriminate].
    destruct (lookup (lit "close") items) as [c|]; [|discriminate].
    destruct (lookup (lit "volume") items) as [v|]; [|discriminate].
    injection Hsix as <-. cbn [bind]. cbn [find] in Hfind.
    destruct (iterate_cases ts) as [(Ets & its & ->) | (Ets & ->)];
      rewrite Ets in Hfind; cbn [negb] in Hfind;
      [cbn [bind] | injection Hfind as <-; reflexivity].
    destruct (iterate_cases o) as [(Eo & io & ->) | (Eo & ->)];
      rewrite Eo in Hfind; cbn [negb] in Hfind;
      [cbn [bind] | injection Hfind as <-; reflexivity].
    destruct (iterate_cases h) as [(Eh & ih & ->) | (Eh & ->)];
      rewrite Eh in Hfind; cbn [negb] in Hfind;
      [cbn [bind] | injection Hfind as <-; reflexivity].
    destruct (iterate_cases l) as [(El & il & ->) | (El & ->)];
      rewrite El in Hfind; cbn [negb] in Hfind;
      [cbn [bind] | injection Hfind as <-; reflexivity].
    destruct (iterate_cases c) as [(Ec & ic & ->) | (Ec & ->)];
      rewrite Ec in Hfind; cbn [negb] in Hfind;
      [cbn [bind] | injection Hfind as <-; reflexivity].
    destruct (iterate_cases v) as [(Ev & iv & ->) | (Ev & ->)];
      rewrite Ev in Hfind; cbn [negb] in Hfind;
      [discriminate | injection Hfind as <-; reflexivity].
Qed.

Lemma wrong_shape_detail_witness :
  respond (transform (sample_world unreachable) (VStr (lit "rate limited")))
  = parse_failure (sample_world unreachable)
      (NotSubscriptable (VStr (lit "rate limited"))) /\
  respond (transform (sample_world unreachable)
             (upstream (VList [VStr (lit "abc")]) (VList []) VNone (VInt 7)
                (VList []) (VList [])))
  = parse_failure (sample_world unreachable) (NotIterable VNone).
Proof.
  split.
  - apply (proj1 (wrong_shape_detail (sample_world unreachable))).
    + intros items. discriminate.
    + intros s Hs. injection Hs as <-. reflexivity.
  - apply (proj2 (wrong_shape_detail (sample_world unreachable))
             _ [VList [VStr (lit "abc")]; VList []; VNone; VInt 7; VList []; VList []]).
    + reflexivity.
    + reflexivity.
Defined.

(** ** [int] reads back what [str] writes *)

Lemma scan_acc (d : Decimal.uint) (acc : positive) (seen : nat) (prev : codepoint) :
  (prev =? 95) = false ->
  scan_digits (Zpos acc) (S seen) prev (uint_chars d)
  = Some (Zpos (Pos.of_uint_acc d acc), []).
Proof.
  revert acc seen prev.
  induction d as [|d IH|d IH|d IH|d IH|d IH|d IH|d IH|d IH|d IH|d IH];
    intros acc seen prev Hprev;
    [ simpl; rewrite Hprev; reflexivity | .. ];
    cbn [uint_chars scan_digits Pos.of_uint_acc];
    match goal with
    | |- context [is_ascii_digit ?c] =>
        change (is_ascii_digit c) with true; cbv iota
    end;
    match goal with
    | |- scan_digits ?a _ _ _ = Some (Zpos (Pos.of_uint_acc _ ?b), _) =>
        replace a with (Zpos b) by lia
    end;
    apply IH; reflexivity.
Qed.

Lemma scan_zero (d : Decimal.uint) (seen : nat) (prev : codepoint) :
  (prev =? 95) = false ->
  scan_digits 0 (S seen) prev (uint_chars d) = Some (Z.of_N (Pos.of_uint d), []).
Proof.
  revert seen prev.
  induction d as [|d IH|d IH|d IH|d IH|d IH|d IH|d IH|d IH|d IH|d IH];
    intros seen prev Hprev.
  - simpl. rewrite Hprev. reflexivity.
  - cbn [uint_chars scan_digits Pos.of_uint].
    change (is_ascii_digit 48) with true. cbv iota.
    change (0 * 10 + (48 - 48)) with 0. apply IH. reflexivity.
  - cbn [uint_chars scan_digits Pos.of_uint]. apply (scan_acc d 1). reflexivity.
  - cbn [uint_chars scan_digits Pos.of_uint]. apply (scan_acc d 2). reflexivity.
  - cbn [uint_chars scan_digits Pos.of_uint]. apply (scan_acc d 3). reflexivity.
  - cbn [uint_chars scan_digits Pos.of_uint]. apply (scan_acc d 4). reflexivity.
  - cbn [uint_chars scan_digits Pos.of_uint]. apply (scan_acc d 5). reflexivity.
  - cbn [uint_chars scan_digits Pos.of_uint]. apply (scan_acc d 6). reflexivity.
  - cbn [uint_chars scan_digits Pos.of_uint]. apply (scan_acc d 7). reflexivity.
  - cbn [uint_chars scan_digits Pos.of_uint]. apply (scan_acc d 8). reflexivity.
  - cbn [uint_chars scan_digits Pos.of_uint]. apply (scan_acc d 9). reflexivity.
Qed.


Lemma uint_chars_low (d : Decimal.uint) : Forall (fun c => c < 127) (uint_chars d).
Proof. induction d; simpl; constructor; (lia || assumption). Qed.

Ltac after_first_digit d acc c lemma :=
  split;
  [ transitivity (match scan_digits acc 1 c (uint_chars d) with
                  | Some (n, rest) =>
                      match skip_spaces rest with
                      | [] => Some n
                      | _ :: _ => None
                      end
                  | None => None
                  end)
  | transitivity (match scan_digits acc 1 c (uint_chars d) with
                  | Some (n, rest) =>
                      match skip_spaces rest with
                      | [] => Some (- n)
                      | _ :: _ => None
                      end
                  | None => None
                  end) ];
  [ reflexivity | rewrite lemma; reflexivity
  | reflexivity | rewrite lemma; reflexivity ].

Lemma int_of_ascii_uint (d : Decimal.uint) :
  d <> Nil ->
  int_of_ascii (uint_chars d) = Some (Z.of_N (Pos.of_uint d)) /\
  int_of_ascii (45 :: uint_chars d) = Some (- Z.of_N (Pos.of_uint d)).
Proof.
  intros Hd. destruct d as [|d|d|d|d|d|d|d|d|d|d]; [congruence | ..].
  - after_first_digit d 0 48 (scan_zero d 0 48 eq_refl).
  - after_first_digit d 1 49 (scan_acc d 1 0 49 eq_refl).
  - after_first_digit d 2 50 (scan_acc d 2 0 50 eq_refl).
  - after_first_digit d 3 51 (scan_acc d 3 0 51 eq_refl).
  - after_first_digit d 4 52 (scan_acc d 4 0 52 eq_refl).
  - after_first_digit d 5 53 (scan_acc d 5 0 53 eq_refl).
  - after_first_digit d 6 54 (scan_acc d 6 0 54 eq_refl).
  - after_first_digit d 7 55 (scan_acc d 7 0 55 eq_refl).
  - after_first_digit d 8 56 (scan_acc d 8 0 56 eq_refl).
  - after_first_digit d 9 57 (scan_acc d 9 0 57 eq_refl).
Qed.

Lemma int_str_low (n : Z) : Forall (fun c => c < 127) (int_str n).
Proof.
  unfold int_str. destruct (Z.to_int n).
  - apply uint_chars_low.
  - constructor; [lia | apply uint_chars_low].
Qed.

Lemma int_of_ascii_int_str (n : Z) : int_of_ascii (int_str n) = Some n.
Proof.
  unfold int_str. destruct n as [|p|p]; cbn [Z.to_int].
  - reflexivity.
  - rewrite (proj1 (int_of_ascii_uint (Pos.to_uint p)
                      (DecimalPos.Unsigned.to_uint_nonnil p))).
    rewrite DecimalPos.Unsigned.of_to. reflexivity.
  - rewrite (proj2 (int_of_ascii_uint (Pos.to_uint p)
                      (DecimalPos.Unsigned.to_uint_nonnil p))).
    rewrite DecimalPos.Unsigned.of_to. reflexivity.
Qed.








(** ** The two bounds of the date range *)

Lemma strftime_microsecond (w : World) (ord sec us us' : Z) :
  strftime w {| ordinal := ord; second_of_day := sec; microsecond := us |}
  = strftime w {| ordinal := ord; second_of_day := sec; microsecond := us' |}.
Proof. reflexivity. Qed.

(** The text of the local time of an instant, in whole seconds. *)
Lemma datetime_from_timet_text (w : World) (t us us' : Z) :
  (d <- datetime_from_timet_and_us w t us ;; Ok (strftime w d))
  = (d <- datetime_from_timet_and_us w t us' ;; Ok (strftime w d)).
Proof.
  unfold datetime_from_timet_and_us.
  destruct (local w t) as [[ord sec]|e]; [|reflexivity]. cbn [bind].
  destruct (local w (t - 86400)) as [[pord psec]|e]; [|reflexivity]. cbn [bind].
  destruct (ord * 86400 + sec - (pord * 86400 + psec) - 86400 <? 0); [|reflexivity].
  destruct (local w (t + (ord * 86400 + sec - (pord * 86400 + psec) - 86400)))
    as [[? ?]|e]; reflexivity.
Qed.

Lemma bound_text (w : World) (a : Z) :
  a <> 0 -> - 2 ^ 48 < a < 2 ^ 48 ->
  (fa <- int_truediv a 1000 ;; d <- fromtimestamp w fa ;; Ok (strftime w d))
  = (d <- datetime_from_timet_and_us w (a / 1000) 0 ;; Ok (strftime w d)).
Proof.
  intros Ha Hrange.
  destruct (timeval_of_quotient a Ha Hrange) as (fa & us & -> & Htv & _).
  cbn [bind]. unfold fromtimestamp. rewrite Htv. cbn [bind].
  apply datetime_from_timet_text.
Qed.

Lemma date_range_supplied (w : World) (a b : Z) :
  a <> 0 -> b <> 0 ->
  date_range w (Some a) (Some b)
  = (from_str <- (fa <- int_truediv a 1000 ;; d <- fromtimestamp w fa ;;
                  Ok (strftime w d)) ;;
     to_str <- (fb <- int_truediv b 1000 ;; d <- fromtimestamp w fb ;;
                Ok (strftime w d)) ;;
     Ok (from_str, to_str)).
Proof.
  intros Ha Hb. unfold date_range. rewrite (supplied_window w a b Ha Hb).
  destruct (int_truediv a 1000) as [fa|e]; [|reflexivity]. cbn [bind].
  destruct (fromtimestamp w fa) as [da|e]; [|reflexivity]. cbn [bind].
  destruct (int_truediv b 1000) as [fb|e]; [|reflexivity]. cbn [bind].
  destruct (fromtimestamp w fb) as [db|e]; reflexivity.
Qed.

Lemma date_range_one_absent (w : World) (st et : option Z) :
  not_both st et -> date_range w st et = date_range w None None.
Proof.
  intros H. unfold date_range.
  rewrite (default_window w st et H).
  rewrite (default_window w None None); [reflexivity | left; reflexivity].
Qed.

(** The two bounds are converted one by one and never compared: when
    a range is resolved, the reversed range is resolved too, to the same
    two texts in the other order, so a start after the end is passed on to
    the vendor as it is. *)
Theorem bounds_not_compared (w : World) (a b : Z) (from_str to_str : pystr) :
  a <> 0 -> b <> 0 ->
  date_range w (Some a) (Some b) = Ok (from_str, to_str) ->
  date_range w (Some b) (Some a) = Ok (to_str, from_str) /\
  date_range w (Some a) (Some a) = Ok (from_str, from_str).
Proof.
  intros Ha Hb. rewrite !date_range_supplied by assumption.
  destruct (fa <- int_truediv a 1000 ;; d <- fromtimestamp w fa ;; Ok (strftime w d))
    as [x|e]; [|discriminate].
  destruct (fb <- int_truediv b 1000 ;; d <- fromtimestamp w fb ;; Ok (strftime w d))
    as [y|e]; [|discriminate].
  cbn [bind]. intros H. injection H as <- <-. split; reflexivity.
Qed.

Lemma bounds_not_compared_witness :
  date_range (sample_world unreachable) (Some 1700086400000) (Some 1700000000000)
  = Ok (lit "2023-11-15 22:13:20", lit "2023-11-14 22:13:20") /\
  date_range (sample_world unreachable) (Some 1700000000000) (Some 1700000000000)
  = Ok (lit "2023-11-14 22:13:20", lit "2023-11-14 22:13:20").
Proof.
  apply (bounds_not_compared (sample_world unreachable) 1700000000000 1700086400000).
  - discriminate.
  - discriminate.
  - vm_compute. reflexivity.
Defined.

(** The milliseconds of a bound are dropped, towards the past: two
    values of a bound within the same second (and within 8900 years of
    1970) give the same outcome of the date range, the same two texts or
    the same failure, whichever bound they stand for. *)
Theorem milliseconds_dropped (w : World) (a a' b : Z) :
  a <> 0 -> a' <> 0 -> - 2 ^ 48 < a < 2 ^ 48 -> - 2 ^ 48 < a' < 2 ^ 48 ->
  a / 1000 = a' / 1000 ->
  date_range w (Some a) (Some b) = date_range w (Some a') (Some b) /\
  date_range w (Some b) (Some a) = date_range w (Some b) (Some a').
Proof.
  intros Ha Ha' Hr Hr' Hsame.
  destruct (Z.eq_dec b 0) as [-> | Hb].
  - rewrite !(date_range_one_absent w _ (Some 0)) by (right; right; right; reflexivity).
    rewrite !(date_range_one_absent w (Some 0)) by (right; left; reflexivity).
    split; reflexivity.
  - rewrite !date_range_supplied by assumption.
    rewrite (bound_text w a Ha Hr), (bound_text w a' Ha' Hr'), Hsame.
    split; reflexivity.
Qed.

Lemma milliseconds_dropped_witness :
  date_range (sample_world unreachable) (Some 1700000000000) (Some 1700086400000)
  = date_range (sample_world unreachable) (Some 1700000000999) (Some 1700086400000) /\
  date_range (sample_world unreachable) (Some 1700086400000) (Some 1700000000000)
  = date_range (sample_world unreachable) (Some 1700086400000) (Some 1700000000999).
Proof.
  apply (milliseconds_dropped (sample_world unreachable)
           1700000000000 1700000000999 1700086400000).
  - discriminate.
  - discriminate.
  - vm_compute. split; reflexivity.
  - vm_compute. split; reflexivity.
  - reflexivity.
Defined.

(** The length of the range is kept: when both bounds are supplied
    (within 8900 years of 1970) and the zone's UTC offset is the same at
    both instants, the local time sent as the end lies after the one sent
    as the start by the whole seconds between the two bounds. *)
Theorem range_length_kept (w : World) (a b : Z) (from_date to_date : datetime) :
  a <> 0 -> b <> 0 -> - 2 ^ 48 < a < 2 ^ 48 -> - 2 ^ 48 < b < 2 ^ 48 ->
  utcoffset w (a / 1000) = utcoffset w (b / 1000) ->
  date_window w (Some a) (Some b) = Ok (from_date, to_date) ->
  (ordinal to_date * 86400 + second_of_day to_date)
  - (ordinal from_date * 86400 + second_of_day from_date)
  = b / 1000 - a / 1000.
Proof.
  intros Ha Hb Hra Hrb Hoff. rewrite (supplied_window w a b Ha Hb). intros H.
  apply bind_ok in H. destruct H as (fa & Hfa & H).
  apply bind_ok in H. destruct H as (da & Hda & H).
  apply bind_ok in H. destruct H as (fb & Hfb & H).
  apply bind_ok in H. destruct H as (db & Hdb & H).
  injection H as <- <-.
  destruct (fromtimestamp_millis w a fa da Ha Hra Hfa Hda) as [Oa Sa].
  destruct (fromtimestamp_millis w b fb db Hb Hrb Hfb Hdb) as [Ob Sb].
  rewrite Oa, Sa, Ob, Sb, <- Hoff.
  pose proof (Z.div_mod (a / 1000 + utcoffset w (a / 1000)) 86400 ltac:(lia)).
  pose proof (Z.div_mod (b / 1000 + utcoffset w (a / 1000)) 86400 ltac:(lia)).
  lia.
Qed.

Lemma range_length_kept_witness :
  exists from_date to_date,
    date_window (sample_world unreachable) (Some 1700000000000) (Some 1700086400500)
    = Ok (from_date, to_date) /\
    (ordinal to_date * 86400 + second_of_day to_date)
    - (ordinal from_date * 86400 + second_of_day from_date) = 86400.
Proof.
  exists {| ordinal := 738838; second_of_day := 80000; microsecond := 0 |},
         {| ordinal := 738839; second_of_day := 80000; microsecond := 500000 |}.
  split; [vm_compute; reflexivity|].
  apply (range_length_kept (sample_world unreachable) 1700000000000 1700086400500).
  - discriminate.
  - discriminate.
  - vm_compute. split; reflexivity.
  - vm_compute. split; reflexivity.
  - reflexivity.
  - vm_compute. reflexivity.
Defined.

(** ** A bound beyond the calendar *)

Lemma local_beyond (w : World) (t : Z) :
  (forall t, - 86400 < utcoffset w t < 86400) ->
  253402387200 <= t \/ t <= -62135683200 ->
  local w t = Raise (Error YearOutOfRange).
Proof.
  intros Hoff Ht. unfold local. specialize (Hoff t).
  destruct ((1 <=? (t + utcoffset w t) / 86400 + epoch_ordinal)
            && ((t + utcoffset w t) / 86400 + epoch_ordinal <=? max_ordinal)) eqn:E;
    [|reflexivity].
  apply andb_true_iff in E. destruct E as [E1 E2].
  apply Z.leb_le in E1, E2. unfold epoch_ordinal, max_ordinal in *.
  exfalso. destruct Ht as [Ht | Ht].
  - assert (2932897 <= (t + utcoffset w t) / 86400)
      by (apply Z.div_le_lower_bound; lia). lia.
  - assert ((t + utcoffset w t) / 86400 < -719162)
      by (apply Z.div_lt_upper_bound; lia). lia.
Qed.

Lemma bound_beyond (w : World) (a : Z) :
  (forall t, - 86400 < utcoffset w t < 86400) ->
  253402387200000 <= a < 2 ^ 48 \/ - 2 ^ 48 < a <= -62135683200000 ->
  exists fa, int_truediv a 1000 = Ok fa /\
             fromtimestamp w fa = Raise (Error YearOutOfRange).
Proof.
  intros Hoff Ha.
  destruct (timeval_of_quotient a ltac:(lia) ltac:(lia)) as (fa & us & Hfa & Htv & _).
  exists fa. split; [exact Hfa|].
  unfold fromtimestamp. rewrite Htv. cbn [bind].
  unfold datetime_from_timet_and_us.
  rewrite (local_beyond w (a / 1000) Hoff); [reflexivity|].
  destruct Ha as [Ha | Ha]; [left | right].
  - apply Z.div_le_lower_bound; lia.
  - assert (a / 1000 < -62135683199) by (apply Z.div_lt_upper_bound; lia). lia.
Qed.

(** A bound that lies beyond the calendar of years 1 to 9999 (from
    10000-01-02 on, or before 0000-12-31, within 8900 years of 1970) is not
    refused with a detail: whenever the symbol is known and both bounds are
    supplied, one such bound makes [fromtimestamp] fail outside every
    handler, and the request is answered with the bare 500, whatever the
    interval and the vendor. *)
Theorem bound_beyond_calendar (w : World) (symbol interval : pystr) (a b : Z)
    (row : Instrument) :
  find_instrument w symbol = Ok row ->
  (forall t, - 86400 < utcoffset w t < 86400) ->
  b <> 0 ->
  253402387200000 <= a < 2 ^ 48 \/ - 2 ^ 48 < a <= -62135683200000 ->
  serve w symbol interval (Some a) (Some b) = bare_500 /\
  serve w symbol interval (Some b) (Some a) = bare_500.
Proof.
  intros Hrow Hoff Hb Ha.
  assert (Ha0 : a <> 0) by lia.
  destruct (bound_beyond w a Hoff Ha) as (fa & Hfa & Hraise).
  assert (H1 : exists f, date_range w (Some a) (Some b) = Raise (Error f)).
  { rewrite (date_range_supplied w a b Ha0 Hb), Hfa. cbn [bind].
    rewrite Hraise. cbn [bind]. eauto. }
  assert (H2 : exists f, date_range w (Some b) (Some a) = Raise (Error f)).
  { destruct (date_range w (Some b) (Some a)) as [[x y]|e] eqn:E.
    - exfalso. rewrite (date_range_supplied w b a Hb Ha0) in E.
      apply bind_ok in E. destruct E as (x' & _ & E).
      apply bind_ok in E. destruct E as (y' & E & _).
      rewrite Hfa in E. cbn [bind] in E. rewrite Hraise in E. discriminate.
    - destruct (date_range_raises _ _ _ _ E) as (f & ->). eauto. }
  destruct H1 as (f1 & H1). destruct H2 as (f2 & H2).
  unfold serve, get_klines. rewrite Hrow, H1, H2. split; reflexivity.
Qed.

Lemma bound_beyond_calendar_witness :
  serve (sample_world unreachable) (lit "TCS") (lit "5m")
    (Some 253402387200000) (Some 1700000000000) = bare_500 /\
  serve (sample_world unreachable) (lit "TCS") (lit "5m")
    (Some 1700000000000) (Some 253402387200000) = bare_500.
Proof.
  apply (bound_beyond_calendar (sample_world unreachable) (lit "TCS") (lit "5m")
           253402387200000 1700000000000 TCS).
  - reflexivity.
  - intros t. simpl. lia.
  - discriminate.
  - left. vm_compute. split; [discriminate | reflexivity].
Defined.

(** ** The normalized interval *)

Lemma filter_idempotent {A} (f : A -> bool) (xs : list A) :
  filter f (filter f xs) = filter f xs.
Proof.
  induction xs as [|x xs IH]; [reflexivity|].
  simpl. destruct (f x) eqn:E; [|exact IH].
  simpl. rewrite E, IH. reflexivity.
Qed.

Lemma filter_all {A} (f : A -> bool) (xs : list A) :
  Forall (fun x => f x = true) (filter f xs).
Proof.
  apply Forall_forall. intros x Hx. apply filter_In in Hx. tauto.
Qed.

(** The interval sent to the vendor is in normal form: it is not
    empty, each of its characters is one [str.isdigit] accepts, it is no
    longer than the interval received, and normalizing it again gives it
    back; characters that are no digits, put before, between or after,
    change nothing, so 5m, 5h and m5 are all sent as 5. *)
Theorem interval_normal_form (w : World) (interval p : pystr) :
  parse_interval w interval = Ok p ->
  p <> [] /\
  Forall (fun c => isdigit (unicode w) c = true) p /\
  (List.length p <= List.length interval)%nat /\
  parse_interval w p = Ok p /\
  forall before after,
    filter (isdigit (unicode w)) before = [] ->
    filter (isdigit (unicode w)) after = [] ->
    parse_interval w (before ++ interval ++ after) = Ok p.
Proof.
  intros H. destruct (parse_interval_digits w interval p H) as [-> Hne].
  split; [exact Hne|]. split; [apply filter_all|].
  split; [apply filter_length_le|].
  split.
  - rewrite parse_interval_eq, filter_idempotent.
    destruct (filter (isdigit (unicode w)) interval); [congruence | reflexivity].
  - intros before after Hb Ha.
    rewrite parse_interval_eq, !filter_app, Hb, Ha, app_nil_r. cbn [Datatypes.app].
    destruct (filter (isdigit (unicode w)) interval); [congruence | reflexivity].
Qed.

Lemma interval_normal_form_witness :
  parse_interval (sample_world unreachable) (lit "15min") = Ok (lit "15") /\
  parse_interval (sample_world unreachable) (lit "15") = Ok (lit "15") /\
  parse_interval (sample_world unreachable) (lit "every " ++ lit "15min" ++ lit "utes")
  = Ok (lit "15").
Proof.
  split; [reflexivity|].
  destruct (interval_normal_form (sample_world unreachable) (lit "15min") (lit "15")
              eq_refl) as (_ & _ & _ & Hagain & Haround).
  split; [exact Hagain|].
  apply Haround; reflexivity.
Defined.

(** ** The date text and the calendar *)

Lemma month_and_day_inverse (n : Z) (leapyear : bool) :
  0 <= n < 365 ->
  let '(month, day) := month_and_day n leapyear in
  days_before_month month + b2z ((2 <? month) && leapyear) + day = n + 1.
Proof.
  intros Hn.
  assert (H : (let '(month, day) := month_and_day n leapyear in
               days_before_month month + b2z ((2 <? month) && leapyear) + day
               =? n + 1) = true).
  { destruct leapyear.
    - apply (forall_below
               (fun n => let '(month, day) := month_and_day n true in
                         days_before_month month + b2z ((2 <? month) && true) + day
                         =? n + 1) 365); [vm_compute; reflexivity | exact Hn].
    - apply (forall_below
               (fun n => let '(month, day) := month_and_day n false in
                         days_before_month month + b2z ((2 <? month) && false) + day
                         =? n + 1) 365); [vm_compute; reflexivity | exact Hn]. }
  destruct (month_and_day n leapyear) as [month day].
  apply Z.eqb_eq in H. exact H.
Qed.

Lemma ord2ymd_inverse (ord : Z) :
  1 <= ord ->
  let '(year, month, day) := ord2ymd ord in
  ymd2ord year month day = ord.
Proof.
  intros Hord. unfold ord2ymd.
  set (n := ord - 1).
  set (n400 := n / 146097).
  set (r1 := n mod 146097).
  set (n100 := r1 / 36524).
  set (r2 := r1 mod 36524).
  set (n4 := r2 / 1461).
  set (r3 := r2 mod 1461).
  set (n1 := r3 / 365).
  set (r4 := r3 mod 365).
  assert (Hn : 0 <= n) by (unfold n; lia).
  assert (E1 : n = 146097 * n400 + r1 /\ 0 <= r1 < 146097)
    by (unfold n400, r1; split; [apply Z.div_mod; lia | apply Z.mod_pos_bound; lia]).
  assert (E2 : r1 = 36524 * n100 + r2 /\ 0 <= r2 < 36524)
    by (unfold n100, r2; split; [apply Z.div_mod; lia | apply Z.mod_pos_bound; lia]).
  assert (E3 : r2 = 1461 * n4 + r3 /\ 0 <= r3 < 1461)
    by (unfold n4, r3; split; [apply Z.div_mod; lia | apply Z.mod_pos_bound; lia]).
  assert (E4 : r3 = 365 * n1 + r4 /\ 0 <= r4 < 365)
    by (unfold n1, r4; split; [apply Z.div_mod; lia | apply Z.mod_pos_bound; lia]).
  assert (B400 : 0 <= n400) by (unfold n400; apply Z.div_pos; lia).
  assert (B100 : 0 <= n100 <= 4) by lia.
  assert (B4 : 0 <= n4 <= 24) by lia.
  assert (B1 : 0 <= n1 <= 4) by lia.
  clearbody n400 r1 n100 r2 n4 r3 n1 r4.
  destruct E1 as [E1 R1], E2 as [E2 R2], E3 as [E3 R3], E4 as [E4 R4].
  destruct ((n1 =? 4) || (n100 =? 4)) eqn:Last.
  - (* the last day of a leap year *)
    unfold ymd2ord, is_leap.
    change (days_before_month 12) with 334. change (2 <? 12) with true.
    cbn [andb].
    apply orb_true_iff in Last.
    set (y := n400 * 400 + 1 + n100 * 100 + n4 * 4 + n1 - 1).
    assert (Hy : n100 = 4 /\ n4 = 0 /\ n1 = 0 /\ r4 = 0
                 \/ n100 <= 3 /\ n4 <= 23 /\ n1 = 4 /\ r4 = 0)
      by (destruct Last as [L | L]; apply Z.eqb_eq in L; lia).
    assert (Q4 : (y - 1) / 4 = 100 * n400 + 25 * n100 + n4 + (if n100 =? 4 then -1 else 0)
                 /\ y mod 4 = 0).
    { destruct Hy as [Hy | Hy].
      - replace (n100 =? 4) with true by (symmetry; apply Z.eqb_eq; lia).
        split.
        + symmetry. apply (Z.div_unique _ _ _ 3); lia.
        + symmetry. apply (Z.mod_unique _ _ (100 * n400 + 100)); lia.
      - replace (n100 =? 4) with false by (symmetry; apply Z.eqb_neq; lia).
        split.
        + symmetry. apply (Z.div_unique _ _ _ 3); lia.
        + symmetry. apply (Z.mod_unique _ _ (100 * n400 + 25 * n100 + n4 + 1)); lia. }
    destruct Q4 as [Q4 M4]. rewrite M4. change (0 =? 0) with true. cbn [andb].
    destruct Hy as [Hy | Hy].
    + assert (M400 : y mod 400 = 0)
        by (symmetry; apply (Z.mod_unique _ _ (n400 + 1)); lia).
      rewrite M400. change (0 =? 0) with true. rewrite orb_true_r.
      assert (Q100 : (y - 1) / 100 = 4 * n400 + 3)
        by (symmetry; apply (Z.div_unique _ _ _ 99); lia).
      assert (Q400 : (y - 1) / 400 = n400)
        by (symmetry; apply (Z.div_unique _ _ _ 399); lia).
      rewrite Q4, Q100, Q400.
      replace (n100 =? 4) with true by (symmetry; apply Z.eqb_eq; lia).
      unfold b2z. unfold y, n in *. lia.
    + assert (M100 : y mod 100 <> 0).
      { intros H0.
        assert (y mod 100 = 4 * n4 + 4)
          by (symmetry; apply (Z.mod_unique _ _ (4 * n400 + n100)); lia).
        lia. }
      apply Z.eqb_neq in M100. rewrite M100. cbn [negb orb].
      assert (Q100 : (y - 1) / 100 = 4 * n400 + n100)
        by (symmetry; apply (Z.div_unique _ _ _ (4 * n4 + 3)); lia).
      assert (Q400 : (y - 1) / 400 = n400)
        by (symmetry; apply (Z.div_unique _ _ _ (100 * n100 + 4 * n4 + 3)); lia).
      rewrite Q4, Q100, Q400.
      replace (n100 =? 4) with false by (symmetry; apply Z.eqb_neq; lia).
      unfold b2z. unfold y, n in *. lia.
  - apply orb_false_iff in Last. destruct Last as [L1 L100].
    apply Z.eqb_neq in L1, L100.
    set (leapyear := (n1 =? 3) && (negb (n4 =? 24) || (n100 =? 3))).
    pose proof (month_and_day_inverse r4 leapyear R4) as Hmd.
    destruct (month_and_day r4 leapyear) as [month day].
    set (year := n400 * 400 + 1 + n100 * 100 + n4 * 4 + n1).
    unfold ymd2ord.
    assert (Q4 : (year - 1) / 4 = 100 * n400 + 25 * n100 + n4)
      by (symmetry; apply (Z.div_unique _ _ _ n1); unfold year; lia).
    assert (Q100 : (year - 1) / 100 = 4 * n400 + n100)
      by (symmetry; apply (Z.div_unique _ _ _ (4 * n4 + n1)); unfold year; lia).
    assert (Q400 : (year - 1) / 400 = n400)
      by (symmetry; apply (Z.div_unique _ _ _ (100 * n100 + 4 * n4 + n1));
          unfold year; lia).
    assert (Hleap : is_leap year = leapyear).
    { unfold is_leap, leapyear.
      assert (M4 : year mod 4 = (n1 + 1) mod 4).
      { unfold year.
        replace (n400 * 400 + 1 + n100 * 100 + n4 * 4 + n1)
          with (n1 + 1 + (100 * n400 + 25 * n100 + n4) * 4) by lia.
        apply Z.mod_add. lia. }
      assert (M100 : year mod 100 = (4 * n4 + n1 + 1) mod 100).
      { unfold year.
        replace (n400 * 400 + 1 + n100 * 100 + n4 * 4 + n1)
          with (4 * n4 + n1 + 1 + (4 * n400 + n100) * 100) by lia.
        apply Z.mod_add. lia. }
      assert (M400 : year mod 400 = (100 * n100 + 4 * n4 + n1 + 1) mod 400).
      { unfold year.
        replace (n400 * 400 + 1 + n100 * 100 + n4 * 4 + n1)
          with (100 * n100 + 4 * n4 + n1 + 1 + n400 * 400) by lia.
        apply Z.mod_add. lia. }
      rewrite M4, M100, M400.
      assert (C1 : n1 = 0 \/ n1 = 1 \/ n1 = 2 \/ n1 = 3) by lia.
      destruct (Z.eq_dec n1 3) as [-> | N3].
      - change ((3 + 1) mod 4 =? 0) with true. change (3 =? 3) with true.
        cbn [andb].
        destruct (Z.eq_dec n4 24) as [-> | N24].
        + change (4 * 24 + 3 + 1) with 100. change (100 mod 100 =? 0) with true.
          change (24 =? 24) with true. cbn [negb orb].
          assert (C100 : n100 = 0 \/ n100 = 1 \/ n100 = 2 \/ n100 = 3) by lia.
          destruct C100 as [-> | [-> | [-> | ->]]]; reflexivity.
        + replace (n4 =? 24) with false by (symmetry; apply Z.eqb_neq; lia).
          cbn [negb orb].
          replace ((4 * n4 + 3 + 1) mod 100 =? 0) with false; [reflexivity|].
          symmetry. apply Z.eqb_neq. rewrite Z.mod_small by lia. lia.
      - replace (n1 =? 3) with false by (symmetry; apply Z.eqb_neq; lia).
        replace ((n1 + 1) mod 4 =? 0) with false; [reflexivity|].
        symmetry. apply Z.eqb_neq. rewrite Z.mod_small by lia. lia. }
    rewrite Hleap, Q4, Q100, Q400. unfold year, n in *. lia.
Qed.

Lemma ord2ymd_injective (a b : Z) :
  1 <= a -> 1 <= b -> ord2ymd a = ord2ymd b -> a = b.
Proof.
  intros Ha Hb H.
  pose proof (ord2ymd_inverse a Ha) as Ia.
  pose proof (ord2ymd_inverse b Hb) as Ib.
  rewrite H in Ia. destruct (ord2ymd b) as [[y m] d]. congruence.
Qed.

Lemma uint_chars_digits (d : Decimal.uint) :
  Forall (fun c => is_ascii_digit c = true) (uint_chars d).
Proof. induction d; simpl; constructor; (reflexivity || assumption). Qed.

Lemma int_str_nonneg (n : Z) :
  0 <= n ->
  exists d, d <> Nil /\ int_str n = uint_chars d /\ Z.of_N (Pos.of_uint d) = n.
Proof.
  intros Hn. unfold int_str. destruct n as [|p|p]; [| |lia]; cbn [Z.to_int].
  - exists (D0 Nil). repeat split. discriminate.
  - exists (Pos.to_uint p). split; [apply DecimalPos.Unsigned.to_uint_nonnil|].
    split; [reflexivity|]. rewrite DecimalPos.Unsigned.of_to. reflexivity.
Qed.

Lemma zeros_uint_chars (k : nat) (d : Decimal.uint) :
  repeat 48 k ++ uint_chars d = uint_chars (Nat.iter k D0 d) /\
  Pos.of_uint (Nat.iter k D0 d) = Pos.of_uint d /\
  (d <> Nil -> Nat.iter k D0 d <> Nil).
Proof.
  induction k as [|k (IH1 & IH2 & IH3)]; [repeat split; auto|].
  cbn [repeat Datatypes.app Nat.iter uint_chars Pos.of_uint]. rewrite IH1.
  repeat split; [exact IH2 | discriminate].
Qed.

(** A padded number is made of digits, and [int] reads the number back. *)
Lemma pad_digits (width : nat) (n : Z) :
  0 <= n ->
  Forall (fun c => is_ascii_digit c = true) (pad width n) /\
  int_of_ascii (pad width n) = Some n.
Proof.
  intros Hn. unfold pad.
  destruct (int_str_nonneg n Hn) as (d & Hd & -> & Hval).
  destruct (zeros_uint_chars (width - List.length (uint_chars d)) d) as (-> & Hof & Hnil).
  split; [apply uint_chars_digits|].
  rewrite (proj1 (int_of_ascii_uint _ (Hnil Hd))), Hof, Hval. reflexivity.
Qed.

Lemma int_str_digits (n : Z) :
  0 <= n -> Forall (fun c => is_ascii_digit c = true) (int_str n).
Proof.
  intros Hn. destruct (int_str_nonneg n Hn) as (d & _ & -> & _).
  apply uint_chars_digits.
Qed.

Lemma digits_without (sep : codepoint) (s : pystr) :
  is_ascii_digit sep = false ->
  Forall (fun c => is_ascii_digit c = true) s -> ~ In sep s.
Proof.
  intros Hsep Hs Hin. rewrite Forall_forall in Hs.
  specialize (Hs sep Hin). congruence.
Qed.

(** Two texts cut at the first separator. *)
Lemma split_at_separator (sep : codepoint) (a a' b b' : pystr) :
  ~ In sep a -> ~ In sep a' ->
  a ++ sep :: b = a' ++ sep :: b' -> a = a' /\ b = b'.
Proof.
  revert a'. induction a as [|x a IH]; intros a' Ha Ha' H.
  - destruct a' as [|x' a']; simpl in H.
    + injection H as <-. split; reflexivity.
    + injection H as <- _. exfalso. apply Ha'. left. reflexivity.
  - destruct a' as [|x' a']; simpl in H.
    + injection H as -> _. exfalso. apply Ha. left. reflexivity.
    + injection H as <- H.
      destruct (IH a') as [-> ->]; [| |exact H|split; reflexivity].
      * intros Hin. apply Ha. right. exact Hin.
      * intros Hin. apply Ha'. right. exact Hin.
Qed.

Lemma pad_injective (width : nat) (n m : Z) :
  0 <= n -> 0 <= m -> pad width n = pad width m -> n = m.
Proof.
  intros Hn Hm H.
  pose proof (proj2 (pad_digits width n Hn)) as En.
  pose proof (proj2 (pad_digits width m Hm)) as Em.
  rewrite H in En. congruence.
Qed.

Lemma year_text_digits (w : World) (year : Z) :
  0 <= year ->
  Forall (fun c => is_ascii_digit c = true)
         (if pads_year w then pad 4 year else int_str year) /\
  int_of_ascii (if pads_year w then pad 4 year else int_str year) = Some year.
Proof.
  intros Hy. destruct (pads_year w).
  - apply pad_digits. exact Hy.
  - split; [apply int_str_digits; exact Hy | apply int_of_ascii_int_str].
Qed.

(** The date text tells the local second: two datetimes within the
    years 1 to 9999 are written as the same text only when they show the
    same day and the same second of that day (the microseconds alone are
    not written). So the range the vendor reads is the range that was
    resolved. *)
Theorem date_text_injective (w : World) (d1 d2 : datetime) :
  valid_datetime d1 -> valid_datetime d2 ->
  strftime w d1 = strftime w d2 ->
  ordinal d1 = ordinal d2 /\ second_of_day d1 = second_of_day d2.
Proof.
  intros [Ho1 Hs1] [Ho2 Hs2]. unfold strftime.
  pose proof (ord2ymd_year (ordinal d1) Ho1) as Y1.
  pose proof (ord2ymd_year (ordinal d2) Ho2) as Y2.
  pose proof (ord2ymd_injective (ordinal d1) (ordinal d2)) as Hinj.
  assert (M1 : let '(_, month, day) := ord2ymd (ordinal d1) in
               0 <= month /\ 0 <= day).
  { unfold ord2ymd.
    destruct ((_ =? 4) || (_ =? 4)); [lia|].
    match goal with
    | |- context [month_and_day ?n ?l] =>
        pose proof (month_and_day_bounds n l ltac:(apply Z.mod_pos_bound; lia));
        destruct (month_and_day n l)
    end. lia. }
  assert (M2 : let '(_, month, day) := ord2ymd (ordinal d2) in
               0 <= month /\ 0 <= day).
  { unfold ord2ymd.
    destruct ((_ =? 4) || (_ =? 4)); [lia|].
    match goal with
    | |- context [month_and_day ?n ?l] =>
        pose proof (month_and_day_bounds n l ltac:(apply Z.mod_pos_bound; lia));
        destruct (month_and_day n l)
    end. lia. }
  destruct (ord2ymd (ordinal d1)) as [[y1 m1] dd1].
  destruct (ord2ymd (ordinal d2)) as [[y2 m2] dd2].
  set (s1 := second_of_day d1) in *. set (s2 := second_of_day d2) in *.
  intros H.
  destruct (year_text_digits w y1 ltac:(lia)) as [Dy1 Iy1].
  destruct (year_text_digits w y2 ltac:(lia)) as [Dy2 Iy2].
  cbn [Datatypes.app] in H.
  apply split_at_separator in H;
    [| apply digits_without; [reflexivity | exact Dy1]
     | apply digits_without; [reflexivity | exact Dy2]].
  destruct H as [Hy H].
  apply split_at_separator in H;
    [| apply digits_without; [reflexivity | apply pad_digits; lia]
     | apply digits_without; [reflexivity | apply pad_digits; lia]].
  destruct H as [Hm H].
  apply split_at_separator in H;
    [| apply digits_without; [reflexivity | apply pad_digits; lia]
     | apply digits_without; [reflexivity | apply pad_digits; lia]].
  destruct H as [Hd H].
  assert (Hh1 : 0 <= s1 / 3600) by (apply Z.div_pos; lia).
  assert (Hh2 : 0 <= s2 / 3600) by (apply Z.div_pos; lia).
  assert (Hmi1 : 0 <= s1 / 60 mod 60) by (apply Z.mod_pos_bound; lia).
  assert (Hmi2 : 0 <= s2 / 60 mod 60) by (apply Z.mod_pos_bound; lia).
  assert (Hss1 : 0 <= s1 mod 60) by (apply Z.mod_pos_bound; lia).
  assert (Hss2 : 0 <= s2 mod 60) by (apply Z.mod_pos_bound; lia).
  apply split_at_separator in H;
    [| apply digits_without; [reflexivity | apply pad_digits; lia]
     | apply digits_without; [reflexivity | apply pad_digits; lia]].
  destruct H as [Hh H].
  apply split_at_separator in H;
    [| apply digits_without; [reflexivity | apply pad_digits; lia]
     | apply digits_without; [reflexivity | apply pad_digits; lia]].
  destruct H as [Hmi Hss].
  apply pad_injective in Hm, Hd, Hh, Hmi, Hss; try lia.
  assert (Hyear : Some y1 = Some y2)
    by (rewrite <- Iy1, <- Iy2; f_equal; exact Hy).
  injection Hyear as Hyear.
  split.
  - apply Hinj; [lia | lia | congruence].
  - pose proof (Z.div_mod s1 60 ltac:(lia)).
    pose proof (Z.div_mod s2 60 ltac:(lia)).
    pose proof (Z.div_mod (s1 / 60) 60 ltac:(lia)).
    pose proof (Z.div_mod (s2 / 60) 60 ltac:(lia)).
    assert (E1 : s1 / 3600 = s1 / 60 / 60) by (rewrite Z.div_div by lia; reflexivity).
    assert (E2 : s2 / 3600 = s2 / 60 / 60) by (rewrite Z.div_div by lia; reflexivity).
    lia.
Qed.

Lemma date_text_injective_witness :
  ordinal {| ordinal := 738838; second_of_day := 80000; microsecond := 0 |}
  = ordinal {| ordinal := 738838; second_of_day := 80000; microsecond := 999999 |} /\
  second_of_day {| ordinal := 738838; second_of_day := 80000; microsecond := 0 |}
  = second_of_day {| ordinal := 738838; second_of_day := 80000; microsecond := 999999 |}.
Proof.
  apply (date_text_injective (sample_world unreachable)).
  - unfold valid_datetime, max_ordinal. simpl. lia.
  - unfold valid_datetime, max_ordinal. simpl. lia.
  - reflexivity.
Defined.

(** ** The shape of what is returned *)

(** Whatever the vendor sends, a list returned by the endpoint holds
    nothing but kline rows: each has exactly six items, an integer that is
    a multiple of 1000 and five texts. No number other than the open time,
    no null and no nested value ever reaches the client in a 200 answer. *)
Theorem rows_shape (w : World) (symbol interval : pystr) (st et : option Z)
    (v : value) :
  get_klines w symbol interval st et = Ok v ->
  exists rows, v = VList rows /\ forallb kline_shape rows = true.
Proof.
  intros H. unfold get_klines in H.
  apply bind_ok in H. destruct H as (row & _ & H).
  apply bind_ok in H. destruct H as ([from_str to_str] & _ & H).
  apply bind_ok in H. destruct H as (p & _ & H).
  apply bind_ok in H. destruct H as (response & _ & H).
  apply bind_ok in H. destruct H as (d & _ & H).
  destruct (transform_ok_list _ _ _ H) as (rows & ->).
  destruct (transform_ok_columns _ _ _ H) as (ts & o & h & l & c & x & Hd).
  destruct (transform_returns w d ts o h l c x rows Hd H) as [Hlen Hrows].
  exists rows. split; [reflexivity|].
  apply forallb_forall. intros r Hr.
  destruct (In_nth rows r VNone Hr) as (i & Hi & <-).
  rewrite Hlen in Hi. destruct (Hrows i Hi) as (n & _ & ->).
  unfold row_at, kline_shape. rewrite Z.mod_mul by lia. reflexivity.
Qed.

Lemma rows_shape_witness :
  exists rows,
    VList
      [VList [VInt 1700000000000; VStr (lit "100.5"); VStr (lit "102");
              VStr (lit "99.8"); VStr (lit "101"); VStr (lit "2000")];
       VList [VInt 1700000060000; VStr (lit "101"); VStr (lit "101.25");
              VStr (lit "100"); VStr (lit "101"); VStr (lit "1500")]]
    = VList rows /\ forallb kline_shape rows = true.
Proof.
  apply (rows_shape (sample_world only_tcs_nse) (lit "TCS") (lit "5m") None None).
  vm_compute. reflexivity.
Defined.

Example root_answer :
  respond read_root
  = {| status := 200;
       body := JsonBody (VDict [(lit "message",
                 VStr (lit "DhanHQ Historical Data API Proxy is running."))]) |}.
Proof. reflexivity. Qed.

(** ** When the request succeeds *)

Lemma existsb_filter {A} (f : A -> bool) (xs : list A) :
  existsb f xs = true -> filter f xs <> [].
Proof.
  induction xs as [|x xs IH]; [discriminate|].
  simpl. destruct (f x); [discriminate | exact IH].
Qed.

Lemma date_range_returns (w : World) (st et : option Z) :
  (forall t, - 86400 < utcoffset w t < 86400) ->
  0 <= fst (clock w) <= 250000000000 ->
  resolvable st et ->
  exists from_str to_str, date_range w st et = Ok (from_str, to_str).
Proof.
  intros Hoff Hclock Hres.
  assert (H : exists from_date to_date, date_window w st et = Ok (from_date, to_date)).
  { destruct Hres as [Hnot | (a & b & -> & -> & Ha & Hb)].
    - rewrite (default_window w st et Hnot).
      rewrite <- (default_window w None None) by (left; reflexivity).
      apply default_window_returns; assumption.
    - apply supplied_window_returns; assumption. }
  destruct H as (from_date & to_date & H).
  unfold date_range. rewrite H. cbn [bind]. eauto.
Qed.

(** *** What [repr] writes can be encoded *)

Lemma encodable_app (a b : pystr) :
  encodable (a ++ b) = encodable a && encodable b.
Proof. apply forallb_app. Qed.

Lemma low_encodable (s : pystr) :
  Forall (fun c => c < 127) s -> encodable s = true.
Proof.
  intros H. apply forallb_forall. intros c Hc.
  rewrite Forall_forall in H. specialize (H c Hc).
  unfold is_surrogate. destruct (55296 <=? c) eqn:E; [|reflexivity].
  apply Z.leb_le in E. lia.
Qed.

Lemma format_digits_low (ds : pystr) (decpt : Z) :
  Forall (fun c => c < 127) ds -> Forall (fun c => c < 127) (format_digits ds decpt).
Proof.
  intros Hds. unfold format_digits.
  assert (Hzeros : forall n, Forall (fun c => c < 127) (zeros n)).
  { intros n. unfold zeros. apply Forall_forall. intros c Hc.
    apply repeat_spec in Hc. lia. }
  destruct ((decpt <=? -4) || (16 <? decpt)).
  - apply Forall_app. split.
    + destruct ds as [|d0 [|d1 r]]; [constructor | exact Hds |].
      inversion Hds as [|? ? H0 H1]; subst.
      constructor; [exact H0|]. constructor; [lia | exact H1].
    + apply Forall_app. split.
      * constructor; [lia|]. constructor; [|constructor].
        destruct (decpt - 1 <? 0); lia.
      * destruct (Z.abs (decpt - 1) <? 10);
          [constructor; [lia|]|]; apply int_str_low.
  - destruct (decpt <=? 0).
    + apply Forall_app. split; [repeat constructor; lia|].
      apply Forall_app. split; [apply Hzeros | exact Hds].
    + destruct (Z.of_nat (List.length ds) <=? decpt).
      * apply Forall_app. split; [exact Hds|].
        apply Forall_app. split; [apply Hzeros | repeat constructor; lia].
      * rewrite <- (firstn_skipn (Z.to_nat decpt) ds) in Hds.
        apply Forall_app in Hds. destruct Hds as [H1 H2].
        apply Forall_app. split; [exact H1|]. constructor; [lia | exact H2].
Qed.

Lemma float_digits_low (m : positive) (e : Z) :
  Forall (fun c => c < 127) (fst (float_digits m e)).
Proof.
  unfold float_digits.
  destruct (canon m e) as [cm ce].
  destruct (shortest _ _ _ _) as [d q].
  destruct (d =? 10 ^ _); cbn [fst]; [repeat constructor; lia | apply int_str_low].
Qed.

Lemma float_repr_low (f : float) : Forall (fun c => c < 127) (float_repr f).
Proof.
  destruct f as [s|s| |s m e]; cbn [float_repr].
  - destruct s; vm_compute; repeat constructor.
  - destruct s; vm_compute; repeat constructor.
  - vm_compute; repeat constructor.
  - pose proof (float_digits_low m e) as H.
    destruct (float_digits m e) as [ds decpt]. cbn [fst] in H.
    apply Forall_app. split; [destruct s; repeat constructor; lia|].
    apply format_digits_low. exact H.
Qed.

Lemma hex_low (n : nat) (c : Z) : Forall (fun x => x < 127) (hex n c).
Proof.
  revert c. induction n as [|n IH]; intros c; [constructor|].
  cbn [hex]. apply Forall_app. split; [apply IH|].
  constructor; [|constructor].
  pose proof (Z.mod_pos_bound c 16 ltac:(lia)).
  unfold hex_digit. destruct (c mod 16 <? 10); lia.
Qed.

Lemma escape_encodable (u : Unicode) (quote c : codepoint) :
  quote < 127 -> encodable (escape u quote c) = true.
Proof.
  intros Hq. unfold escape.
  assert (Hlow : forall a, a < 127 -> negb (is_surrogate a) = true).
  { intros a Ha. unfold is_surrogate.
    destruct (55296 <=? a) eqn:E; [apply Z.leb_le in E; lia | reflexivity]. }
  assert (Hhex : forall n a b, encodable ([a; b] ++ hex n c)
                               = negb (is_surrogate a) && (negb (is_surrogate b) && true)).
  { intros n a b. rewrite encodable_app.
    rewrite (low_encodable (hex n c) (hex_low n c)).
    cbn [encodable forallb]. rewrite !andb_true_r. reflexivity. }
  destruct ((c =? quote) || (c =? 92)) eqn:E1.
  { cbn [encodable forallb]. rewrite andb_true_r.
    apply orb_true_iff in E1. rewrite Hlow by lia.
    destruct E1 as [E | E]; apply Z.eqb_eq in E; rewrite Hlow by lia; reflexivity. }
  destruct (c =? 9); [reflexivity|].
  destruct (c =? 10); [reflexivity|].
  destruct (c =? 13); [reflexivity|].
  destruct ((c <? 32) || (c =? 127)); [rewrite Hhex; reflexivity|].
  destruct (c <? 127) eqn:E2.
  { apply Z.ltb_lt in E2. cbn [encodable forallb]. rewrite Hlow by lia. reflexivity. }
  destruct (isprintable u c) eqn:E3.
  { cbn [encodable forallb]. rewrite andb_true_r.
    unfold isprintable in E3. destruct (c <? 256) eqn:E4.
    - apply Z.ltb_lt in E4. unfold is_surrogate.
      destruct (55296 <=? c) eqn:E5; [apply Z.leb_le in E5; lia | reflexivity].
    - apply andb_true_iff in E3. tauto. }
  destruct (c <=? 255); [rewrite Hhex; reflexivity|].
  destruct (c <=? 65535); rewrite Hhex; reflexivity.
Qed.

Lemma str_repr_encodable (u : Unicode) (s : pystr) : encodable (str_repr u s) = true.
Proof.
  unfold str_repr.
  set (quote := if existsb (Z.eqb 39) s && negb (existsb (Z.eqb 34) s) then 34 else 39).
  assert (Hq : quote < 127) by (unfold quote; destruct (_ && _); lia).
  assert (Hqe : negb (is_surrogate quote) = true).
  { unfold quote. destruct (_ && _); reflexivity. }
  clearbody quote.
  change (quote :: flat_map (escape u quote) s ++ [quote])
    with ([quote] ++ flat_map (escape u quote) s ++ [quote]).
  rewrite !encodable_app. cbn [encodable forallb]. rewrite Hqe. cbn [andb].
  rewrite andb_true_r.
  induction s as [|c r IH]; [reflexivity|].
  cbn [flat_map]. change (forallb (fun c0 => negb (is_surrogate c0))) with encodable.
  rewrite encodable_app, (escape_encodable u quote c Hq). exact IH.
Qed.

Lemma join_encodable (sep : pystr) (parts : list pystr) :
  encodable sep = true ->
  Forall (fun p => encodable p = true) parts ->
  encodable (join sep parts) = true.
Proof.
  intros Hsep H. induction H as [|p rest Hp Hrest IH]; [reflexivity|].
  destruct rest as [|q rest']; [exact Hp|].
  change (join sep (p :: q :: rest')) with (p ++ sep ++ join sep (q :: rest')).
  rewrite !encodable_app, Hp, Hsep, IH. reflexivity.
Qed.

(** [repr] escapes the surrogates of the strings it quotes. *)
Lemma py_repr_encodable (u : Unicode) : forall v, encodable (py_repr u v) = true.
Proof.
  fix IH 1. intros [ | b | n | f | s | items | items].
  - reflexivity.
  - destruct b; reflexivity.
  - apply low_encodable, int_str_low.
  - apply low_encodable, float_repr_low.
  - apply str_repr_encodable.
  - cbn [py_repr]. rewrite !encodable_app.
    change (encodable [91]) with true. change (encodable [93]) with true.
    cbn [andb]. rewrite andb_true_r.
    apply join_encodable; [reflexivity|].
    revert items. fix aux 1. intros [|x r]; cbn [map]; constructor.
    + apply IH.
    + apply aux.
  - cbn [py_repr]. rewrite !encodable_app.
    change (encodable [123]) with true. change (encodable [125]) with true.
    cbn [andb]. rewrite andb_true_r.
    apply join_encodable; [reflexivity|].
    revert items. fix aux 1. intros [|[k x] r]; cbn [map]; constructor.
    + rewrite !encodable_app, str_repr_encodable, IH. reflexivity.
    + apply aux.
Qed.

Lemma py_str_encodable (u : Unicode) (x : value) :
  (forall s, x = VStr s -> encodable s = true) -> encodable (py_str u x) = true.
Proof.
  intros H. destruct x; try apply (py_repr_encodable u).
  cbn [py_str]. apply H. reflexivity.
Qed.

(** Enough for a 200. The request is answered with status 200 and one row
    for each position of the shortest column whenever: the symbol is in the
    table; the interval has a digit; the bounds are absent, zero or between
    1970 and the year 9892, with the clock in that span too and a zone
    within a day of UTC; the vendor answers requests to its URL with a
    status outside 400-599 and a JSON object, as the decoder yields it,
    whose six keys hold iterables; and, up to the shortest column, [int]
    accepts each timestamp, a thousand times the timestamp stays within the
    digit limit, and no open, high, low, close or volume is a text that
    holds a lone surrogate. *)
Theorem success_conditions (w : World) (symbol interval : pystr)
    (st et : option Z) (row : Instrument) (response : Response) (d : value)
    (ts o h l c v : list value) :
  find_instrument w symbol = Ok row ->
  existsb (isdigit (unicode w)) interval = true ->
  (forall t, - 86400 < utcoffset w t < 86400) ->
  0 <= fst (clock w) <= 250000000000 ->
  resolvable st et ->
  (forall sent, url sent = DHAN_API_URL -> vendor w sent = Answer response) ->
  passes response ->
  decoded response = inr d ->
  decodable d = true ->
  six_columns d ts o h l c v ->
  (forall i, (i < shortest6 ts o h l c v)%nat ->
     exists n, py_int (unicode w) (nth i ts VNone) = Ok n /\
               within_limit (n * 1000) = true) ->
  texts_encodable (shortest6 ts o h l c v) o ->
  texts_encodable (shortest6 ts o h l c v) h ->
  texts_encodable (shortest6 ts o h l c v) l ->
  texts_encodable (shortest6 ts o h l c v) c ->
  texts_encodable (shortest6 ts o h l c v) v ->
  exists rows,
    serve w symbol interval st et
    = {| status := 200; body := JsonBody (VList rows) |} /\
    List.length rows = shortest6 ts o h l c v /\
    forall i, (i < shortest6 ts o h l c v)%nat ->
      exists n, py_int (unicode w) (nth i ts VNone) = Ok n /\
                nth i rows VNone = row_at (unicode w) o h l c v i n.
Proof.
  intros Hrow Hdigit Hoff Hclock Hres Hvendor Hpass Hdec Hable Hd Hints Ho Hh Hl Hc Hv.
  destruct (date_range_returns w st et Hoff Hclock Hres) as (from_str & to_str & Hrange).
  assert (Hints' : forall i, (i < shortest6 ts o h l c v)%nat ->
                     exists n, py_int (unicode w) (nth i ts VNone) = Ok n).
  { intros i Hi. destruct (Hints i Hi) as (n & Hn & _). eauto. }
  destruct (transform_total w d ts o h l c v Hd Hints') as (rows & Hrows).
  destruct (transform_returns w d ts o h l c v rows Hd Hrows) as [Hlen Hat].
  exists rows.
  split; [|split; assumption].
  assert (Hrenders : renders (VList rows) = true).
  { cbn [renders]. apply forallb_forall. intros r Hr.
    destruct (In_nth rows r VNone Hr) as (i & Hi & <-).
    rewrite Hlen in Hi. destruct (Hat i Hi) as (n & Hn & ->).
    destruct (Hints i Hi) as (n' & Hn' & Hlim).
    assert (n' = n) by congruence. subst n'.
    unfold row_at. cbn [renders forallb]. rewrite Hlim.
    rewrite !py_str_encodable; [reflexivity | | | | | ];
      intros s Hs; [eapply Hv | eapply Hc | eapply Hl | eapply Hh | eapply Ho];
      eassumption. }
  unfold serve.
  rewrite (get_klines_from_interval w symbol interval st et row from_str to_str
             Hrow Hrange).
  rewrite parse_interval_eq.
  pose proof (existsb_filter _ _ Hdigit) as Hne.
  destruct (filter (isdigit (unicode w)) interval) as [|c0 p] eqn:Hp; [congruence|].
  cbn [bind].
  assert (Hpost : post w (request_for w row (c0 :: p) from_str to_str) = Ok response).
  { apply post_ok. split; [apply Hvendor; reflexivity | exact Hpass]. }
  rewrite Hpost. cbn [bind].
  rewrite (proj2 (decode_body_ok response d) (conj Hdec Hable)). cbn [bind].
  rewrite Hrows. cbn [respond]. rewrite Hrenders. reflexivity.
Qed.

Lemma success_conditions_witness :
  exists rows,
    serve (sample_world (answers (ok_json two_candles))) (lit "TCS") (lit "5m")
      (Some 1700000000000) (Some 1700086400000)
    = {| status := 200; body := JsonBody (VList rows) |} /\
    List.length rows = 2%nat /\
    forall i, (i < 2)%nat ->
      exists n,
        py_int latin1_only
          (nth i [VInt 1700000000; VFloat (float_lit 170000006075 (-2))] VNone)
        = Ok n /\
        nth i rows VNone
        = row_at latin1_only
            [VFloat (float_lit 1005 (-1)); VInt 101]
            [VInt 102; VFloat (float_lit 10125 (-2))]
            [VFloat (float_lit 998 (-1)); VInt 100]
            [VInt 101; VInt 101]
            [VInt 2000; VInt 1500; VInt 7] i n.
Proof.
  apply (success_conditions (sample_world (answers (ok_json two_candles)))
           (lit "TCS") (lit "5m") (Some 1700000000000) (Some 1700086400000)
           TCS (ok_json two_candles) two_candles
           [VInt 1700000000; VFloat (float_lit 170000006075 (-2))]
           [VFloat (float_lit 1005 (-1)); VInt 101]
           [VInt 102; VFloat (float_lit 10125 (-2))]
           [VFloat (float_lit 998 (-1)); VInt 100]
           [VInt 101; VInt 101]
           [VInt 2000; VInt 1500; VInt 7]).
  - reflexivity.
  - reflexivity.
  - intros t. simpl. lia.
  - simpl. lia.
  - right. exists 1700000000000, 1700086400000. repeat split; lia.
  - intros sent _. reflexivity.
  - left. simpl. lia.
  - reflexivity.
  - vm_compute. reflexivity.
  - repeat split.
  - intros i Hi. unfold shortest6 in Hi. simpl in Hi.
    destruct i as [|[|i]]; [| |lia]; eexists; split; vm_compute; reflexivity.
  - intros i s Hi. destruct i as [|[|i]]; simpl; try discriminate.
    unfold shortest6 in Hi. simpl in Hi. lia.
  - intros i s Hi. destruct i as [|[|i]]; simpl; try discriminate.
    unfold shortest6 in Hi. simpl in Hi. lia.
  - intros i s Hi. destruct i as [|[|i]]; simpl; try discriminate.
    unfold shortest6 in Hi. simpl in Hi. lia.
  - intros i s Hi. destruct i as [|[|i]]; simpl; try discriminate.
    unfold shortest6 in Hi. simpl in Hi. lia.
  - intros i s Hi. destruct i as [|[|i]]; simpl; try discriminate.
    unfold shortest6 in Hi. simpl in Hi. lia.
Defined.
